(** * Scoring, enrichment and validation of underserved markets

    A shallow embedding of the scoring/ranking pipeline of the market
    research tool: [identify_top_underserved_markets] and
    [create_market_opportunity_profiles] of [synthesize_markets.py],
    [validate_market_profiles] of [validate_markets.py] and the executive
    summary of [generate_final_report.py].

    Modelling conventions.
    - A value loaded by [json.load] is a [json]; a dict is an association
      list in insertion order.  A number of the data is an exact rational
      [Q], and the pipeline is first embedded with exact arithmetic, where
      equality of scores is [Qeq].
    - Properties that depend on the rounding or on the order of the
      additions are stated on the second embedding of the scoring loops, in
      [Module Binary64], whose scores are IEEE 754 binary64 values.
    - A Python [str] is a [string]; each [ascii] stands for a code point
      below 256.
    - A Python exception is the outcome [Raise] of the [result] monad; the
      kind of exception is not recorded.
    - [identify_top_underserved_markets] is the computation of
      [market_list] (source lines 37-179);
      [identify_top_underserved_markets_and_chart] is the whole function,
      with the file and the charts written before it returns. *)

From Stdlib Require Import Floats.
From Stdlib Require Import List String Ascii NArith ZArith QArith Qminmax.
From Stdlib Require Import Bool Arith Lia Lqa Permutation Sorted.
Import ListNotations.

Set Warnings "-register-all".
Set Warnings "-inexact-float".

Local Open Scope string_scope.
Local Open Scope list_scope.
Local Open Scope Q_scope.

(* ================================================================== *)
(** ** Python strings *)

Module PyStr.

(** [str.isspace] on one code point below 256. *)
Definition isspace (c : ascii) : bool :=
  let n := N_of_ascii c in
  (((9 <=? n) && (n <=? 13)) || ((28 <=? n) && (n <=? 32))
   || (n =? 133) || (n =? 160))%N.

(** [str.lower] on one code point below 256. *)
Definition lower_char (c : ascii) : ascii :=
  let n := N_of_ascii c in
  if (((65 <=? n) && (n <=? 90))
      || ((192 <=? n) && (n <=? 222) && negb (n =? 215)))%N
  then ascii_of_N (n + 32) else c.

(** [s.lower()] *)
Fixpoint lower (s : string) : string :=
  match s with
  | EmptyString => EmptyString
  | String c rest => String (lower_char c) (lower rest)
  end.

Definition flush (word : string) : list string :=
  if (word =? "")%string then [] else [word].

(** [s.split()]: the maximal runs of non-whitespace characters, in order.
    [word] is the run being read. *)
Fixpoint split_from (word s : string) : list string :=
  match s with
  | EmptyString => flush word
  | String c rest =>
      if isspace c then flush word ++ split_from "" rest
      else split_from (word ++ String c "")%string rest
  end.

Definition split (s : string) : list string := split_from "" s.

(** [s.startswith(p)] *)
Fixpoint starts_with (p s : string) : bool :=
  match p, s with
  | EmptyString, _ => true
  | String _ _, EmptyString => false
  | String a p', String b s' => (a =? b)%char && starts_with p' s'
  end.

(** [sub in s] for two strings: [sub] starts at some position of [s]. *)
Fixpoint str_in (sub s : string) : bool :=
  starts_with sub s ||
  match s with
  | EmptyString => false
  | String _ rest => str_in sub rest
  end.

(** [x in xs] for a string and a list of strings. *)
Definition mem (x : string) (xs : list string) : bool :=
  existsb (String.eqb x) xs.

(** The declarative reading of [sub in s]. *)
Definition substring_of (sub s : string) : Prop :=
  exists before after, s = (before ++ sub ++ after)%string.

End PyStr.

(* ================================================================== *)
(** ** JSON values and the operations Python applies to them *)

Inductive json : Type :=
| JNull
| JBool (b : bool)
| JNum (q : Q)
| JStr (s : string)
| JList (items : list json)
| JDict (fields : list (string * json)).

Inductive result (A : Type) : Type :=
| Ok (a : A)
| Raise.

Arguments Ok {A} a.
Arguments Raise {A}.

Definition bind {A B} (r : result A) (k : A -> result B) : result B :=
  match r with
  | Ok a => k a
  | Raise => Raise
  end.

Notation "x <- c ;; k" := (bind c (fun x => k))
  (at level 61, c at next level, right associativity).

Module Py.

(** [not v] is [negb (truthy v)]. *)
Definition truthy (v : json) : bool :=
  match v with
  | JNull => false
  | JBool b => b
  | JNum q => negb (Qeq_bool q 0)
  | JStr s => negb (s =? "")%string
  | JList items => match items with [] => false | _ => true end
  | JDict fields => match fields with [] => false | _ => true end
  end.

Fixpoint assoc (key : string) (fields : list (string * json)) : option json :=
  match fields with
  | [] => None
  | (k, v) :: rest => if (k =? key)%string then Some v else assoc key rest
  end.

(** [v.get(key, default)]: only a dict has the method. *)
Definition get (v : json) (key : string) (default : json) : result json :=
  match v with
  | JDict fields =>
      Ok (match assoc key fields with Some x => x | None => default end)
  | _ => Raise
  end.

Fixpoint chars (s : string) : list json :=
  match s with
  | EmptyString => []
  | String c rest => JStr (String c "") :: chars rest
  end.

(** [for x in v]: a list yields its items, a dict its keys, a string its
    characters; nothing else is iterable. *)
Definition iter (v : json) : result (list json) :=
  match v with
  | JList items => Ok items
  | JDict fields => Ok (map (fun kv => JStr (fst kv)) fields)
  | JStr s => Ok (chars s)
  | _ => Raise
  end.

(** A value used in [+], [/], [*] with a number and in [min]. *)
Definition num (v : json) : result Q :=
  match v with
  | JNum q => Ok q
  | JBool b => Ok (if b then 1 else 0)
  | _ => Raise
  end.

(** A value on which [.lower()] is called. *)
Definition str (v : json) : result string :=
  match v with
  | JStr s => Ok s
  | _ => Raise
  end.

(** [v == s] for a string literal [s]. *)
Definition eq_str (v : json) (s : string) : bool :=
  match v with
  | JStr t => (t =? s)%string
  | _ => false
  end.

(** A [for] loop whose body may raise. *)
Fixpoint for_each {S A : Type} (body : S -> A -> result S)
         (items : list A) (s : S) : result S :=
  match items with
  | [] => Ok s
  | x :: rest => s' <- body s x ;; for_each body rest s'
  end.

(** A loop that reads every item, keeping those the reader does not skip. *)
Fixpoint read_all {A B : Type} (read : A -> result (option B))
         (items : list A) : result (list B) :=
  match items with
  | [] => Ok []
  | x :: rest =>
      r <- read x ;;
      tl <- read_all read rest ;;
      Ok (match r with Some b => b :: tl | None => tl end)
  end.

End Py.

(** [combined_data.get(section, {}).get(key, [])] *)
Definition section_list (combined_data : json) (section key : string)
  : result json :=
  s <- Py.get combined_data section (JDict []) ;;
  Py.get s key (JList []).

(* ================================================================== *)
(** ** The scoring engine: [identify_top_underserved_markets] *)

Record MarketCandidate : Type := mkCandidate {
  name : string;
  total_score : Q;
  gap_score : Q;
  mention_score : Q;
  sentiment_score : Q;
  growth_alignment : Q;
  tech_alignment : Q;
  sector_alignment : Q;
  barriers : json;
  growth_potential : json;
  sources : list string
}.

(** The dict literal stored under a market name seen for the first time. *)
Definition new_candidate (market_name : string) : MarketCandidate :=
  mkCandidate market_name 0 0 0 0 0 0 0 (JList []) (JStr "") [].

(** [market_scores]: a dict from market name to candidate, in insertion
    order. *)
Definition scores : Type := list (string * MarketCandidate).

Fixpoint lookup (market_name : string) (market_scores : scores)
  : option MarketCandidate :=
  match market_scores with
  | [] => None
  | (k, c) :: rest =>
      if (k =? market_name)%string then Some c else lookup market_name rest
  end.

(** [if market_name not in market_scores: market_scores[market_name] = {...}] *)
Definition ensure (market_name : string) (market_scores : scores) : scores :=
  match lookup market_name market_scores with
  | Some _ => market_scores
  | None => market_scores ++ [(market_name, new_candidate market_name)]
  end.

(** The in-place updates of [market_scores[market_name]]. *)
Fixpoint update (market_name : string)
         (f : MarketCandidate -> MarketCandidate) (market_scores : scores)
  : scores :=
  match market_scores with
  | [] => []
  | (k, c) :: rest =>
      if (k =? market_name)%string then (k, f c) :: rest
      else (k, c) :: update market_name f rest
  end.

(** One record of [underserved_markets], as the loop body reads it. *)
Record UnderservedMarket : Type := mkUnderserved {
  um_market : string;
  um_gap_score : Q;
  um_growth_potential : json;
  um_barriers : json
}.

(** One record of [market_mentions], as the loop body reads it. *)
Record MarketMention : Type := mkMention {
  mm_market : string;
  mm_mention_count : Q;
  mm_sentiment_score : Q
}.

(** A truthy market name is used as a dict key and later receives
    [.lower()]: a list or dict is unhashable, and any other non-string raises
    in the alignment loop, which visits every key.  Either way the call
    raises. *)
Definition market_key (market_name : json) : result string :=
  Py.str market_name.

Definition read_underserved (market : json)
  : result (option UnderservedMarket) :=
  market_name <- Py.get market "market" (JStr "") ;;
  if negb (Py.truthy market_name) then Ok None else
  market_name <- market_key market_name ;;
  gap_json <- Py.get market "gap_score" (JNum 0) ;;
  gap_score <- Py.num gap_json ;;
  growth_potential <- Py.get market "growth_potential" (JStr "") ;;
  barriers <- Py.get market "barriers" (JList []) ;;
  Ok (Some (mkUnderserved market_name gap_score growth_potential barriers)).

Definition read_mention (mention : json) : result (option MarketMention) :=
  market_name <- Py.get mention "market" (JStr "") ;;
  if negb (Py.truthy market_name) then Ok None else
  market_name <- market_key market_name ;;
  count_json <- Py.get mention "mention_count" (JNum 0) ;;
  mention_count <- Py.num count_json ;;
  sentiment_json <- Py.get mention "sentiment_score" (JNum 0) ;;
  sentiment <- Py.num sentiment_json ;;
  Ok (Some (mkMention market_name mention_count sentiment)).

(** Body of the first loop (source lines 59-90). *)
Definition score_underserved (market_scores : scores)
           (market : UnderservedMarket) : scores :=
  let market_name := um_market market in
  update market_name
    (fun c =>
       let total := total_score c + um_gap_score market in
       let total :=
         if Py.eq_str (um_growth_potential market) "High" then total + 3
         else if Py.eq_str (um_growth_potential market) "Medium"
              then total + 1.5
              else total in
       mkCandidate (name c) total (um_gap_score market)
                   (mention_score c) (sentiment_score c)
                   (growth_alignment c) (tech_alignment c)
                   (sector_alignment c)
                   (um_barriers market) (um_growth_potential market)
                   (sources c ++ ["economic_indicators"%string]))
    (ensure market_name market_scores).

Definition mention_score_of (mention_count : Q) : Q :=
  Qmin 10 (mention_count / 3).

Definition sentiment_score_of (sentiment : Q) : Q :=
  Qmin 5 (sentiment * 5).

(** Body of the second loop (source lines 98-127). *)
Definition score_mention (market_scores : scores) (mention : MarketMention)
  : scores :=
  let market_name := mm_market mention in
  update market_name
    (fun c =>
       let mention_score := mention_score_of (mm_mention_count mention) in
       let total := total_score c + mention_score in
       let sentiment_score :=
         sentiment_score_of (mm_sentiment_score mention) in
       let total := total + sentiment_score in
       mkCandidate (name c) total (gap_score c)
                   mention_score sentiment_score
                   (growth_alignment c) (tech_alignment c)
                   (sector_alignment c)
                   (barriers c) (growth_potential c)
                   (if PyStr.mem "web_scraping" (sources c) then sources c
                    else sources c ++ ["web_scraping"%string]))
    (ensure market_name market_scores).

Definition Qnat (n : nat) : Q := inject_Z (Z.of_nat n).

(** [any(word in market_words for word in words)] *)
Definition any_word_in (words market_words : list string) : bool :=
  existsb (fun word => PyStr.mem word market_words) words.

(** [words = x.lower().split(); any(word in market_words ...)] *)
Definition aligned (market_words : list string) (x : string) : bool :=
  any_word_in (PyStr.split (PyStr.lower x)) market_words.

(** The counting loops: [n += 1] for each aligned entry. *)
Definition count_aligned (market_words : list string) (xs : list string)
  : nat :=
  fold_left (fun n x => if aligned market_words x then S n else n) xs 0%nat.

(** The investment loop: [total_score += 1] for each aligned area. *)
Definition add_investment (market_words : list string) (areas : list string)
           (total : Q) : Q :=
  fold_left (fun t area => if aligned market_words area then t + 1 else t)
            areas total.

(** Body of the third loop (source lines 130-175); [emerging_tech] holds the
    ['technology'] names. *)
Definition align (growth_sectors hot_investment_areas emerging_tech
                  trending_sectors : list string)
           (market_name : string) (market_data : MarketCandidate)
  : MarketCandidate :=
  let market_words := PyStr.split (PyStr.lower market_name) in
  let growth_alignment :=
    Nat.min 3 (count_aligned market_words growth_sectors) in
  let total := total_score market_data + Qnat growth_alignment in
  let total := add_investment market_words hot_investment_areas total in
  let tech_alignment :=
    Nat.min 3 (count_aligned market_words emerging_tech) in
  let total := total + Qnat tech_alignment in
  let sector_alignment :=
    Nat.min 3 (count_aligned market_words trending_sectors) in
  let total := total + Qnat sector_alignment in
  mkCandidate (name market_data) total (gap_score market_data)
              (mention_score market_data) (sentiment_score market_data)
              (Qnat growth_alignment) (Qnat tech_alignment)
              (Qnat sector_alignment)
              (barriers market_data) (growth_potential market_data)
              (sources market_data).

(** [list.sort(key=..., reverse=True)] is a stable sort, descending in the
    key.  [key_le y x] decides [key(y) <= key(x)]; [insert_desc x l] puts
    [x] in front of the first element of [l] whose key does not exceed that
    of [x], and [sort_desc] inserts the elements from the last to the
    first, so elements with equal keys keep their order. *)
Section StableSort.
Context {A : Type} (key_le : A -> A -> bool).

Fixpoint insert_desc (x : A) (l : list A) : list A :=
  match l with
  | [] => [x]
  | y :: rest =>
      if key_le y x then x :: y :: rest else y :: insert_desc x rest
  end.

Definition sort_desc (l : list A) : list A := fold_right insert_desc [] l.

(** [x] may stand before [y]: the key of [x] is at least that of [y]. *)
Definition key_ge (x y : A) : Prop := key_le y x = true.
End StableSort.

(** [key=lambda x: x['total_score']] *)
Definition by_total_score (y x : MarketCandidate) : bool :=
  Qle_bool (total_score y) (total_score x).

(** Readers for the four lists of the alignment loop. *)
Definition read_name (x : json) : result (option string) :=
  s <- Py.str x ;; Ok (Some s).

Definition read_technology (tech : json) : result (option string) :=
  t <- Py.get tech "technology" (JStr "") ;;
  s <- Py.str t ;; Ok (Some s).

Definition read_list {B : Type} (read : json -> result (option B))
           (v : json) : result (list B) :=
  items <- Py.iter v ;; Py.read_all read items.

(** The third loop on one entry of [market_scores]: the four lists are
    traversed once per market, so nothing in them is touched when
    [market_scores] is empty. *)
Definition align_entry (growth_sectors hot_investment_areas emerging_tech
                        trending_sectors : json)
           (done : scores) (entry : string * MarketCandidate)
  : result scores :=
  gs <- read_list read_name growth_sectors ;;
  hs <- read_list read_name hot_investment_areas ;;
  es <- read_list read_technology emerging_tech ;;
  ts <- read_list read_name trending_sectors ;;
  Ok (done ++ [(fst entry, align gs hs es ts (fst entry) (snd entry))]).

Definition identify_top_underserved_markets (combined_data : json)
  : result (list MarketCandidate) :=
  if negb (Py.truthy combined_data) then Ok [] else
  underserved_markets <-
    section_list combined_data "underserved_markets" "markets" ;;
  market_mentions <-
    section_list combined_data "market_mentions" "market_mentions" ;;
  news_sentiment <-
    section_list combined_data "news_sentiment" "sentiment_by_query" ;;
  growth_sectors <-
    section_list combined_data "economic_growth" "growth_sectors" ;;
  hot_investment_areas <-
    section_list combined_data "economic_growth" "hot_investment_areas" ;;
  emerging_tech <-
    section_list combined_data "emerging_technologies" "technologies" ;;
  trending_sectors <-
    section_list combined_data "website_trends" "top_sectors" ;;
  markets <- Py.iter underserved_markets ;;
  market_scores <-
    Py.for_each
      (fun ms market =>
         r <- read_underserved market ;;
         Ok (match r with Some m => score_underserved ms m | None => ms end))
      markets [] ;;
  mentions <- Py.iter market_mentions ;;
  market_scores <-
    Py.for_each
      (fun ms mention =>
         r <- read_mention mention ;;
         Ok (match r with Some m => score_mention ms m | None => ms end))
      mentions market_scores ;;
  market_scores <-
    Py.for_each
      (align_entry growth_sectors hot_investment_areas emerging_tech
                   trending_sectors)
      market_scores [] ;;
  Ok (sort_desc by_total_score (map snd market_scores)).

(** *** The typed view of [combined_data]

    [read_inputs] reads everything the three loops can read; when it
    succeeds the call does not raise, and its result is [rank_markets]. *)

Record Inputs : Type := mkInputs {
  underserved_markets : list UnderservedMarket;
  market_mentions : list MarketMention;
  growth_sectors : list string;
  hot_investment_areas : list string;
  emerging_tech : list string;
  trending_sectors : list string
}.

Definition read_inputs (combined_data : json) : result Inputs :=
  underserved <-
    section_list combined_data "underserved_markets" "markets" ;;
  mentions <-
    section_list combined_data "market_mentions" "market_mentions" ;;
  news_sentiment <-
    section_list combined_data "news_sentiment" "sentiment_by_query" ;;
  growth <- section_list combined_data "economic_growth" "growth_sectors" ;;
  hot <-
    section_list combined_data "economic_growth" "hot_investment_areas" ;;
  tech <-
    section_list combined_data "emerging_technologies" "technologies" ;;
  trending <- section_list combined_data "website_trends" "top_sectors" ;;
  us <- read_list read_underserved underserved ;;
  mms <- read_list read_mention mentions ;;
  gs <- read_list read_name growth ;;
  hs <- read_list read_name hot ;;
  es <- read_list read_technology tech ;;
  ts <- read_list read_name trending ;;
  Ok (mkInputs us mms gs hs es ts).

(** [market_scores] after the first two loops. *)
Definition collect (i : Inputs) : scores :=
  fold_left score_mention (market_mentions i)
            (fold_left score_underserved (underserved_markets i) []).

Definition align_with (i : Inputs) (entry : string * MarketCandidate)
  : string * MarketCandidate :=
  (fst entry,
   align (growth_sectors i) (hot_investment_areas i) (emerging_tech i)
         (trending_sectors i) (fst entry) (snd entry)).

(** [market_scores] after the three loops. *)
Definition score_markets (i : Inputs) : scores :=
  map (align_with i) (collect i).

(** [list(market_scores.values())], before the sort. *)
Definition inserted (i : Inputs) : list MarketCandidate :=
  map snd (score_markets i).

Definition rank_markets (i : Inputs) : list MarketCandidate :=
  sort_desc by_total_score (inserted i).

(** *** The file and the charts (source lines 181-218)

    Before it returns, the function writes [market_list] to a file and
    draws two bar charts.  The first is drawn from
    [pd.DataFrame(market_list[:10])] with [x='total_score'] and
    [y='name']: a frame built from the empty list has no column, and
    [sns.barplot] raises a [ValueError] for a column that the data does not
    have.  The second is drawn from one row per component of each of
    [market_list[:5]], with the columns ['score'], ['market'] and
    ['component'].  Every candidate has the keys that the charts read, so
    with a non-empty list both are drawn; the output directory is taken
    to be writable. *)
Definition chart_top_markets (market_list : list MarketCandidate)
  : result unit :=
  match firstn 10 market_list with
  | [] => Raise
  | _ :: _ => Ok tt
  end.

Definition components : list string :=
  ["gap_score"; "mention_score"; "sentiment_score"; "growth_alignment";
   "tech_alignment"; "sector_alignment"].

(** The rows of [component_data], as market name and component name. *)
Definition component_data (market_list : list MarketCandidate)
  : list (string * string) :=
  flat_map (fun market => map (fun component => (name market, component))
                              components)
           (firstn 5 market_list).

Definition chart_score_components (market_list : list MarketCandidate)
  : result unit :=
  match component_data market_list with
  | [] => Raise
  | _ :: _ => Ok tt
  end.

(** The whole function: the early return, the computation of
    [market_list], the file and the charts, and the return. *)
Definition identify_top_underserved_markets_and_chart (combined_data : json)
  : result (list MarketCandidate) :=
  if negb (Py.truthy combined_data) then Ok [] else
  market_list <- identify_top_underserved_markets combined_data ;;
  _ <- chart_top_markets market_list ;;
  _ <- chart_score_components market_list ;;
  Ok market_list.
(* ================================================================== *)
(** ** The profile enricher: [create_market_opportunity_profiles] *)

(** One entry of [emerging_tech]; the fields other than the name are passed
    through unread. *)
Record Technology : Type := mkTechnology {
  technology : string;
  market_readiness : json;
  investment_trend : json;
  adoption_barriers : json
}.

(** One entry of [website_trends]. *)
Record Trend : Type := mkTrend {
  title : string;
  description : string;
  source : json;
  sectors : json;
  sentiment : json
}.

(** What the enricher reads from a truthy [combined_data]. *)
Record EnrichmentData : Type := mkEnrichment {
  enrich_emerging_tech : list Technology;
  enrich_website_trends : list Trend
}.

Record RelatedTechnology : Type := mkRelatedTechnology {
  rt_name : string;
  rt_market_readiness : json;
  rt_investment_trend : json;
  rt_adoption_barriers : json
}.

Record RelatedTrend : Type := mkRelatedTrend {
  rtr_title : string;
  rtr_description : string;
  rtr_source : json;
  rtr_sectors : json;
  rtr_sentiment : json
}.

Record Profile : Type := mkProfile {
  market_name : string;
  opportunity_score : Q;
  profile_gap_score : Q;
  profile_growth_potential : json;
  barriers_to_entry : json;
  data_sources : list string;
  related_technologies : list RelatedTechnology;
  related_trends : list RelatedTrend;
  target_demographics : list string;
  business_model_suggestions : list string
}.

(** The dict appended to [profile['related_technologies']]. *)
Definition related_technology (tech : Technology) : RelatedTechnology :=
  mkRelatedTechnology (technology tech) (market_readiness tech)
                      (investment_trend tech) (adoption_barriers tech).

Definition related_trend (trend : Trend) : RelatedTrend :=
  mkRelatedTrend (title trend) (description trend) (source trend)
                 (sectors trend) (sentiment trend).

(** [any(keyword in tech_name for keyword in market_keywords)] *)
Definition keyword_in_technology (market_keywords : list string)
           (tech : Technology) : bool :=
  let tech_name := PyStr.lower (technology tech) in
  existsb (fun keyword => PyStr.str_in keyword tech_name) market_keywords.

(** [any(keyword in trend_title or keyword in trend_desc for ...)] *)
Definition keyword_in_trend (market_keywords : list string) (trend : Trend)
  : bool :=
  let trend_title := PyStr.lower (title trend) in
  let trend_desc := PyStr.lower (description trend) in
  existsb (fun keyword => PyStr.str_in keyword trend_title
                          || PyStr.str_in keyword trend_desc)
          market_keywords.

(** The loop over [emerging_tech] (source lines 306-314). *)
Definition find_related_technologies (market_keywords : list string)
           (emerging : list Technology) : list RelatedTechnology :=
  fold_left
    (fun related tech =>
       if keyword_in_technology market_keywords tech
       then related ++ [related_technology tech] else related)
    emerging [].

(** The loop over [website_trends] (source lines 317-328). *)
Definition find_related_trends (market_keywords : list string)
           (trends : list Trend) : list RelatedTrend :=
  fold_left
    (fun related trend =>
       if keyword_in_trend market_keywords trend
       then related ++ [related_trend trend] else related)
    trends [].

(** The conditionals of source lines 331-359. *)
Definition demographics_for (market_name : string) : list string :=
  let has kw := PyStr.str_in kw (PyStr.lower market_name) in
  (if has "elderly" || has "senior" || has "aging"
   then ["Seniors (65+)"; "Adult children of seniors";
         "Healthcare providers"]
   else [])
  ++ (if has "rural"
      then ["Rural communities"; "Small town residents";
            "Agricultural sector"]
      else [])
  ++ (if has "health" || has "wellness" || has "care"
      then ["Health-conscious consumers"; "Healthcare providers";
            "Insurance companies"]
      else [])
  ++ (if has "education" || has "learning" || has "training"
      then ["Students"; "Working professionals";
            "Educational institutions"]
      else [])
  ++ (if has "housing" || has "home"
      then ["First-time homebuyers"; "Middle-income families";
            "Real estate developers"]
      else [])
  ++ (if has "childcare"
      then ["Working parents"; "Single-parent households";
            "Employers with parent employees"]
      else []).

(** The conditionals of source lines 362-385. *)
Definition business_models_for (market_name : string) : list string :=
  let has kw := PyStr.str_in kw (PyStr.lower market_name) in
  (if has "technology" || has "tech"
   then ["SaaS subscription model"; "Hardware + software solution";
         "B2B enterprise sales"]
   else [])
  ++ (if has "healthcare" || has "health"
      then ["Telehealth platform"; "Insurance partnerships";
            "Direct-to-consumer health services"]
      else [])
  ++ (if has "education" || has "learning"
      then ["Freemium learning platform"; "B2B institutional sales";
            "Certification programs"]
      else [])
  ++ (if has "sustainable" || has "packaging"
      then ["B2B supplier model"; "Circular economy approach";
            "Subscription refill service"]
      else [])
  ++ (if has "rural"
      then ["Hub and spoke distribution"; "Mobile service delivery";
            "Community partnership model"]
      else []).

(** The profile built for one market with a non-empty name. *)
Definition build_profile (data : EnrichmentData) (market : MarketCandidate)
  : Profile :=
  let market_name := name market in
  let market_keywords := PyStr.split (PyStr.lower market_name) in
  mkProfile market_name (total_score market) (gap_score market)
            (growth_potential market) (barriers market) (sources market)
            (find_related_technologies market_keywords
                                       (enrich_emerging_tech data))
            (find_related_trends market_keywords
                                 (enrich_website_trends data))
            (demographics_for market_name)
            (business_models_for market_name).

(** [combined_data] is [None] when it is falsy ([None] or an empty dict). *)
Definition create_market_opportunity_profiles
           (market_list : list MarketCandidate)
           (combined_data : option EnrichmentData) : list Profile :=
  match market_list, combined_data with
  | [], _ => []
  | _, None => []
  | _, Some data =>
      let top_markets := firstn 10 market_list in
      fold_left
        (fun market_profiles market =>
           if (name market =? "")%string then market_profiles
           else market_profiles ++ [build_profile data market])
        top_markets []
  end.

(* ================================================================== *)
(** ** The validator: [validate_market_profiles] *)

(** A value of [validation_data]; every field is read with [.get] and may
    be absent. *)
Record ValidationRecord : Type := mkRecord {
  vr_market_size_usd_billions : option Q;
  vr_cagr_percent : option Q;
  vr_validation_score : option Q;
  vr_supporting_indicators : option (list string);
  vr_validation_sources : option (list string)
}.

(** [validated_profile['validation']] *)
Record Validation : Type := mkValidation {
  is_validated : bool;
  validation_score : Q;
  market_size_usd_billions : Q;
  cagr_percent : Q;
  supporting_indicators : list string;
  validation_sources : list string
}.

(** [profile.copy()] with the ['validation'] key added. *)
Record ValidatedProfile : Type := mkValidated {
  profile : Profile;
  validation : Validation
}.

Definition get_or {A : Type} (field : option A) (default : A) : A :=
  match field with
  | Some x => x
  | None => default
  end.

(** The dict stored before the lookup (source lines 241-248). *)
Definition not_validated : Validation :=
  mkValidation false 0 0 0 [] [].

(** The dict stored on a match (source lines 254-261). *)
Definition validated_with (valid_data : ValidationRecord) : Validation :=
  mkValidation true
               (get_or (vr_validation_score valid_data) 0)
               (get_or (vr_market_size_usd_billions valid_data) 0)
               (get_or (vr_cagr_percent valid_data) 0)
               (get_or (vr_supporting_indicators valid_data) [])
               (get_or (vr_validation_sources valid_data) []).

(** [market_name == valid_market or valid_market in market_name] *)
Definition key_matches (market_name valid_market : string) : bool :=
  (market_name =? valid_market)%string
  || PyStr.str_in valid_market market_name.

(** The lookup loop with its [break] (source lines 251-262). *)
Fixpoint lookup_validation (market_name : string)
         (validation_data : list (string * ValidationRecord)) : Validation :=
  match validation_data with
  | [] => not_validated
  | (valid_market, valid_data) :: rest =>
      if key_matches market_name valid_market
      then validated_with valid_data
      else lookup_validation market_name rest
  end.

Definition validate_profile
           (validation_data : list (string * ValidationRecord))
           (p : Profile) : ValidatedProfile :=
  mkValidated p (lookup_validation (market_name p) validation_data).

(** The sort key [(validation_score or 0, opportunity_score)], compared as
    Python compares tuples. *)
Definition by_validation (y x : ValidatedProfile) : bool :=
  let vy := validation_score (validation y) in
  let vx := validation_score (validation x) in
  if Qeq_bool vy vx
  then Qle_bool (opportunity_score (profile y))
                (opportunity_score (profile x))
  else Qle_bool vy vx.

Definition validate_market_profiles (profiles : list Profile)
           (validation_data : list (string * ValidationRecord))
  : list ValidatedProfile :=
  match profiles with
  | [] => []
  | _ =>
      sort_desc by_validation
        (fold_left
           (fun validated_profiles p =>
              validated_profiles ++ [validate_profile validation_data p])
           profiles [])
  end.

Definition reference_record (size cagr score : Q)
           (indicators sources_ : list string) : ValidationRecord :=
  mkRecord (Some size) (Some cagr) (Some score) (Some indicators)
           (Some sources_).

(** The table built by [validate_with_databank_indicators]. *)
Definition validation_data : list (string * ValidationRecord) :=
  [ ("Rural Healthcare Technology",
     reference_record 18.5 16.8 8.7
       ["Healthcare accessibility index in rural areas";
        "Digital infrastructure penetration in rural communities";
        "Healthcare spending per capita in rural vs urban areas"]
       ["World Health Organization Rural Health Statistics";
        "International Telecommunication Union Reports";
        "Healthcare Access and Quality Index"]);
    ("Elderly-focused Technology",
     reference_record 25.3 14.2 8.4
       ["Aging population growth rate";
        "Technology adoption rates among 65+ demographic";
        "Healthcare expenditure for elderly care"]
       ["UN World Population Prospects";
        "Consumer Technology Association Senior Reports";
        "OECD Health Statistics"]);
    ("Mental Health Technology",
     reference_record 21.9 19.6 9.1
       ["Mental health disorder prevalence";
        "Mental health professional shortage areas";
        "Digital mental health service adoption rates"]
       ["WHO Mental Health Atlas";
        "National Institute of Mental Health Statistics";
        "Digital Health Market Analysis Reports"]);
    ("Sustainable Packaging Solutions",
     reference_record 34.2 15.8 8.5
       ["Plastic waste generation per capita";
        "Corporate sustainability commitments";
        "Consumer preference for sustainable packaging"]
       ["UN Environment Programme Waste Statistics";
        "Ellen MacArthur Foundation Circular Economy Reports";
        "Consumer Packaging Preference Surveys"]);
    ("Middle-Income Housing",
     reference_record 42.7 9.3 7.9
       ["Housing affordability index";
        "Middle-income household formation rate";
        "Housing supply gap in middle market"]
       ["World Bank Housing Finance Data";
        "National Housing Statistics";
        "Urban Development Research Reports"]);
    ("Educational Technology for Vocational Training",
     reference_record 16.8 17.2 8.2
       ["Skills gap in technical occupations";
        "Vocational education enrollment trends";
        "Employer investment in workforce training"]
       ["International Labour Organization Skills Reports";
        "UNESCO Education Statistics";
        "Industry Workforce Development Surveys"]);
    ("Affordable Childcare Solutions",
     reference_record 29.5 12.7 8.8
       ["Childcare cost as percentage of household income";
        "Female workforce participation rate";
        "Childcare availability index"]
       ["OECD Family Database";
        "National Childcare Surveys";
        "Labor Force Participation Statistics"]);
    ("Sustainable Agriculture Technology",
     reference_record 22.4 16.5 8.3
       ["Agricultural resource efficiency metrics";
        "Climate impact on crop yields";
        "Sustainable farming practice adoption rates"]
       ["FAO Agricultural Statistics";
        "Climate Change Impact Reports";
        "Sustainable Agriculture Research Journals"]);
    ("Remote Work Technology",
     reference_record 38.6 18.9 8.9
       ["Remote work adoption by industry";
        "Productivity metrics for remote workers";
        "Digital collaboration tool usage"]
       ["Global Workplace Analytics";
        "Bureau of Labor Statistics";
        "Enterprise Technology Market Reports"]);
    ("Telemedicine Services",
     reference_record 40.2 22.4 9.3
       ["Telemedicine adoption rates";
        "Healthcare provider telemedicine implementation";
        "Patient satisfaction with virtual care"]
       ["American Medical Association Telehealth Reports";
        "Healthcare Information and Management Systems Society";
        "Patient Experience Surveys"]) ].

(* ================================================================== *)
(** ** Consumers of the validated profiles *)

(** *** [generate_executive_summary] of [generate_final_report.py]: the
    count of validated markets and the top five by validation score. *)

(** One dict of [top_markets]. *)
Record TopMarket : Type := mkTopMarket {
  top_name : string;
  top_validation_score : Q;
  top_market_size : Q;
  top_cagr : Q
}.

Definition top_market_of (p : ValidatedProfile) : TopMarket :=
  mkTopMarket (market_name (profile p))
              (validation_score (validation p))
              (market_size_usd_billions (validation p))
              (cagr_percent (validation p)).

(** [sum(1 for p in validated_profiles if ...['is_validated'])] *)
Definition validated_count (validated_profiles : list ValidatedProfile)
  : nat :=
  list_sum (map (fun _ => 1%nat)
                (filter (fun p => is_validated (validation p))
                        validated_profiles)).

(** [key=lambda x: x['validation_score']] *)
Definition by_top_validation_score (y x : TopMarket) : bool :=
  Qle_bool (top_validation_score y) (top_validation_score x).

(** The loop, the sort and the slice [[:5]] (source lines 69-81). *)
Definition top_markets (validated_profiles : list ValidatedProfile)
  : list TopMarket :=
  let top :=
    fold_left
      (fun top p =>
         if is_validated (validation p) then top ++ [top_market_of p]
         else top)
      validated_profiles [] in
  firstn 5 (sort_desc by_top_validation_score top).

(** *** [generate_validation_report] of [validate_markets.py]: which
    profiles get a section, and under which number.  The loop enumerates
    all profiles from 1 and skips the unvalidated ones (source lines
    372-377); the text of a section is not modelled. *)
Definition report_sections (validated_profiles : list ValidatedProfile)
  : list (nat * ValidatedProfile) :=
  snd (fold_left
         (fun state p =>
            let i := fst state in
            (S i,
             if is_validated (validation p) then snd state ++ [(i, p)]
             else snd state))
         validated_profiles (1%nat, [])).

(* ================================================================== *)
(** ** Vocabulary of the properties *)

(** The bonus the first loop adds to [total_score] for a growth potential. *)
Definition growth_bonus (growth_potential : json) : Q :=
  if Py.eq_str growth_potential "High" then 3
  else if Py.eq_str growth_potential "Medium" then 1.5
  else 0.

(** The number of investment areas sharing a word with the market name. *)
Definition investment_bonus (market_name : string) (areas : list string)
  : Q :=
  Qnat (count_aligned (PyStr.split (PyStr.lower market_name)) areas).

(** The sum of the six stored component fields. *)
Definition component_sum (c : MarketCandidate) : Q :=
  gap_score c + mention_score c + sentiment_score c
  + growth_alignment c + tech_alignment c + sector_alignment c.

(** What the underserved-market records named [k] contribute together. *)
Fixpoint underserved_total (k : string) (us : list UnderservedMarket) : Q :=
  match us with
  | [] => 0
  | u :: rest =>
      (if (um_market u =? k)%string
       then um_gap_score u + growth_bonus (um_growth_potential u)
       else 0)
      + underserved_total k rest
  end.

(** What the mention records named [k] contribute together. *)
Fixpoint mention_total (k : string) (mms : list MarketMention) : Q :=
  match mms with
  | [] => 0
  | m :: rest =>
      (if (mm_market m =? k)%string
       then mention_score_of (mm_mention_count m)
            + sentiment_score_of (mm_sentiment_score m)
       else 0)
      + mention_total k rest
  end.

(** The last record named [k], if any. *)
Definition last_underserved (k : string) (us : list UnderservedMarket)
  : option UnderservedMarket :=
  find (fun u => (um_market u =? k)%string) (rev us).

Definition last_mention (k : string) (mms : list MarketMention)
  : option MarketMention :=
  find (fun m => (mm_market m =? k)%string) (rev mms).

Definition last_gap_score (k : string) (us : list UnderservedMarket) : Q :=
  match last_underserved k us with
  | Some u => um_gap_score u
  | None => 0
  end.

Definition last_growth_potential (k : string) (us : list UnderservedMarket)
  : json :=
  match last_underserved k us with
  | Some u => um_growth_potential u
  | None => JStr ""
  end.

Definition last_mention_score (k : string) (mms : list MarketMention) : Q :=
  match last_mention k mms with
  | Some m => mention_score_of (mm_mention_count m)
  | None => 0
  end.

Definition last_sentiment_score (k : string) (mms : list MarketMention)
  : Q :=
  match last_mention k mms with
  | Some m => sentiment_score_of (mm_sentiment_score m)
  | None => 0
  end.

(** The candidate stored under [k], or the one that would be created. *)
Definition candidate_at (k : string) (market_scores : scores)
  : MarketCandidate :=
  match lookup k market_scores with
  | Some c => c
  | None => new_candidate k
  end.

(** The state of a candidate after the first two loops have processed [us]
    and [mms]. *)
Record accounted (us : list UnderservedMarket) (mms : list MarketMention)
       (k : string) (c : MarketCandidate) : Prop := mkAccounted {
  acc_name : name c = k;
  acc_total : total_score c == underserved_total k us + mention_total k mms;
  acc_gap : gap_score c = last_gap_score k us;
  acc_growth_potential : growth_potential c = last_growth_potential k us;
  acc_mention : mention_score c = last_mention_score k mms;
  acc_sentiment : sentiment_score c = last_sentiment_score k mms;
  acc_growth_alignment : growth_alignment c = 0;
  acc_tech_alignment : tech_alignment c = 0;
  acc_sector_alignment : sector_alignment c = 0
}.

(** Keys of a dict in the order of first insertion of [names]. *)
Definition see (seen : list string) (n : string) : list string :=
  if PyStr.mem n seen then seen else seen ++ [n].

Definition first_seen (names : list string) : list string :=
  fold_left see names [].

(** The names in the order the first two loops meet them. *)
Definition names_met (i : Inputs) : list string :=
  map um_market (underserved_markets i) ++ map mm_market (market_mentions i).

(** [a] occurs before [b] in [l]. *)
Definition precedes {A : Type} (a b : A) (l : list A) : Prop :=
  exists l1 l2 l3, l = l1 ++ a :: l2 ++ b :: l3.

Definition has_score (q : Q) (c : MarketCandidate) : bool :=
  Qeq_bool (total_score c) q.

(** [valid_market] matches [market_name]: equal to it or a substring of
    it. *)
Definition matches (valid_market market_name : string) : Prop :=
  market_name = valid_market \/ PyStr.substring_of valid_market market_name.

(** *** Well-typed [combined_data]: any field may be absent, a field that
    is present has the type the loops use it at. *)

Definition is_num (v : json) : bool :=
  match v with
  | JNum _ | JBool _ => true
  | _ => false
  end.

Definition is_str (v : json) : bool :=
  match v with
  | JStr _ => true
  | _ => false
  end.

Definition any_json (v : json) : bool := true.

Definition field_ok (check : json -> bool) (key : string)
           (fields : list (string * json)) : bool :=
  match Py.assoc key fields with
  | Some v => check v
  | None => true
  end.

Definition list_of (check : json -> bool) (v : json) : bool :=
  match v with
  | JList items => forallb check items
  | _ => false
  end.

Definition market_ok (market : json) : bool :=
  match market with
  | JDict fields =>
      field_ok is_str "market" fields && field_ok is_num "gap_score" fields
  | _ => false
  end.

Definition mention_ok (mention : json) : bool :=
  match mention with
  | JDict fields =>
      field_ok is_str "market" fields
      && field_ok is_num "mention_count" fields
      && field_ok is_num "sentiment_score" fields
  | _ => false
  end.

Definition technology_ok (tech : json) : bool :=
  match tech with
  | JDict fields => field_ok is_str "technology" fields
  | _ => false
  end.

Definition section_ok (check : json -> bool) (section key : string)
           (fields : list (string * json)) : bool :=
  match Py.assoc section fields with
  | Some (JDict section_fields) => field_ok check key section_fields
  | Some _ => false
  | None => true
  end.

Definition well_typed (combined_data : json) : bool :=
  match combined_data with
  | JDict fields =>
      section_ok (list_of market_ok) "underserved_markets" "markets" fields
      && section_ok (list_of mention_ok) "market_mentions" "market_mentions"
                    fields
      && section_ok any_json "news_sentiment" "sentiment_by_query" fields
      && section_ok (list_of is_str) "economic_growth" "growth_sectors"
                    fields
      && section_ok (list_of is_str) "economic_growth" "hot_investment_areas"
                    fields
      && section_ok (list_of technology_ok) "emerging_technologies"
                    "technologies" fields
      && section_ok (list_of is_str) "website_trends" "top_sectors" fields
  | _ => false
  end.

(* ================================================================== *)
(** ** Concrete inputs *)

(* ================================================================== *)
(** ** Further vocabulary *)

(** The number of underserved-market records named [k]. *)
Definition count_underserved (k : string) (us : list UnderservedMarket)
  : nat :=
  List.length (filter (fun u => (um_market u =? k)%string) us).

(** Whether some mention record is named [k]. *)
Definition mentioned (k : string) (mms : list MarketMention) : bool :=
  existsb (fun m => (mm_market m =? k)%string) mms.

Definition last_barriers (k : string) (us : list UnderservedMarket) : json :=
  match last_underserved k us with
  | Some u => um_barriers u
  | None => JList []
  end.

(** The [sources] list of the candidate named [k]. *)
Definition expected_sources (k : string) (us : list UnderservedMarket)
           (mms : list MarketMention) : list string :=
  repeat "economic_indicators"%string (count_underserved k us)
  ++ (if mentioned k mms then ["web_scraping"%string] else []).

(** What the first two loops leave in the fields they do not score. *)
Record provenance (us : list UnderservedMarket) (mms : list MarketMention)
       (k : string) (c : MarketCandidate) : Prop := mkProvenance {
  prov_barriers : barriers c = last_barriers k us;
  prov_sources : sources c = expected_sources k us mms
}.

(** [x] is the value of a record's field, or 0 when the record lacks the
    field. *)
Definition copied_from (field : option Q) (x : Q) : Prop :=
  match field with
  | Some v => x = v
  | None => x = 0
  end.

(** The order of the validator's sort: a higher validation score first,
    and among equal validation scores a higher opportunity score first. *)
Definition validation_ge (x y : ValidatedProfile) : Prop :=
  validation_score (validation y) < validation_score (validation x)
  \/ (validation_score (validation y) == validation_score (validation x)
      /\ opportunity_score (profile y) <= opportunity_score (profile x)).

(** Profiles with the same two sort keys. *)
Definition same_keys (vs os : Q) (p : ValidatedProfile) : bool :=
  Qeq_bool (validation_score (validation p)) vs
  && Qeq_bool (opportunity_score (profile p)) os.

(** A record that is not a dict, or that has a non-empty string for a name
    and something that is not a number for [field]. *)
Definition unreadable (field : string) (record : json) : Prop :=
  match record with
  | JDict fields =>
      exists market_name v,
        Py.assoc "market" fields = Some (JStr market_name)
        /\ market_name <> ""%string
        /\ Py.assoc field fields = Some v
        /\ is_num v = false
  | _ => True
  end.

(** The six sections that the call reads from [combined_data]. *)
Definition sections_read : list string :=
  ["underserved_markets"; "market_mentions"; "news_sentiment";
   "economic_growth"; "emerging_technologies"; "website_trends"]%string.

Definition is_dict (v : json) : bool :=
  match v with
  | JDict _ => true
  | _ => false
  end.

(** [combined_data] with the given list of underserved-market records. *)
Definition with_markets (markets : list json)
           (other_sections : list (string * json)) : json :=
  JDict (("underserved_markets"%string,
          JDict [("markets"%string, JList markets)]) :: other_sections).

(** Whether no string occurs twice in a list. *)
Fixpoint distinct (l : list string) : bool :=
  match l with
  | [] => true
  | x :: rest => negb (PyStr.mem x rest) && distinct rest
  end.

(** The keyword groups of the two demographic rules that share a tag. *)
Definition names_seniors (market_name : string) : Prop :=
  PyStr.substring_of "elderly" (PyStr.lower market_name)
  \/ PyStr.substring_of "senior" (PyStr.lower market_name)
  \/ PyStr.substring_of "aging" (PyStr.lower market_name).

Definition names_health (market_name : string) : Prop :=
  PyStr.substring_of "health" (PyStr.lower market_name)
  \/ PyStr.substring_of "wellness" (PyStr.lower market_name)
  \/ PyStr.substring_of "care" (PyStr.lower market_name).


(* ================================================================== *)
(** ** The scoring engine in binary64 arithmetic

    [identify_top_underserved_markets] (source lines 37-179) once more,
    with the numbers of the source: a score is an IEEE 754 binary64 value,
    and [+], [/] and [*] round as Python's do, in the order in which the
    source applies them.  A number of the data becomes the float nearest
    to it, as [json.load] makes it.  A Python [int] stands for the float of
    the same value (exact below 2^53), so the counters of the alignment
    loop are [nat] and are converted where they are added to a score.
    Strings, dicts, lists, the readers of the four alignment lists and the
    stable sort are those of the exact embedding. *)

Module Binary64.

Local Open Scope float_scope.

(** The float of a positive integer, of an integer and of a rational: for
    a numerator and a denominator below 2^53 the quotient is the float
    nearest to the rational. *)
Fixpoint of_pos (p : positive) : float :=
  match p with
  | xH => 1
  | xO p' => 2 * of_pos p'
  | xI p' => 2 * of_pos p' + 1
  end.

Definition of_Z (z : Z) : float :=
  match z with
  | Z0 => 0
  | Zpos p => of_pos p
  | Zneg p => - of_pos p
  end.

Definition of_Q (q : Q) : float := of_Z (Qnum q) / of_pos (Qden q).

(** A value used in [+], [/], [*] with a number and in [min]. *)
Definition num (v : json) : result float :=
  match v with
  | JNum q => Ok (of_Q q)
  | JBool b => Ok (if b then 1 else 0)
  | _ => Raise
  end.

(** The float of a counter of the alignment loop. *)
Fixpoint of_nat (n : nat) : float :=
  match n with
  | O => 0
  | S m => of_nat m + 1
  end.

(** [min(a, b)] of two numbers: [b] if [b < a], else [a]. *)
Definition min (a b : float) : float := if b <? a then b else a.

Record MarketCandidate : Type := mkCandidate {
  name : string;
  total_score : float;
  gap_score : float;
  mention_score : float;
  sentiment_score : float;
  growth_alignment : nat;
  tech_alignment : nat;
  sector_alignment : nat;
  barriers : json;
  growth_potential : json;
  sources : list string
}.

(** The dict literal stored under a market name seen for the first time. *)
Definition new_candidate (market_name : string) : MarketCandidate :=
  mkCandidate market_name 0 0 0 0 0%nat 0%nat 0%nat (JList []) (JStr "") [].

(** [market_scores], in insertion order. *)
Definition scores : Type := list (string * MarketCandidate).

Fixpoint lookup (market_name : string) (market_scores : scores)
  : option MarketCandidate :=
  match market_scores with
  | [] => None
  | (k, c) :: rest =>
      if (k =? market_name)%string then Some c else lookup market_name rest
  end.

(** [if market_name not in market_scores: market_scores[market_name] = {...}] *)
Definition ensure (market_name : string) (market_scores : scores) : scores :=
  match lookup market_name market_scores with
  | Some _ => market_scores
  | None => market_scores ++ [(market_name, new_candidate market_name)]
  end.

(** The in-place updates of [market_scores[market_name]]. *)
Fixpoint update (market_name : string)
         (f : MarketCandidate -> MarketCandidate) (market_scores : scores)
  : scores :=
  match market_scores with
  | [] => []
  | (k, c) :: rest =>
      if (k =? market_name)%string then (k, f c) :: rest
      else (k, c) :: update market_name f rest
  end.

Record UnderservedMarket : Type := mkUnderserved {
  um_market : string;
  um_gap_score : float;
  um_growth_potential : json;
  um_barriers : json
}.

Record MarketMention : Type := mkMention {
  mm_market : string;
  mm_mention_count : float;
  mm_sentiment_score : float
}.

Definition read_underserved (market : json)
  : result (option UnderservedMarket) :=
  market_name <- Py.get market "market" (JStr "") ;;
  if negb (Py.truthy market_name) then Ok None else
  market_name <- market_key market_name ;;
  gap_json <- Py.get market "gap_score" (JNum 0) ;;
  gap_score <- num gap_json ;;
  growth_potential <- Py.get market "growth_potential" (JStr "") ;;
  barriers <- Py.get market "barriers" (JList []) ;;
  Ok (Some (mkUnderserved market_name gap_score growth_potential barriers)).

Definition read_mention (mention : json) : result (option MarketMention) :=
  market_name <- Py.get mention "market" (JStr "") ;;
  if negb (Py.truthy market_name) then Ok None else
  market_name <- market_key market_name ;;
  count_json <- Py.get mention "mention_count" (JNum 0) ;;
  mention_count <- num count_json ;;
  sentiment_json <- Py.get mention "sentiment_score" (JNum 0) ;;
  sentiment <- num sentiment_json ;;
  Ok (Some (mkMention market_name mention_count sentiment)).

(** The updates of the first loop on the entry of the market (source
    lines 74-90). *)
Definition add_underserved (market : UnderservedMarket)
           (c : MarketCandidate) : MarketCandidate :=
  let total := total_score c + um_gap_score market in
  let total :=
    if Py.eq_str (um_growth_potential market) "High" then total + 3
    else if Py.eq_str (um_growth_potential market) "Medium"
         then total + 1.5
         else total in
  mkCandidate (name c) total (um_gap_score market)
              (mention_score c) (sentiment_score c)
              (growth_alignment c) (tech_alignment c) (sector_alignment c)
              (um_barriers market) (um_growth_potential market)
              (sources c ++ ["economic_indicators"%string]).

(** Body of the first loop (source lines 59-90). *)
Definition score_underserved (market_scores : scores)
           (market : UnderservedMarket) : scores :=
  update (um_market market) (add_underserved market)
         (ensure (um_market market) market_scores).

(** The updates of the second loop on the entry of the market (source
    lines 113-127). *)
Definition add_mention (mention : MarketMention) (c : MarketCandidate)
  : MarketCandidate :=
  let mention_score := min 10 (mm_mention_count mention / 3) in
  let total := total_score c + mention_score in
  let sentiment_score := min 5 (mm_sentiment_score mention * 5) in
  let total := total + sentiment_score in
  mkCandidate (name c) total (gap_score c) mention_score sentiment_score
              (growth_alignment c) (tech_alignment c) (sector_alignment c)
              (barriers c) (growth_potential c)
              (if PyStr.mem "web_scraping" (sources c) then sources c
               else sources c ++ ["web_scraping"%string]).

(** Body of the second loop (source lines 98-127). *)
Definition score_mention (market_scores : scores) (mention : MarketMention)
  : scores :=
  update (mm_market mention) (add_mention mention)
         (ensure (mm_market mention) market_scores).

(** The investment loop: [total_score += 1] for each aligned area. *)
Definition add_investment (market_words : list string) (areas : list string)
           (total : float) : float :=
  fold_left (fun t area => if aligned market_words area then t + 1 else t)
            areas total.

(** Body of the third loop (source lines 130-175). *)
Definition align (growth_sectors hot_investment_areas emerging_tech
                  trending_sectors : list string)
           (market_name : string) (market_data : MarketCandidate)
  : MarketCandidate :=
  let market_words := PyStr.split (PyStr.lower market_name) in
  let growth_alignment :=
    Nat.min 3 (count_aligned market_words growth_sectors) in
  let total := total_score market_data + of_nat growth_alignment in
  let total := add_investment market_words hot_investment_areas total in
  let tech_alignment :=
    Nat.min 3 (count_aligned market_words emerging_tech) in
  let total := total + of_nat tech_alignment in
  let sector_alignment :=
    Nat.min 3 (count_aligned market_words trending_sectors) in
  let total := total + of_nat sector_alignment in
  mkCandidate (name market_data) total (gap_score market_data)
              (mention_score market_data) (sentiment_score market_data)
              growth_alignment tech_alignment sector_alignment
              (barriers market_data) (growth_potential market_data)
              (sources market_data).

(** [key=lambda x: x['total_score']] *)
Definition by_total_score (y x : MarketCandidate) : bool :=
  total_score y <=? total_score x.

(** The third loop on one entry of [market_scores]. *)
Definition align_entry (growth_sectors hot_investment_areas emerging_tech
                        trending_sectors : json)
           (done : scores) (entry : string * MarketCandidate)
  : result scores :=
  gs <- read_list read_name growth_sectors ;;
  hs <- read_list read_name hot_investment_areas ;;
  es <- read_list read_technology emerging_tech ;;
  ts <- read_list read_name trending_sectors ;;
  Ok (done ++ [(fst entry, align gs hs es ts (fst entry) (snd entry))]).

Definition identify_top_underserved_markets (combined_data : json)
  : result (list MarketCandidate) :=
  if negb (Py.truthy combined_data) then Ok [] else
  underserved_markets <-
    section_list combined_data "underserved_markets" "markets" ;;
  market_mentions <-
    section_list combined_data "market_mentions" "market_mentions" ;;
  news_sentiment <-
    section_list combined_data "news_sentiment" "sentiment_by_query" ;;
  growth_sectors <-
    section_list combined_data "economic_growth" "growth_sectors" ;;
  hot_investment_areas <-
    section_list combined_data "economic_growth" "hot_investment_areas" ;;
  emerging_tech <-
    section_list combined_data "emerging_technologies" "technologies" ;;
  trending_sectors <-
    section_list combined_data "website_trends" "top_sectors" ;;
  markets <- Py.iter underserved_markets ;;
  market_scores <-
    Py.for_each
      (fun ms market =>
         r <- read_underserved market ;;
         Ok (match r with Some m => score_underserved ms m | None => ms end))
      markets [] ;;
  mentions <- Py.iter market_mentions ;;
  market_scores <-
    Py.for_each
      (fun ms mention =>
         r <- read_mention mention ;;
         Ok (match r with Some m => score_mention ms m | None => ms end))
      mentions market_scores ;;
  market_scores <-
    Py.for_each
      (align_entry growth_sectors hot_investment_areas emerging_tech
                   trending_sectors)
      market_scores [] ;;
  Ok (sort_desc by_total_score (map snd market_scores)).

(** *** The typed view of [combined_data], as in the exact embedding. *)

Record Inputs : Type := mkInputs {
  underserved_markets : list UnderservedMarket;
  market_mentions : list MarketMention;
  growth_sectors : list string;
  hot_investment_areas : list string;
  emerging_tech : list string;
  trending_sectors : list string
}.

Definition read_inputs (combined_data : json) : result Inputs :=
  underserved <-
    section_list combined_data "underserved_markets" "markets" ;;
  mentions <-
    section_list combined_data "market_mentions" "market_mentions" ;;
  news_sentiment <-
    section_list combined_data "news_sentiment" "sentiment_by_query" ;;
  growth <- section_list combined_data "economic_growth" "growth_sectors" ;;
  hot <-
    section_list combined_data "economic_growth" "hot_investment_areas" ;;
  tech <-
    section_list combined_data "emerging_technologies" "technologies" ;;
  trending <- section_list combined_data "website_trends" "top_sectors" ;;
  us <- read_list read_underserved underserved ;;
  mms <- read_list read_mention mentions ;;
  gs <- read_list read_name growth ;;
  hs <- read_list read_name hot ;;
  es <- read_list read_technology tech ;;
  ts <- read_list read_name trending ;;
  Ok (mkInputs us mms gs hs es ts).

(** [market_scores] after the first two loops. *)
Definition collect (i : Inputs) : scores :=
  fold_left score_mention (market_mentions i)
            (fold_left score_underserved (underserved_markets i) []).

Definition align_with (i : Inputs) (entry : string * MarketCandidate)
  : string * MarketCandidate :=
  (fst entry,
   align (growth_sectors i) (hot_investment_areas i) (emerging_tech i)
         (trending_sectors i) (fst entry) (snd entry)).

(** [market_scores] after the three loops. *)
Definition score_markets (i : Inputs) : scores :=
  map (align_with i) (collect i).

(** [list(market_scores.values())], before the sort. *)
Definition inserted (i : Inputs) : list MarketCandidate :=
  map snd (score_markets i).

(** The sorted [market_list]. *)
Definition rank_markets (i : Inputs) : list MarketCandidate :=
  sort_desc by_total_score (inserted i).

(** *** Vocabulary *)

(** The candidate stored under [k], or the one that would be created. *)
Definition candidate_at (k : string) (market_scores : scores)
  : MarketCandidate :=
  match lookup k market_scores with
  | Some c => c
  | None => new_candidate k
  end.

Definition names_underserved (k : string) (u : UnderservedMarket) : bool :=
  (um_market u =? k)%string.

Definition names_mention (k : string) (m : MarketMention) : bool :=
  (mm_market m =? k)%string.

(** How many records of a list carry the name [k]. *)
Definition count_underserved (k : string) (us : list UnderservedMarket)
  : nat :=
  List.length (filter (names_underserved k) us).

Definition count_mentions (k : string) (mms : list MarketMention) : nat :=
  List.length (filter (names_mention k) mms).

(** The names in the order the first two loops meet them. *)
Definition names_met (i : Inputs) : list string :=
  map um_market (underserved_markets i) ++ map mm_market (market_mentions i).

(** [t] with the bonus of a growth potential added. *)
Definition add_growth_bonus (growth_potential : json) (t : float) : float :=
  if Py.eq_str growth_potential "High" then t + 3
  else if Py.eq_str growth_potential "Medium" then t + 1.5
  else t.

(** [t] with 1 added [n] times. *)
Definition add_ones (n : nat) (t : float) : float :=
  Nat.iter n (fun t => t + 1) t.

(** The number of investment areas sharing a word with the market name. *)
Definition investment_matches (market_name : string) (areas : list string)
  : nat :=
  count_aligned (PyStr.split (PyStr.lower market_name)) areas.

(** The total recomputed from the stored fields of a candidate and the two
    bonuses that are not stored, added from 0 in the order in which the
    loops add them: gap score, growth-potential bonus, mention score,
    sentiment score, growth alignment, 1 per matching investment area,
    technology alignment, sector alignment. *)
Definition recompute (hot_investment_areas : list string)
           (c : MarketCandidate) : float :=
  let t := add_growth_bonus (growth_potential c) (0 + gap_score c) in
  let t := t + mention_score c + sentiment_score c in
  let t := t + of_nat (growth_alignment c) in
  let t := add_ones (investment_matches (name c) hot_investment_areas) t in
  t + of_nat (tech_alignment c) + of_nat (sector_alignment c).

(** The growth-potential bonus as a number. *)
Definition growth_bonus (growth_potential : json) : float :=
  if Py.eq_str growth_potential "High" then 3
  else if Py.eq_str growth_potential "Medium" then 1.5
  else 0.

(** The same terms added in the order in which the property lists them:
    the six stored fields, then the two bonuses. *)
Definition fields_then_bonuses (hot_investment_areas : list string)
           (c : MarketCandidate) : float :=
  gap_score c + mention_score c + sentiment_score c
  + of_nat (growth_alignment c) + of_nat (tech_alignment c)
  + of_nat (sector_alignment c)
  + growth_bonus (growth_potential c)
  + of_nat (investment_matches (name c) hot_investment_areas).

(** What the records named [k] add to a total, one after the other. *)
Definition accumulate_underserved (k : string)
           (us : list UnderservedMarket) (t : float) : float :=
  fold_left
    (fun t u =>
       if names_underserved k u
       then add_growth_bonus (um_growth_potential u) (t + um_gap_score u)
       else t)
    us t.

Definition accumulate_mentions (k : string) (mms : list MarketMention)
           (t : float) : float :=
  fold_left
    (fun t m =>
       if names_mention k m
       then t + min 10 (mm_mention_count m / 3)
            + min 5 (mm_sentiment_score m * 5)
       else t)
    mms t.

(** What the alignment loop adds to the total of the market named [k]. *)
Definition add_alignments (i : Inputs) (k : string) (t : float) : float :=
  let market_words := PyStr.split (PyStr.lower k) in
  let t :=
    t + of_nat (Nat.min 3 (count_aligned market_words (growth_sectors i))) in
  let t := add_ones (investment_matches k (hot_investment_areas i)) t in
  t + of_nat (Nat.min 3 (count_aligned market_words (emerging_tech i)))
  + of_nat (Nat.min 3 (count_aligned market_words (trending_sectors i))).

(** The last record named [k], if any. *)
Definition last_underserved (k : string) (us : list UnderservedMarket)
  : option UnderservedMarket :=
  find (names_underserved k) (rev us).

Definition last_mention (k : string) (mms : list MarketMention)
  : option MarketMention :=
  find (names_mention k) (rev mms).

(** The updates of the first two loops on the entry of the market named
    [k], in the order of the records. *)
Definition apply_underserved (k : string) (c : MarketCandidate)
           (u : UnderservedMarket) : MarketCandidate :=
  if names_underserved k u then add_underserved u c else c.

Definition apply_mention (k : string) (c : MarketCandidate)
           (m : MarketMention) : MarketCandidate :=
  if names_mention k m then add_mention m c else c.

Definition collected (i : Inputs) (k : string) : MarketCandidate :=
  fold_left (apply_mention k) (market_mentions i)
            (fold_left (apply_underserved k) (underserved_markets i)
                       (new_candidate k)).

End Binary64.
(** The input of the end-to-end example. *)
Definition example_combined_data : json :=
  JDict
    [ ("underserved_markets",
       JDict [ ("markets",
                JList [ JDict [ ("market", JStr "Rural Healthcare Technology");
                                ("gap_score", JNum 8.7);
                                ("growth_potential", JStr "High");
                                ("barriers", JList [JStr "Infrastructure"]) ] ]) ]);
      ("market_mentions",
       JDict [ ("market_mentions",
                JList [ JDict [ ("market", JStr "Rural Healthcare Technology");
                                ("mention_count", JNum 12);
                                ("sentiment_score", JNum 0.78) ] ]) ]) ].

(** An input with four markets, two of which end with the same total. *)
Definition sample_combined_data : json :=
  JDict
    [ ("underserved_markets",
       JDict [ ("markets",
                JList [ JDict [ ("market", JStr "Elderly-focused Technology");
                                ("gap_score", JNum 7);
                                ("growth_potential", JStr "Medium");
                                ("barriers", JList [JStr "Adoption"]) ];
                        JDict [ ("market", JStr "Remote Work Technology");
                                ("gap_score", JNum 8.5);
                                ("growth_potential", JStr "Medium") ];
                        JDict [ ("market", JStr "Middle-Income Housing");
                                ("gap_score", JNum 8);
                                ("growth_potential", JStr "Medium") ] ]) ]);
      ("market_mentions",
       JDict [ ("market_mentions",
                JList [ JDict [ ("market", JStr "Telemedicine Services");
                                ("mention_count", JNum 45);
                                ("sentiment_score", JNum 1.2) ];
                        JDict [ ("market", JStr "Remote Work Technology");
                                ("mention_count", JNum 9);
                                ("sentiment_score", JNum 0.4) ] ]) ]);
      ("economic_growth",
       JDict [ ("growth_sectors",
                JList [JStr "Remote Work Solutions"; JStr "Digital Health"]);
               ("hot_investment_areas",
                JList [JStr "Housing Technology"; JStr "Work Automation"]) ]);
      ("emerging_technologies",
       JDict [ ("technologies",
                JList [ JDict [ ("technology",
                                 JStr "Telemedicine Platforms") ] ]) ]);
      ("website_trends",
       JDict [ ("top_sectors", JList [JStr "Technology"]) ]) ].

Definition sample_inputs : Inputs :=
  mkInputs
    [ mkUnderserved "Elderly-focused Technology" 7 (JStr "Medium")
                    (JList [JStr "Adoption"]);
      mkUnderserved "Remote Work Technology" 8.5 (JStr "Medium") (JList []);
      mkUnderserved "Middle-Income Housing" 8 (JStr "Medium") (JList []) ]
    [ mkMention "Telemedicine Services" 45 1.2;
      mkMention "Remote Work Technology" 9 0.4 ]
    ["Remote Work Solutions"; "Digital Health"]
    ["Housing Technology"; "Work Automation"]
    ["Telemedicine Platforms"]
    ["Technology"].

(** An input whose only market has no bonus: growth potential Low, no
    investment area. *)
Definition plain_combined_data : json :=
  JDict
    [ ("underserved_markets",
       JDict [ ("markets",
                JList [ JDict [ ("market", JStr "Middle-Income Housing");
                                ("gap_score", JNum 7.9);
                                ("growth_potential", JStr "Low") ] ]) ]);
      ("website_trends",
       JDict [ ("top_sectors", JList [JStr "Housing"]) ]) ].

Definition plain_inputs : Inputs :=
  mkInputs
    [ mkUnderserved "Middle-Income Housing" 7.9 (JStr "Low") (JList []) ]
    [] [] [] [] ["Housing"].

(** An input in which one market name occurs in two records. *)
Definition duplicate_combined_data : json :=
  JDict
    [ ("underserved_markets",
       JDict [ ("markets",
                JList [ JDict [ ("market", JStr "Telemedicine Services");
                                ("gap_score", JNum 5) ];
                        JDict [ ("market", JStr "Telemedicine Services");
                                ("gap_score", JNum 2) ] ]) ]) ].

Definition duplicate_inputs : Inputs :=
  mkInputs
    [ mkUnderserved "Telemedicine Services" 5 (JStr "") (JList []);
      mkUnderserved "Telemedicine Services" 2 (JStr "") (JList []) ]
    [] [] [] [] [].

(** A profile with nothing but a name and an opportunity score. *)
Definition profile_named (market_name : string) (score : Q) : Profile :=
  mkProfile market_name score 0 (JStr "") (JList []) [] [] [] [] [].

(** The profile of the validation example. *)
Definition solutions_profile : Profile :=
  profile_named "Rural Healthcare Technology Solutions" 19.6.

(** A profile whose name is a substring of one reference key. *)
Definition telemedicine_profile : Profile :=
  profile_named "Telemedicine" 16.

(** A profile whose name is a reference key in lower case. *)
Definition lowercase_profile : Profile :=
  profile_named "rural healthcare technology" 19.6.

(** A candidate and two technologies for the enricher. *)
Definition rural_candidate : MarketCandidate :=
  mkCandidate "Rural Healthcare Technology" 19.6 8.7 4 3.9 0 0 0
              (JList [JStr "Infrastructure"]) (JStr "High")
              ["economic_indicators"; "web_scraping"].

Definition biotechnology : Technology :=
  mkTechnology "Biotechnology" (JNum 6.5) (JStr "Rising") (JList []).

Definition rural_broadband : Technology :=
  mkTechnology "Rural Broadband" (JNum 7) (JStr "Stable") (JList []).

Definition quantum_computing : Technology :=
  mkTechnology "Quantum Computing" (JNum 3) (JStr "Rising") (JList []).

Definition enrichment_sample : EnrichmentData :=
  mkEnrichment [biotechnology; rural_broadband; quantum_computing] [].

(** An input in which most optional fields are missing. *)
Definition sparse_combined_data : json :=
  JDict
    [ ("underserved_markets",
       JDict [ ("markets",
                JList [ JDict [ ("market", JStr "Remote Work Technology") ];
                        JDict [ ("gap_score", JNum 4) ] ]) ]);
      ("market_mentions", JDict []);
      ("emerging_technologies",
       JDict [ ("technologies", JList [ JDict [] ]) ]) ].

(** The combined data written when no source had any data: every
    analysis is the empty dict (analyze_economic_data.py, lines 485-493). *)
Definition no_data_combined_data : json :=
  JDict
    [ ("timestamp", JStr "2025-01-01 00:00:00");
      ("economic_growth", JDict []);
      ("underserved_markets", JDict []);
      ("emerging_technologies", JDict []);
      ("news_sentiment", JDict []);
      ("market_mentions", JDict []);
      ("website_trends", JDict []) ].

(** A record without a market name, with an ill-typed gap score. *)
Definition unnamed_record : list (string * json) :=
  [ ("gap_score", JStr "n/a"); ("growth_potential", JStr "High") ].

(** [sample_combined_data] with the entries of every list in another
    order. *)
Definition reordered_combined_data : json :=
  JDict
    [ ("market_mentions",
       JDict [ ("market_mentions",
                JList [ JDict [ ("market", JStr "Remote Work Technology");
                                ("mention_count", JNum 9);
                                ("sentiment_score", JNum 0.4) ];
                        JDict [ ("market", JStr "Telemedicine Services");
                                ("mention_count", JNum 45);
                                ("sentiment_score", JNum 1.2) ] ]) ]);
      ("underserved_markets",
       JDict [ ("markets",
                JList [ JDict [ ("market", JStr "Middle-Income Housing");
                                ("gap_score", JNum 8);
                                ("growth_potential", JStr "Medium") ];
                        JDict [ ("market", JStr "Elderly-focused Technology");
                                ("gap_score", JNum 7);
                                ("growth_potential", JStr "Medium");
                                ("barriers", JList [JStr "Adoption"]) ];
                        JDict [ ("market", JStr "Remote Work Technology");
                                ("gap_score", JNum 8.5);
                                ("growth_potential", JStr "Medium") ] ]) ]);
      ("economic_growth",
       JDict [ ("growth_sectors",
                JList [JStr "Digital Health"; JStr "Remote Work Solutions"]);
               ("hot_investment_areas",
                JList [JStr "Work Automation"; JStr "Housing Technology"]) ]);
      ("emerging_technologies",
       JDict [ ("technologies",
                JList [ JDict [ ("technology",
                                 JStr "Telemedicine Platforms") ] ]) ]);
      ("website_trends",
       JDict [ ("top_sectors", JList [JStr "Technology"]) ]) ].

(** The end-to-end example with a sentiment of 0.62, and what the loops
    read from it. *)
Definition rounded_combined_data : json :=
  JDict
    [ ("underserved_markets",
       JDict [ ("markets",
                JList [ JDict [ ("market", JStr "Rural Healthcare Technology");
                                ("gap_score", JNum 8.7);
                                ("growth_potential", JStr "High");
                                ("barriers", JList [JStr "Infrastructure"]) ] ]) ]);
      ("market_mentions",
       JDict [ ("market_mentions",
                JList [ JDict [ ("market", JStr "Rural Healthcare Technology");
                                ("mention_count", JNum 12);
                                ("sentiment_score", JNum 0.62) ] ]) ]) ].

Definition rounded_inputs : Binary64.Inputs :=
  Binary64.mkInputs
    [ Binary64.mkUnderserved "Rural Healthcare Technology" 8.7%float
                             (JStr "High") (JList [JStr "Infrastructure"]) ]
    [ Binary64.mkMention "Rural Healthcare Technology" 12%float 0.62%float ]
    [] [] [] [].

(** One market name in three underserved-market records and in two mention
    records. *)
Definition repeated_combined_data : json :=
  JDict
    [ ("underserved_markets",
       JDict [ ("markets",
                JList [ JDict [ ("market", JStr "Telemedicine Services");
                                ("gap_score", JNum 0.1) ];
                        JDict [ ("market", JStr "Telemedicine Services");
                                ("gap_score", JNum 0.2) ];
                        JDict [ ("market", JStr "Telemedicine Services");
                                ("gap_score", JNum 0.3) ] ]) ]);
      ("market_mentions",
       JDict [ ("market_mentions",
                JList [ JDict [ ("market", JStr "Telemedicine Services");
                                ("mention_count", JNum 12);
                                ("sentiment_score", JNum 0.5) ];
                        JDict [ ("market", JStr "Telemedicine Services");
                                ("mention_count", JNum 45);
                                ("sentiment_score", JNum 0.2) ] ]) ]) ].

Definition repeated_records : Binary64.Inputs :=
  Binary64.mkInputs
    [ Binary64.mkUnderserved "Telemedicine Services" 0.1%float (JStr "")
                             (JList []);
      Binary64.mkUnderserved "Telemedicine Services" 0.2%float (JStr "")
                             (JList []);
      Binary64.mkUnderserved "Telemedicine Services" 0.3%float (JStr "")
                             (JList []) ]
    [ Binary64.mkMention "Telemedicine Services" 12%float 0.5%float;
      Binary64.mkMention "Telemedicine Services" 45%float 0.2%float ]
    [] [] [] [].

(** Three records of one market name, and the same records in the
    opposite order. *)
Definition gap_records (gaps : list Q) : json :=
  JDict
    [ ("underserved_markets",
       JDict [ ("markets",
                JList (map (fun gap =>
                              JDict [ ("market", JStr "Telemedicine Services");
                                      ("gap_score", JNum gap) ])
                           gaps)) ]) ].

Definition ascending_gaps : json := gap_records [0.1; 0.2; 0.3].

Definition descending_gaps : json := gap_records [0.3; 0.2; 0.1].

(** [sample_combined_data] and [reordered_combined_data] as the loops read
    them. *)
Definition sample_records : Binary64.Inputs :=
  Binary64.mkInputs
    [ Binary64.mkUnderserved "Elderly-focused Technology" 7%float
                             (JStr "Medium") (JList [JStr "Adoption"]);
      Binary64.mkUnderserved "Remote Work Technology" 8.5%float
                             (JStr "Medium") (JList []);
      Binary64.mkUnderserved "Middle-Income Housing" 8%float
                             (JStr "Medium") (JList []) ]
    [ Binary64.mkMention "Telemedicine Services" 45%float 1.2%float;
      Binary64.mkMention "Remote Work Technology" 9%float 0.4%float ]
    ["Remote Work Solutions"; "Digital Health"]
    ["Housing Technology"; "Work Automation"]
    ["Telemedicine Platforms"]
    ["Technology"].

Definition reordered_records : Binary64.Inputs :=
  Binary64.mkInputs
    [ Binary64.mkUnderserved "Middle-Income Housing" 8%float
                             (JStr "Medium") (JList []);
      Binary64.mkUnderserved "Elderly-focused Technology" 7%float
                             (JStr "Medium") (JList [JStr "Adoption"]);
      Binary64.mkUnderserved "Remote Work Technology" 8.5%float
                             (JStr "Medium") (JList []) ]
    [ Binary64.mkMention "Remote Work Technology" 9%float 0.4%float;
      Binary64.mkMention "Telemedicine Services" 45%float 1.2%float ]
    ["Digital Health"; "Remote Work Solutions"]
    ["Work Automation"; "Housing Technology"]
    ["Telemedicine Platforms"]
    ["Technology"].

(** An input in which one market name occurs in two mention records. *)
Definition repeated_mention_combined_data : json :=
  JDict
    [ ("market_mentions",
       JDict [ ("market_mentions",
                JList [ JDict [ ("market", JStr "Telemedicine Services");
                                ("mention_count", JNum 12);
                                ("sentiment_score", JNum 0.5) ];
                        JDict [ ("market", JStr "Telemedicine Services");
                                ("mention_count", JNum 45);
                                ("sentiment_score", JNum 0.2) ] ]) ]) ].
(* ================================================================== *)
(** ** The call computes [rank_markets] on well-typed input *)

Section Bridge.

Lemma bind_ok {A B} (r : result A) (k : A -> result B) (b : B) :
  bind r k = Ok b -> exists a, r = Ok a /\ k a = Ok b.
Proof.
  destruct r as [a|]; simpl; intro H; [eauto | discriminate].
Qed.

Lemma for_each_read {S A B} (read : A -> result (option B))
      (step : S -> B -> S) (items : list A) :
  forall (xs : list B) (s : S),
    Py.read_all read items = Ok xs ->
    Py.for_each
      (fun s x => r <- read x ;;
                  Ok (match r with Some m => step s m | None => s end))
      items s
    = Ok (fold_left step xs s).
Proof.
  induction items as [|x rest IH]; intros xs s H; simpl in *.
  - injection H as <-. reflexivity.
  - apply bind_ok in H as (r & Hr & H). rewrite Hr. simpl.
    apply bind_ok in H as (tl & Htl & H). injection H as <-.
    destruct r as [m|]; simpl; now apply IH.
Qed.

Lemma for_each_align (G H E T : json) (gs hs es ts : list string) :
  read_list read_name G = Ok gs ->
  read_list read_name H = Ok hs ->
  read_list read_technology E = Ok es ->
  read_list read_name T = Ok ts ->
  forall (ms done : scores),
    Py.for_each (align_entry G H E T) ms done
    = Ok (done ++ map (fun e => (fst e, align gs hs es ts (fst e) (snd e)))
                      ms).
Proof.
  intros HG HH HE HT ms.
  induction ms as [|e rest IH]; intros done; simpl.
  - now rewrite app_nil_r.
  - unfold align_entry at 1. rewrite HG, HH, HE, HT. simpl.
    rewrite IH, <- app_assoc. reflexivity.
Qed.

Lemma read_list_ok {B} (read : json -> result (option B)) v (xs : list B) :
  read_list read v = Ok xs ->
  exists items, Py.iter v = Ok items /\ Py.read_all read items = Ok xs.
Proof. unfold read_list. apply bind_ok. Qed.

(** On input that [read_inputs] accepts, the call returns the ranking of the
    typed inputs. *)
Lemma identify_reads (combined_data : json) (i : Inputs) :
  read_inputs combined_data = Ok i ->
  identify_top_underserved_markets combined_data = Ok (rank_markets i).
Proof.
  unfold read_inputs, identify_top_underserved_markets. intro H.
  apply bind_ok in H as (u & Hu & H). apply bind_ok in H as (m & Hm & H).
  apply bind_ok in H as (n & Hn & H). apply bind_ok in H as (g & Hg & H).
  apply bind_ok in H as (h & Hh & H). apply bind_ok in H as (e & He & H).
  apply bind_ok in H as (t & Ht & H).
  apply bind_ok in H as (us & Hus & H). apply bind_ok in H as (mms & Hmms & H).
  apply bind_ok in H as (gs & Hgs & H). apply bind_ok in H as (hs & Hhs & H).
  apply bind_ok in H as (es & Hes & H). apply bind_ok in H as (ts & Hts & H).
  injection H as <-.
  destruct (Py.truthy combined_data) eqn:Htruthy; simpl.
  - rewrite Hu, Hm, Hn, Hg, Hh, He, Ht. simpl.
    apply read_list_ok in Hus as (iu & -> & Hus).
    apply read_list_ok in Hmms as (im & -> & Hmms). simpl.
    rewrite (for_each_read _ score_underserved _ _ _ Hus). simpl.
    rewrite (for_each_read _ score_mention _ _ _ Hmms). simpl.
    rewrite (for_each_align _ _ _ _ _ _ _ _ Hgs Hhs Hes Hts). simpl.
    reflexivity.
  - destruct combined_data as [| | | | |fields]; try discriminate.
    destruct fields; [|discriminate].
    cbv in Hu, Hm, Hg, Hh, He, Ht.
    injection Hu as <-. injection Hm as <-. injection Hg as <-.
    injection Hh as <-. injection He as <-. injection Ht as <-.
    cbv in Hus, Hmms. injection Hus as <-. injection Hmms as <-.
    reflexivity.
Qed.

End Bridge.

(* ================================================================== *)
(** ** Strings *)

Module PyStrFacts.
Import PyStr.

Lemma starts_with_spec (p s : string) :
  starts_with p s = true <-> exists rest, s = (p ++ rest)%string.
Proof.
  revert s. induction p as [|a p IH]; intros s.
  - simpl. split; [intros _; now exists s | reflexivity].
  - destruct s as [|b s]; simpl.
    + split; [discriminate | intros [rest H]; discriminate].
    + rewrite andb_true_iff, Ascii.eqb_eq, IH. split.
      * intros [-> [rest ->]]. now exists rest.
      * intros [rest H]. injection H as -> ->. split; [reflexivity |].
        now exists rest.
Qed.

Lemma append_assoc (a b c : string) :
  ((a ++ b) ++ c = a ++ (b ++ c))%string.
Proof. induction a as [|x a IH]; simpl; [reflexivity | now rewrite IH]. Qed.

Lemma append_nil_r (a : string) : (a ++ "")%string = a.
Proof. induction a as [|x a IH]; simpl; [reflexivity | now rewrite IH]. Qed.

(** [str_in] decides [substring_of]. *)
Lemma str_in_spec (sub s : string) :
  str_in sub s = true <-> substring_of sub s.
Proof.
  unfold substring_of. induction s as [|c s IH]; simpl.
  - rewrite orb_false_r, starts_with_spec. split.
    + intros [rest H]. now exists ""%string, rest.
    + intros (before & after & H). exists after.
      destruct before; [exact H | discriminate].
  - rewrite orb_true_iff, starts_with_spec, IH. split.
    + intros [[rest H] | (before & after & H)].
      * now exists ""%string, rest.
      * exists (String c before), after. simpl. now rewrite H.
    + intros (before & after & H). destruct before as [|b before].
      * left. now exists after.
      * right. simpl in H. injection H as _ H. now exists before, after.
Qed.

Lemma substring_of_refl (s : string) : substring_of s s.
Proof. exists ""%string, ""%string. simpl. now rewrite append_nil_r. Qed.

Lemma flush_word (w word : string) : In w (flush word) -> w = word.
Proof.
  unfold flush. destruct (word =? "")%string; simpl; [tauto |].
  intros [H | []]. now symmetry.
Qed.

Lemma split_from_substring (s : string) :
  forall word w, In w (split_from word s) -> substring_of w (word ++ s).
Proof.
  induction s as [|c s IH]; intros word w; simpl.
  - intro H. apply flush_word in H as ->. rewrite append_nil_r.
    apply substring_of_refl.
  - destruct (isspace c).
    + rewrite in_app_iff. intros [H | H].
      * apply flush_word in H as ->. exists ""%string, (String c s).
        reflexivity.
      * apply (IH ""%string) in H as (before & after & H). simpl in H.
        exists (word ++ String c before)%string, after.
        rewrite H, append_assoc. reflexivity.
    + intro H. apply IH in H. now rewrite append_assoc in H.
Qed.

(** Every word of [s.split()] occurs in [s]. *)
Lemma split_substring (s w : string) : In w (split s) -> substring_of w s.
Proof. apply (split_from_substring s ""%string). Qed.

Lemma mem_spec (x : string) (xs : list string) :
  mem x xs = true <-> In x xs.
Proof.
  unfold mem. rewrite existsb_exists. split.
  - intros (y & Hy & Heq). apply String.eqb_eq in Heq. now subst.
  - intro H. exists x. split; [exact H | apply String.eqb_refl].
Qed.

End PyStrFacts.

(* ================================================================== *)
(** ** The stable descending sort *)

Section StableSortFacts.
Context {A : Type} (key_le : A -> A -> bool).

Hypothesis key_le_total : forall x y, key_le y x = false -> key_le x y = true.

Lemma insert_desc_perm (x : A) (l : list A) :
  Permutation (x :: l) (insert_desc key_le x l).
Proof.
  induction l as [|y rest IH]; simpl; [reflexivity |].
  destruct (key_le y x); [reflexivity |].
  rewrite perm_swap. now apply perm_skip.
Qed.

Lemma sort_desc_perm (l : list A) : Permutation l (sort_desc key_le l).
Proof.
  induction l as [|x l IH]; simpl; [reflexivity |].
  rewrite <- insert_desc_perm. now apply perm_skip.
Qed.

Lemma insert_desc_hd (a x : A) (l : list A) :
  key_ge key_le a x ->
  HdRel (key_ge key_le) a l ->
  HdRel (key_ge key_le) a (insert_desc key_le x l).
Proof.
  intros Hax Hal. destruct l as [|y rest]; simpl.
  - now constructor.
  - destruct (key_le y x); constructor; [exact Hax |].
    now inversion Hal.
Qed.

Lemma insert_desc_sorted (x : A) (l : list A) :
  Sorted (key_ge key_le) l ->
  Sorted (key_ge key_le) (insert_desc key_le x l).
Proof.
  induction 1 as [|y rest Hsorted IH Hhd]; simpl.
  - repeat constructor.
  - destruct (key_le y x) eqn:Hyx.
    + constructor; [now constructor |]. now constructor.
    + constructor; [exact IH |].
      apply insert_desc_hd; [now apply key_le_total | exact Hhd].
Qed.

Lemma sort_desc_sorted (l : list A) : Sorted (key_ge key_le) (sort_desc key_le l).
Proof.
  induction l as [|x l IH]; simpl; [constructor |].
  now apply insert_desc_sorted.
Qed.

(** Stability: the elements of a class of equal keys come out in the
    order they went in. *)
Section Stable.
Variable same : A -> bool.
Hypothesis same_le :
  forall x y, same x = true -> same y = true -> key_le y x = true.

Lemma insert_desc_filter (x : A) (l : list A) :
  filter same (insert_desc key_le x l)
  = if same x then x :: filter same l else filter same l.
Proof.
  induction l as [|y rest IH]; simpl.
  - now destruct (same x).
  - destruct (key_le y x) eqn:Hyx; simpl.
    + destruct (same x); reflexivity.
    + rewrite IH. destruct (same x) eqn:Hx, (same y) eqn:Hy;
        try reflexivity.
      rewrite (same_le x y Hx Hy) in Hyx. discriminate.
Qed.

Lemma sort_desc_filter (l : list A) :
  filter same (sort_desc key_le l) = filter same l.
Proof.
  induction l as [|x l IH]; simpl; [reflexivity |].
  rewrite insert_desc_filter, IH. reflexivity.
Qed.
End Stable.
End StableSortFacts.

Lemma filter_precedes {A} (same : A -> bool) (a b : A) (l : list A) :
  precedes a b (filter same l) -> precedes a b l.
Proof.
  unfold precedes. induction l as [|x l IH]; simpl.
  - intros (l1 & l2 & l3 & H). destruct l1; discriminate.
  - destruct (same x) eqn:Hx.
    + intros (l1 & l2 & l3 & H). destruct l1 as [|y l1]; simpl in H.
      * injection H as <- H.
        assert (Hin : In b (filter same l))
          by (rewrite H; apply in_elt).
        apply filter_In in Hin as [Hin _].
        apply in_split in Hin as (m1 & m2 & ->).
        now exists [], m1, m2.
      * injection H as <- H.
        destruct IH as (m1 & m2 & m3 & ->); [now exists l1, l2, l3 |].
        now exists (x :: m1), m2, m3.
    + intro H. destruct (IH H) as (m1 & m2 & m3 & ->).
      now exists (x :: m1), m2, m3.
Qed.

Lemma precedes_filter {A} (same : A -> bool) (a b : A) (l : list A) :
  same a = true -> same b = true ->
  precedes a b l -> precedes a b (filter same l).
Proof.
  intros Ha Hb (l1 & l2 & l3 & ->).
  exists (filter same l1), (filter same l2), (filter same l3).
  rewrite filter_app. simpl. rewrite Ha, filter_app. simpl. now rewrite Hb.
Qed.

(* ================================================================== *)
(** ** The dict [market_scores] *)

Section ScoresFacts.

Lemma lookup_app k (ms ms' : scores) :
  lookup k (ms ++ ms')
  = match lookup k ms with Some c => Some c | None => lookup k ms' end.
Proof.
  induction ms as [|[k0 c] rest IH]; simpl; [reflexivity |].
  destruct (k0 =? k)%string; [reflexivity | exact IH].
Qed.

Lemma lookup_update k k' f (ms : scores) :
  lookup k' (update k f ms)
  = if (k =? k')%string then option_map f (lookup k' ms)
    else lookup k' ms.
Proof.
  induction ms as [|[k0 c] rest IH]; simpl.
  - now destruct (k =? k')%string.
  - destruct (String.eqb_spec k0 k) as [-> | Hk0]; simpl.
    + destruct (String.eqb_spec k k'); reflexivity.
    + rewrite IH. destruct (String.eqb_spec k0 k') as [-> | Hk0'].
      * destruct (String.eqb_spec k k'); [congruence | reflexivity].
      * reflexivity.
Qed.

Lemma candidate_at_step k k' f (ms : scores) :
  candidate_at k' (update k f (ensure k ms))
  = if (k =? k')%string then f (candidate_at k' ms)
    else candidate_at k' ms.
Proof.
  unfold candidate_at, ensure. rewrite lookup_update.
  destruct (String.eqb_spec k k') as [<- | Hk].
  - destruct (lookup k ms) as [c|] eqn:Hl.
    + now rewrite Hl.
    + rewrite lookup_app, Hl. simpl. now rewrite String.eqb_refl.
  - destruct (lookup k ms) as [c|] eqn:Hl; [reflexivity |].
    rewrite lookup_app. destruct (lookup k' ms); [reflexivity |].
    simpl. destruct (String.eqb_spec k k'); [contradiction | reflexivity].
Qed.

Lemma keys_update k f (ms : scores) :
  map fst (update k f ms) = map fst ms.
Proof.
  induction ms as [|[k0 c] rest IH]; simpl; [reflexivity |].
  destruct (k0 =? k)%string; simpl; [reflexivity | now rewrite IH].
Qed.

Lemma mem_keys k (ms : scores) :
  PyStr.mem k (map fst ms)
  = match lookup k ms with Some _ => true | None => false end.
Proof.
  induction ms as [|[k0 c] rest IH]; simpl; [reflexivity |].
  rewrite (String.eqb_sym k k0).
  destruct (k0 =? k)%string; simpl; [reflexivity | exact IH].
Qed.

Lemma keys_ensure k (ms : scores) :
  map fst (ensure k ms) = see (map fst ms) k.
Proof.
  unfold ensure, see. rewrite mem_keys.
  destruct (lookup k ms); [reflexivity |].
  now rewrite map_app.
Qed.

Lemma keys_score_underserved ms u :
  map fst (score_underserved ms u) = see (map fst ms) (um_market u).
Proof. unfold score_underserved. now rewrite keys_update, keys_ensure. Qed.

Lemma keys_score_mention ms m :
  map fst (score_mention ms m) = see (map fst ms) (mm_market m).
Proof. unfold score_mention. now rewrite keys_update, keys_ensure. Qed.

Lemma keys_collect (i : Inputs) :
  map fst (collect i) = first_seen (names_met i).
Proof.
  unfold collect, first_seen, names_met. rewrite fold_left_app.
  assert (Hus : forall us ms,
             map fst (fold_left score_underserved us ms)
             = fold_left see (map um_market us) (map fst ms)).
  { induction us as [|u us IH]; intros ms; simpl; [reflexivity |].
    now rewrite IH, keys_score_underserved. }
  assert (Hmm : forall mms ms,
             map fst (fold_left score_mention mms ms)
             = fold_left see (map mm_market mms) (map fst ms)).
  { induction mms as [|m mms IH]; intros ms; simpl; [reflexivity |].
    now rewrite IH, keys_score_mention. }
  rewrite Hmm, Hus. reflexivity.
Qed.

Lemma keys_score_markets (i : Inputs) :
  map fst (score_markets i) = first_seen (names_met i).
Proof.
  unfold score_markets. rewrite map_map. simpl. apply keys_collect.
Qed.

Lemma see_NoDup seen n : NoDup seen -> NoDup (see seen n).
Proof.
  unfold see. intro H. destruct (PyStr.mem n seen) eqn:Hmem; [exact H |].
  apply NoDup_app; [exact H | repeat constructor; intros [] |].
  intros x Hx [<- | []].
  apply PyStrFacts.mem_spec in Hx. congruence.
Qed.

Lemma see_In seen n k : In k (see seen n) <-> In k seen \/ k = n.
Proof.
  unfold see. destruct (PyStr.mem n seen) eqn:Hmem.
  - apply PyStrFacts.mem_spec in Hmem. split; [tauto |].
    intros [H | ->]; assumption.
  - rewrite in_app_iff. simpl. intuition congruence.
Qed.

Lemma fold_see_NoDup names : forall seen,
  NoDup seen -> NoDup (fold_left see names seen).
Proof.
  induction names as [|n names IH]; intros seen H; simpl; [exact H |].
  apply IH. now apply see_NoDup.
Qed.

Lemma fold_see_In names k : forall seen,
  In k (fold_left see names seen) <-> In k seen \/ In k names.
Proof.
  induction names as [|n names IH]; intros seen; simpl; [tauto |].
  rewrite IH, see_In. intuition congruence.
Qed.

Lemma first_seen_NoDup names : NoDup (first_seen names).
Proof. apply fold_see_NoDup. constructor. Qed.

Lemma first_seen_In names k : In k (first_seen names) <-> In k names.
Proof. unfold first_seen. rewrite fold_see_In. simpl. tauto. Qed.

Lemma lookup_In k c (ms : scores) :
  NoDup (map fst ms) -> In (k, c) ms -> lookup k ms = Some c.
Proof.
  induction ms as [|[k0 c0] rest IH]; simpl; [tauto |].
  intros Hnd [Heq | Hin].
  - injection Heq as -> ->. now rewrite String.eqb_refl.
  - inversion Hnd as [|? ? Hnotin Hnd']; subst.
    destruct (String.eqb_spec k0 k) as [-> | _]; [| now apply IH].
    exfalso. apply Hnotin. apply (in_map fst) in Hin. exact Hin.
Qed.

End ScoresFacts.

(* ================================================================== *)
(** ** What the first two loops accumulate *)

Section Accounting.

Lemma underserved_total_snoc k us u :
  underserved_total k (us ++ [u])
  == underserved_total k us
     + (if (um_market u =? k)%string
        then um_gap_score u + growth_bonus (um_growth_potential u)
        else 0).
Proof.
  induction us as [|u0 us IH]; simpl; [lra |]. rewrite IH. lra.
Qed.

Lemma mention_total_snoc k mms m :
  mention_total k (mms ++ [m])
  == mention_total k mms
     + (if (mm_market m =? k)%string
        then mention_score_of (mm_mention_count m)
             + sentiment_score_of (mm_sentiment_score m)
        else 0).
Proof.
  induction mms as [|m0 mms IH]; simpl; [lra |]. rewrite IH. lra.
Qed.

Lemma last_underserved_snoc k us u :
  last_underserved k (us ++ [u])
  = if (um_market u =? k)%string then Some u else last_underserved k us.
Proof. unfold last_underserved. now rewrite rev_unit. Qed.

Lemma last_mention_snoc k mms m :
  last_mention k (mms ++ [m])
  = if (mm_market m =? k)%string then Some m else last_mention k mms.
Proof. unfold last_mention. now rewrite rev_unit. Qed.

Lemma accounted_new k : accounted [] [] k (new_candidate k).
Proof. constructor; simpl; try reflexivity. Qed.

Lemma accounted_score_underserved us ms u :
  (forall k, accounted us [] k (candidate_at k ms)) ->
  forall k, accounted (us ++ [u]) [] k
                      (candidate_at k (score_underserved ms u)).
Proof.
  intros Hinv k. destruct (Hinv k) as [Hn Ht Hg Hgp Hm Hs Hga Hta Hsa].
  unfold score_underserved. rewrite candidate_at_step.
  unfold last_gap_score, last_growth_potential in *.
  constructor;
    unfold last_gap_score, last_growth_potential;
    rewrite ?underserved_total_snoc, ?last_underserved_snoc;
    destruct (um_market u =? k)%string; simpl in *; try assumption;
    try reflexivity.
  - unfold growth_bonus.
    destruct (Py.eq_str (um_growth_potential u) "High");
      [| destruct (Py.eq_str (um_growth_potential u) "Medium")];
      simpl; rewrite Ht; simpl; lra.
  - rewrite Ht. lra.
Qed.

Lemma accounted_score_mention us mms ms m :
  (forall k, accounted us mms k (candidate_at k ms)) ->
  forall k, accounted us (mms ++ [m]) k
                      (candidate_at k (score_mention ms m)).
Proof.
  intros Hinv k. destruct (Hinv k) as [Hn Ht Hg Hgp Hm Hs Hga Hta Hsa].
  unfold score_mention. rewrite candidate_at_step.
  constructor;
    unfold last_mention_score, last_sentiment_score in *;
    rewrite ?mention_total_snoc, ?last_mention_snoc;
    destruct (mm_market m =? k)%string; simpl in *; try assumption;
    try reflexivity.
  - rewrite Ht. lra.
  - rewrite Ht. lra.
Qed.

Lemma accounted_underserved_loop us' : forall us ms,
  (forall k, accounted us [] k (candidate_at k ms)) ->
  forall k, accounted (us ++ us') [] k
                      (candidate_at k (fold_left score_underserved us' ms)).
Proof.
  induction us' as [|u us' IH]; intros us ms Hinv k; simpl.
  - rewrite app_nil_r. apply Hinv.
  - replace (us ++ u :: us') with ((us ++ [u]) ++ us')
      by (rewrite <- app_assoc; reflexivity).
    apply IH. now apply accounted_score_underserved.
Qed.

Lemma accounted_mention_loop us mms' : forall mms ms,
  (forall k, accounted us mms k (candidate_at k ms)) ->
  forall k, accounted us (mms ++ mms') k
                      (candidate_at k (fold_left score_mention mms' ms)).
Proof.
  induction mms' as [|m mms' IH]; intros mms ms Hinv k; simpl.
  - rewrite app_nil_r. apply Hinv.
  - replace (mms ++ m :: mms') with ((mms ++ [m]) ++ mms')
      by (rewrite <- app_assoc; reflexivity).
    apply IH. now apply accounted_score_mention.
Qed.

Lemma collect_accounted (i : Inputs) k :
  accounted (underserved_markets i) (market_mentions i) k
            (candidate_at k (collect i)).
Proof.
  unfold collect.
  apply (accounted_mention_loop (underserved_markets i)
                                (market_mentions i) []).
  apply (accounted_underserved_loop (underserved_markets i) [] []).
  intro k'. apply accounted_new.
Qed.

End Accounting.

(* ================================================================== *)
(** ** The alignment loop and the returned list *)

Section Ranking.

Lemma Qnat_S n : Qnat (S n) == Qnat n + 1.
Proof.
  unfold Qnat. rewrite Nat2Z.inj_succ, <- Z.add_1_r, inject_Z_plus.
  reflexivity.
Qed.

Lemma Qnat_nonneg n : 0 <= Qnat n.
Proof.
  unfold Qnat. change 0 with (inject_Z 0). rewrite <- Zle_Qle. lia.
Qed.

Lemma count_aligned_cons words x xs :
  count_aligned words (x :: xs)
  = ((if aligned words x then 1 else 0) + count_aligned words xs)%nat.
Proof.
  unfold count_aligned. simpl.
  assert (Hacc : forall ys n,
             fold_left (fun n x => if aligned words x then S n else n) ys n
             = (n + fold_left
                      (fun n x => if aligned words x then S n else n)
                      ys 0)%nat).
  { induction ys as [|y ys IH]; intros n; simpl; [lia |].
    rewrite IH. rewrite (IH (if aligned words y then 1%nat else 0%nat)).
    destruct (aligned words y); lia. }
  rewrite Hacc. reflexivity.
Qed.

Lemma add_investment_spec words areas : forall total,
  add_investment words areas total
  == total + Qnat (count_aligned words areas).
Proof.
  induction areas as [|area areas IH]; intros total.
  - change (total == total + 0). lra.
  - rewrite count_aligned_cons. unfold add_investment in *. simpl.
    rewrite IH. destruct (aligned words area); simpl.
    + rewrite Qnat_S. lra.
    + lra.
Qed.

Lemma align_total gs hs es ts k c :
  let c' := align gs hs es ts k c in
  total_score c'
  == total_score c + growth_alignment c' + investment_bonus k hs
     + tech_alignment c' + sector_alignment c'.
Proof.
  simpl. rewrite add_investment_spec. unfold investment_bonus. lra.
Qed.

Lemma rank_In (i : Inputs) (c : MarketCandidate) :
  In c (rank_markets i) <-> In c (inserted i).
Proof.
  unfold rank_markets. split; apply Permutation_in.
  - symmetry. apply sort_desc_perm.
  - apply sort_desc_perm.
Qed.

Lemma collect_NoDup (i : Inputs) : NoDup (map fst (collect i)).
Proof. rewrite keys_collect. apply first_seen_NoDup. Qed.

Lemma collect_entry (i : Inputs) k c :
  In (k, c) (collect i) ->
  accounted (underserved_markets i) (market_mentions i) k c.
Proof.
  intro Hin. apply lookup_In in Hin; [| apply collect_NoDup].
  pose proof (collect_accounted i k) as H.
  unfold candidate_at in H. now rewrite Hin in H.
Qed.

(** Every returned candidate is an accounted candidate of the first two
    loops, aligned by the third. *)
Lemma inserted_accounted (i : Inputs) (c : MarketCandidate) :
  In c (inserted i) ->
  exists k c0,
    accounted (underserved_markets i) (market_mentions i) k c0
    /\ c = align (growth_sectors i) (hot_investment_areas i)
                 (emerging_tech i) (trending_sectors i) k c0.
Proof.
  unfold inserted, score_markets. rewrite map_map. intro Hin.
  apply in_map_iff in Hin as ([k c0] & <- & Hin).
  apply collect_entry in Hin. now exists k, c0.
Qed.

Lemma inserted_names (i : Inputs) :
  map name (inserted i) = first_seen (names_met i).
Proof.
  rewrite <- keys_collect. unfold inserted, score_markets.
  rewrite !map_map. apply map_ext_in. intros [k c0] Hin. simpl.
  apply collect_entry in Hin. apply (acc_name _ _ _ _ Hin).
Qed.

Lemma inserted_has (i : Inputs) k :
  In k (names_met i) -> exists c, In c (inserted i) /\ name c = k.
Proof.
  intro Hin. apply first_seen_In in Hin. rewrite <- inserted_names in Hin.
  apply in_map_iff in Hin as (c & Hc & Hin). now exists c.
Qed.

(** The accumulated total and the stored fields of a returned candidate. *)
Lemma inserted_total (i : Inputs) (c : MarketCandidate) :
  In c (inserted i) ->
  total_score c
  == underserved_total (name c) (underserved_markets i)
     + mention_total (name c) (market_mentions i)
     + growth_alignment c
     + investment_bonus (name c) (hot_investment_areas i)
     + tech_alignment c + sector_alignment c
  /\ gap_score c = last_gap_score (name c) (underserved_markets i)
  /\ growth_potential c
     = last_growth_potential (name c) (underserved_markets i)
  /\ mention_score c = last_mention_score (name c) (market_mentions i)
  /\ sentiment_score c
     = last_sentiment_score (name c) (market_mentions i).
Proof.
  intro Hin. apply inserted_accounted in Hin as (k & c0 & Hacc & ->).
  destruct Hacc as [Hn Ht Hg Hgp Hm Hs _ _ _].
  rewrite align_total. cbn [name gap_score growth_potential mention_score
                            sentiment_score align].
  rewrite Hn. repeat split; try assumption.
  rewrite Ht. reflexivity.
Qed.

Lemma underserved_total_absent k us :
  ~ In k (map um_market us) -> underserved_total k us == 0.
Proof.
  induction us as [|u us IH]; simpl; [reflexivity |]. intro H.
  destruct (String.eqb_spec (um_market u) k) as [Heq | _]; [tauto |].
  rewrite IH; [lra | tauto].
Qed.

Lemma mention_total_absent k mms :
  ~ In k (map mm_market mms) -> mention_total k mms == 0.
Proof.
  induction mms as [|m mms IH]; simpl; [reflexivity |]. intro H.
  destruct (String.eqb_spec (mm_market m) k) as [Heq | _]; [tauto |].
  rewrite IH; [lra | tauto].
Qed.

Lemma NoDup_snoc {A} (l : list A) (x : A) :
  NoDup (l ++ [x]) -> NoDup l /\ ~ In x l.
Proof.
  intro H. apply NoDup_remove in H. now rewrite app_nil_r in H.
Qed.

(** Without duplicate names, the one record of a name is its last. *)
Lemma underserved_total_distinct k us :
  NoDup (map um_market us) ->
  underserved_total k us
  == last_gap_score k us + growth_bonus (last_growth_potential k us).
Proof.
  unfold last_gap_score, last_growth_potential.
  induction us as [|u us IH] using rev_ind; intro Hnd.
  - simpl. unfold growth_bonus. simpl. lra.
  - rewrite map_app in Hnd. simpl in Hnd.
    apply NoDup_snoc in Hnd as [Hnd Hnotin].
    rewrite underserved_total_snoc, last_underserved_snoc.
    destruct (String.eqb_spec (um_market u) k) as [<- | _].
    + rewrite underserved_total_absent by exact Hnotin. lra.
    + rewrite IH by exact Hnd. lra.
Qed.

Lemma mention_total_distinct k mms :
  NoDup (map mm_market mms) ->
  mention_total k mms
  == last_mention_score k mms + last_sentiment_score k mms.
Proof.
  unfold last_mention_score, last_sentiment_score.
  induction mms as [|m mms IH] using rev_ind; intro Hnd.
  - simpl. lra.
  - rewrite map_app in Hnd. simpl in Hnd.
    apply NoDup_snoc in Hnd as [Hnd Hnotin].
    rewrite mention_total_snoc, last_mention_snoc.
    destruct (String.eqb_spec (mm_market m) k) as [<- | _].
    + rewrite mention_total_absent by exact Hnotin. lra.
    + rewrite IH by exact Hnd. lra.
Qed.

(** Without duplicate names the stored fields and the two unstored
    bonuses account for the total. *)
Lemma inserted_total_distinct (i : Inputs) (c : MarketCandidate) :
  NoDup (map um_market (underserved_markets i)) ->
  NoDup (map mm_market (market_mentions i)) ->
  In c (inserted i) ->
  total_score c
  == component_sum c + growth_bonus (growth_potential c)
     + investment_bonus (name c) (hot_investment_areas i).
Proof.
  intros Hus Hmm Hin.
  destruct (inserted_total i c Hin) as (Ht & Hg & Hgp & Hm & Hs).
  rewrite Ht, (underserved_total_distinct _ _ Hus),
    (mention_total_distinct _ _ Hmm).
  unfold component_sum. rewrite Hg, Hgp, Hm, Hs. lra.
Qed.

Lemma growth_bonus_nonneg gp : 0 <= growth_bonus gp.
Proof.
  unfold growth_bonus.
  destruct (Py.eq_str gp "High"); [lra |].
  destruct (Py.eq_str gp "Medium"); lra.
Qed.

Lemma last_mention_found before m after :
  ~ In (mm_market m) (map mm_market after) ->
  last_mention (mm_market m) (before ++ m :: after) = Some m.
Proof.
  unfold last_mention. intro Hnotin.
  rewrite rev_app_distr. simpl. rewrite <- app_assoc. simpl.
  assert (Hrev : forall m0, In m0 (rev after) ->
                            mm_market m0 <> mm_market m).
  { intros m0 Hin Heq. apply Hnotin. rewrite <- Heq. apply in_map.
    now apply in_rev. }
  induction (rev after) as [|m0 l IH]; simpl.
  - now rewrite String.eqb_refl.
  - destruct (String.eqb_spec (mm_market m0) (mm_market m)) as [Heq | _].
    + exfalso. apply (Hrev m0); [now left | exact Heq].
    + apply IH. intros m1 Hin. apply Hrev. now right.
Qed.

Lemma by_total_score_total x y :
  by_total_score y x = false -> by_total_score x y = true.
Proof.
  unfold by_total_score. intro H. apply Qle_bool_iff.
  destruct (Qle_bool (total_score y) (total_score x)) eqn:Hle;
    [discriminate |].
  destruct (Qlt_le_dec (total_score x) (total_score y)) as [Hlt | Hge].
  - now apply Qlt_le_weak.
  - apply Qle_bool_iff in Hge. congruence.
Qed.

Lemma rank_sorted (i : Inputs) :
  StronglySorted (fun a b => total_score b <= total_score a)
                 (rank_markets i).
Proof.
  apply Sorted_StronglySorted.
  - intros a b c Hab Hbc. now apply Qle_trans with (total_score b).
  - unfold rank_markets.
    pose proof (sort_desc_sorted by_total_score by_total_score_total
                                 (inserted i)) as H.
    eapply Sorted_ind with (P := fun l =>
      Sorted (fun a b => total_score b <= total_score a) l);
      [constructor | | exact H].
    intros a l _ IH Hhd. constructor; [exact IH |].
    destruct Hhd as [|b l Hab]; constructor.
    apply Qle_bool_iff. exact Hab.
Qed.

Lemma rank_stable (i : Inputs) (q : Q) :
  filter (has_score q) (rank_markets i)
  = filter (has_score q) (inserted i).
Proof.
  apply sort_desc_filter. intros x y Hx Hy.
  unfold has_score, by_total_score in *.
  apply Qeq_bool_iff in Hx, Hy. apply Qle_bool_iff.
  rewrite Hx, Hy. apply Qle_refl.
Qed.

End Ranking.

(* ================================================================== *)
(** ** Properties of the scoring engine *)

Lemma Qmin_cap (cap x : Q) : cap <= x -> Qmin cap x = cap.
Proof.
  intro H. unfold Qmin, GenericMinMax.gmin.
  destruct (cap ?= x) eqn:E; try reflexivity.
  exfalso. apply (proj1 (Qle_alt cap x) H). exact E.
Qed.

Lemma score_mention_stored (ms : scores) (m : MarketMention) :
  exists c,
    lookup (mm_market m) (score_mention ms m) = Some c
    /\ mention_score c = Qmin 10 (mm_mention_count m / 3)
    /\ sentiment_score c = Qmin 5 (mm_sentiment_score m * 5).
Proof.
  unfold score_mention. rewrite lookup_update, String.eqb_refl.
  unfold ensure. destruct (lookup (mm_market m) ms) as [c|] eqn:Hl.
  - rewrite Hl. simpl. eexists. split; [reflexivity |]. now split.
  - rewrite lookup_app, Hl. simpl. rewrite String.eqb_refl. simpl.
    eexists. split; [reflexivity |]. now split.
Qed.

(** C1. On the end-to-end example the call returns exactly one candidate,
    for "Rural Healthcare Technology", whose total_score is 19.6: the gap
    score 8.7, the bonus 3 for a High growth potential, the mention score
    4.0 and the sentiment score 3.9. *)
Theorem C1_end_to_end_example :
  exists c,
    identify_top_underserved_markets example_combined_data = Ok [c]
    /\ name c = "Rural Healthcare Technology"
    /\ gap_score c == 8.7
    /\ growth_bonus (growth_potential c) == 3
    /\ mention_score c == 4.0
    /\ sentiment_score c == 3.9
    /\ total_score c == 8.7 + 3 + 4.0 + 3.9
    /\ total_score c == 19.6.
Proof.
  eexists. split; [vm_compute; reflexivity |].
  repeat split; vm_compute; reflexivity.
Qed.

(** C2. Processing a mention record stores min(10, mention_count / 3) as
    mention_score and min(5, sentiment * 5) as sentiment_score under the
    record's market name; the returned candidate of that name holds the
    values of the last record of the name, and they are exactly 10 from 30
    mentions on and exactly 5 from a sentiment of 1.0 on. *)
Theorem C2_mention_and_sentiment_scores :
  (forall (ms : scores) (m : MarketMention),
      exists c,
        lookup (mm_market m) (score_mention ms m) = Some c
        /\ mention_score c = Qmin 10 (mm_mention_count m / 3)
        /\ sentiment_score c = Qmin 5 (mm_sentiment_score m * 5))
  /\
  (forall (combined_data : json) (i : Inputs),
      read_inputs combined_data = Ok i ->
      exists out,
        identify_top_underserved_markets combined_data = Ok out
        /\ forall before m after,
            market_mentions i = before ++ m :: after ->
            ~ In (mm_market m) (map mm_market after) ->
            exists c,
              In c out
              /\ name c = mm_market m
              /\ mention_score c = Qmin 10 (mm_mention_count m / 3)
              /\ sentiment_score c = Qmin 5 (mm_sentiment_score m * 5)
              /\ (30 <= mm_mention_count m -> mention_score c = 10)
              /\ (1 <= mm_sentiment_score m -> sentiment_score c = 5)).
Proof.
  split; [exact score_mention_stored |].
  intros combined_data i Hread. exists (rank_markets i).
  split; [now apply identify_reads |].
  intros before m after Hsplit Hlast.
  destruct (inserted_has i (mm_market m)) as (c & Hin & Hname).
  { unfold names_met. apply in_or_app. right. rewrite Hsplit, map_app.
    apply in_or_app. right. now left. }
  exists c. split; [now apply rank_In |]. split; [exact Hname |].
  destruct (inserted_total i c Hin) as (_ & _ & _ & Hm & Hs).
  rewrite Hname, Hsplit in Hm, Hs.
  unfold last_mention_score, last_sentiment_score in Hm, Hs.
  rewrite (last_mention_found _ _ _ Hlast) in Hm, Hs.
  unfold mention_score_of in Hm. unfold sentiment_score_of in Hs.
  rewrite Hm, Hs. repeat split.
  - intro H. apply Qmin_cap. apply Qle_shift_div_l; [reflexivity | lra].
  - intro H. apply Qmin_cap. lra.
Qed.

Lemma C2_witness :
  read_inputs sample_combined_data = Ok sample_inputs
  /\ exists out c,
      identify_top_underserved_markets sample_combined_data = Ok out
      /\ In c out
      /\ name c = "Telemedicine Services"
      /\ mention_score c = 10 /\ sentiment_score c = 5.
Proof.
  split; [vm_compute; reflexivity |].
  destruct (proj2 C2_mention_and_sentiment_scores
                  sample_combined_data sample_inputs)
    as (out & Hout & Hlast); [vm_compute; reflexivity |].
  destruct (Hlast [] (mkMention "Telemedicine Services" 45 1.2)
                  [mkMention "Remote Work Technology" 9 0.4])
    as (c & Hin & Hname & _ & _ & Hcap & Hcap').
  - reflexivity.
  - simpl. intros [H | []]. discriminate.
  - exists out, c. repeat split; try assumption.
    + apply Hcap. simpl. lra.
    + apply Hcap'. simpl. lra.
Defined.

(** C4 (amended). When no market name occurs twice among the
    underserved-market records or among the mention records, the
    total_score of every returned candidate is at least the sum of its six
    component fields, and equals that sum exactly when the candidate got
    no growth-potential bonus and no investment area shares a word with
    its name. *)
Theorem C4_total_and_six_components :
  forall (combined_data : json) (i : Inputs),
    read_inputs combined_data = Ok i ->
    NoDup (map um_market (underserved_markets i)) ->
    NoDup (map mm_market (market_mentions i)) ->
    exists out,
      identify_top_underserved_markets combined_data = Ok out
      /\ forall c,
          In c out ->
          component_sum c <= total_score c
          /\ (total_score c == component_sum c
              <-> growth_bonus (growth_potential c) == 0
                  /\ investment_bonus (name c) (hot_investment_areas i)
                     == 0).
Proof.
  intros combined_data i Hread Hus Hmm. exists (rank_markets i).
  split; [now apply identify_reads |].
  intros c Hin. apply rank_In in Hin.
  pose proof (inserted_total_distinct i c Hus Hmm Hin) as Ht.
  pose proof (growth_bonus_nonneg (growth_potential c)) as Hg.
  assert (Hi : 0 <= investment_bonus (name c) (hot_investment_areas i))
    by apply Qnat_nonneg.
  split; [lra |]. split.
  - intro Heq. split; lra.
  - intros [H1 H2]. lra.
Qed.

Lemma C4_witness :
  read_inputs plain_combined_data = Ok plain_inputs
  /\ exists c,
      identify_top_underserved_markets plain_combined_data = Ok [c]
      /\ total_score c == component_sum c.
Proof.
  split; [vm_compute; reflexivity |].
  destruct (C4_total_and_six_components plain_combined_data plain_inputs)
    as (out & Hout & Hall).
  - vm_compute. reflexivity.
  - simpl. repeat constructor. simpl. tauto.
  - simpl. constructor.
  - assert (Hrun : identify_top_underserved_markets plain_combined_data
                   = Ok (rank_markets plain_inputs))
      by (apply identify_reads; vm_compute; reflexivity).
    rewrite Hrun in Hout. injection Hout as <-.
    remember (rank_markets plain_inputs) as out eqn:Hdef.
    vm_compute in Hdef. subst out.
    eexists. split; [exact Hrun |].
    apply Hall; [now left |]. split; vm_compute; reflexivity.
Defined.

(** C4 fails as stated: on the end-to-end example the returned candidate
    has total_score 19.6 while its six component fields add up to 16.6. *)
Lemma C4_counterexample :
  exists c,
    identify_top_underserved_markets example_combined_data = Ok [c]
    /\ total_score c == 19.6
    /\ component_sum c == 16.6
    /\ ~ total_score c == component_sum c.
Proof.
  eexists. split; [vm_compute; reflexivity |].
  split; [vm_compute; reflexivity |].
  split; [vm_compute; reflexivity |].
  vm_compute. discriminate.
Qed.

(** C5. The returned list is sorted by descending total_score; it is a
    rearrangement of the candidates in insertion order (the order in which
    the first two loops meet the names), and candidates with equal
    total_score keep their insertion order. *)
Theorem C5_sorted_descending_and_stable :
  forall (combined_data : json) (i : Inputs),
    read_inputs combined_data = Ok i ->
    exists out,
      identify_top_underserved_markets combined_data = Ok out
      /\ StronglySorted (fun a b => total_score b <= total_score a) out
      /\ Permutation (inserted i) out
      /\ map name (inserted i) = first_seen (names_met i)
      /\ (forall q,
            filter (has_score q) out = filter (has_score q) (inserted i))
      /\ (forall a b,
            total_score a == total_score b ->
            precedes a b (inserted i) -> precedes a b out).
Proof.
  intros combined_data i Hread. exists (rank_markets i).
  split; [now apply identify_reads |].
  split; [apply rank_sorted |].
  split; [apply sort_desc_perm |].
  split; [apply inserted_names |].
  split; [apply rank_stable |].
  intros a b Heq Hprec.
  apply (filter_precedes (has_score (total_score a))).
  rewrite rank_stable. apply precedes_filter; [| | exact Hprec].
  - unfold has_score. apply Qeq_bool_iff. reflexivity.
  - unfold has_score. apply Qeq_bool_iff. now symmetry.
Qed.

Lemma C5_witness :
  read_inputs sample_combined_data = Ok sample_inputs
  /\ exists out,
      identify_top_underserved_markets sample_combined_data = Ok out
      /\ map name (inserted sample_inputs)
         = ["Elderly-focused Technology"; "Remote Work Technology";
            "Middle-Income Housing"; "Telemedicine Services"]
      /\ map name out
         = ["Remote Work Technology"; "Telemedicine Services";
            "Elderly-focused Technology"; "Middle-Income Housing"]
      /\ StronglySorted (fun a b => total_score b <= total_score a) out.
Proof.
  split; [vm_compute; reflexivity |].
  destruct (C5_sorted_descending_and_stable sample_combined_data
                                            sample_inputs)
    as (out & Hout & Hsorted & _); [vm_compute; reflexivity |].
  exists out. split; [exact Hout |].
  split; [vm_compute; reflexivity |].
  split; [| exact Hsorted].
  vm_compute in Hout. injection Hout as <-. reflexivity.
Defined.


(* ================================================================== *)
(** ** Properties of the validator *)

Section ValidatorFacts.

Lemma fold_append {A B} (f : A -> B) (l : list A) : forall acc,
  fold_left (fun acc x => acc ++ [f x]) l acc = acc ++ map f l.
Proof.
  induction l as [|x l IH]; intros acc; simpl.
  - now rewrite app_nil_r.
  - rewrite IH, <- app_assoc. reflexivity.
Qed.

Lemma validate_market_profiles_sorted_map profiles table :
  validate_market_profiles profiles table
  = sort_desc by_validation (map (validate_profile table) profiles).
Proof.
  unfold validate_market_profiles. destruct profiles as [|p rest];
    [reflexivity |].
  now rewrite fold_append.
Qed.

Lemma validate_market_profiles_In profiles table vp :
  In vp (validate_market_profiles profiles table)
  <-> exists p, In p profiles /\ vp = validate_profile table p.
Proof.
  rewrite validate_market_profiles_sorted_map. split.
  - intro H. apply (Permutation_in _ (Permutation_sym
                                        (sort_desc_perm _ _))) in H.
    apply in_map_iff in H as (p & <- & Hp). now exists p.
  - intros (p & Hp & ->). apply (Permutation_in _ (sort_desc_perm _ _)).
    now apply in_map.
Qed.

Lemma key_matches_spec market_name valid_market :
  key_matches market_name valid_market = true
  <-> matches valid_market market_name.
Proof.
  unfold key_matches, matches.
  rewrite orb_true_iff, String.eqb_eq, PyStrFacts.str_in_spec.
  reflexivity.
Qed.

Lemma matches_substring valid_market market_name :
  matches valid_market market_name
  <-> PyStr.substring_of valid_market market_name.
Proof.
  unfold matches. split; [| now right].
  intros [-> | H]; [apply PyStrFacts.substring_of_refl | exact H].
Qed.

(** The loop stops at the first matching key, or finds none. *)
Lemma lookup_validation_cases market_name table :
  (exists before k r after,
      table = before ++ (k, r) :: after
      /\ (forall k' r', In (k', r') before -> ~ matches k' market_name)
      /\ matches k market_name
      /\ lookup_validation market_name table = validated_with r)
  \/ ((forall k r, In (k, r) table -> ~ matches k market_name)
      /\ lookup_validation market_name table = not_validated).
Proof.
  induction table as [|[k r] rest IH]; simpl.
  - right. split; [intros k r [] | reflexivity].
  - destruct (key_matches market_name k) eqn:Hk.
    + left. exists [], k, r, rest. repeat split.
      * intros k' r' [].
      * now apply key_matches_spec.
    + assert (Hno : ~ matches k market_name).
      { intro H. apply key_matches_spec in H. congruence. }
      destruct IH as [(before & k1 & r1 & after & -> & Hb & Hm & Hl)
                     | [Hnone Hl]].
      * left. exists ((k, r) :: before), k1, r1, after.
        repeat split; try assumption.
        intros k' r' [Heq | Hin]; [| now apply (Hb k' r')].
        injection Heq as <- <-. exact Hno.
      * right. split; [| exact Hl].
        intros k' r' [Heq | Hin]; [| now apply (Hnone k' r')].
        injection Heq as <- <-. exact Hno.
Qed.

End ValidatorFacts.

(** C6. The output holds one validated profile per input profile.  Each is
    validated by the first record of the table, in iteration order, whose
    key equals the market name or is a substring of it: is_validated is
    true and the validation score, market size and CAGR are those of that
    record (0 for a field the record lacks).  When no key matches,
    is_validated is false and the three numeric fields are 0. *)
Theorem C6_first_matching_record :
  forall (profiles : list Profile)
         (table : list (string * ValidationRecord)),
    Permutation (map profile (validate_market_profiles profiles table))
                profiles
    /\ forall vp,
        In vp (validate_market_profiles profiles table) ->
        (exists before k r after,
            table = before ++ (k, r) :: after
            /\ (forall k' r',
                  In (k', r') before ->
                  ~ matches k' (market_name (profile vp)))
            /\ matches k (market_name (profile vp))
            /\ is_validated (validation vp) = true
            /\ copied_from (vr_validation_score r)
                           (validation_score (validation vp))
            /\ copied_from (vr_market_size_usd_billions r)
                           (market_size_usd_billions (validation vp))
            /\ copied_from (vr_cagr_percent r)
                           (cagr_percent (validation vp)))
        \/ ((forall k r,
               In (k, r) table -> ~ matches k (market_name (profile vp)))
            /\ is_validated (validation vp) = false
            /\ validation_score (validation vp) = 0
            /\ market_size_usd_billions (validation vp) = 0
            /\ cagr_percent (validation vp) = 0).
Proof.
  intros profiles table. split.
  - rewrite validate_market_profiles_sorted_map.
    rewrite <- (sort_desc_perm by_validation), map_map. simpl.
    now rewrite map_id.
  - intros vp Hin.
    apply validate_market_profiles_In in Hin as (p & _ & ->). simpl.
    destruct (lookup_validation_cases (market_name p) table)
      as [(before & k & r & after & Ht & Hb & Hm & Hl) | [Hnone Hl]];
      rewrite Hl.
    + left. exists before, k, r, after.
      repeat (split; [assumption || reflexivity |]).
      unfold copied_from. simpl.
      destruct (vr_validation_score r), (vr_market_size_usd_billions r),
        (vr_cagr_percent r); repeat split; reflexivity.
    + right. now repeat split.
Qed.

Lemma C6_witness :
  exists vp,
    validate_market_profiles [solutions_profile] validation_data = [vp]
    /\ market_name (profile vp) = "Rural Healthcare Technology Solutions"
    /\ is_validated (validation vp) = true
    /\ validation_score (validation vp) = 8.7
    /\ market_size_usd_billions (validation vp) = 18.5
    /\ cagr_percent (validation vp) = 16.8.
Proof.
  exists (validate_profile validation_data solutions_profile).
  assert (Hrun : validate_market_profiles [solutions_profile]
                                          validation_data
                 = [validate_profile validation_data solutions_profile])
    by reflexivity.
  split; [exact Hrun |]. split; [reflexivity |].
  destruct (proj2 (C6_first_matching_record [solutions_profile]
                                            validation_data)
                  (validate_profile validation_data solutions_profile))
    as [(before & k & r & after & Ht & Hb & Hm & Hv & Hscore & Hsize & Hcagr)
       | (Hnone & _)].
  - rewrite Hrun. now left.
  - destruct before as [|[k0 r0] before].
    + injection Ht as <- <- _. simpl in Hscore, Hsize, Hcagr.
      repeat split; assumption.
    + injection Ht as <- <- _. exfalso. apply (Hb _ _ (or_introl eq_refl)).
      right. now exists ""%string, " Solutions"%string.
  - exfalso. apply (Hnone _ _ (or_introl eq_refl)).
    right. now exists ""%string, " Solutions"%string.
Defined.

(** C7 (amended). The lookup compares characters exactly.  A market name
    that contains exactly one key of the table (the key equals the name or
    is a substring of it) is validated with the record of that key; the
    name written in another case contains no key and is not validated. *)
Theorem C7_unique_contained_key :
  (forall (profiles : list Profile)
          (table : list (string * ValidationRecord)) vp k r,
      In vp (validate_market_profiles profiles table) ->
      In (k, r) table ->
      PyStr.substring_of k (market_name (profile vp)) ->
      (forall k' r',
          In (k', r') table ->
          PyStr.substring_of k' (market_name (profile vp)) ->
          k' = k /\ r' = r) ->
      validation vp = validated_with r)
  /\ validate_market_profiles [lowercase_profile] validation_data
     = [mkValidated lowercase_profile not_validated].
Proof.
  split; [| vm_compute; reflexivity].
  intros profiles table vp k r Hin Hkr Hsub Huniq.
  apply validate_market_profiles_In in Hin as (p & _ & ->). simpl in *.
  destruct (lookup_validation_cases (market_name p) table)
    as [(before & k1 & r1 & after & Ht & Hb & Hm & Hl) | [Hnone Hl]].
  - rewrite Hl. apply matches_substring in Hm.
    destruct (Huniq k1 r1) as [_ ->]; [| exact Hm | reflexivity].
    rewrite Ht. apply in_elt.
  - exfalso. apply (Hnone k r Hkr). now apply matches_substring.
Qed.

Lemma C7_witness :
  In ("Rural Healthcare Technology",
      reference_record 18.5 16.8 8.7
        ["Healthcare accessibility index in rural areas";
         "Digital infrastructure penetration in rural communities";
         "Healthcare spending per capita in rural vs urban areas"]
        ["World Health Organization Rural Health Statistics";
         "International Telecommunication Union Reports";
         "Healthcare Access and Quality Index"])
     validation_data
  /\ market_size_usd_billions
       (validation (validate_profile validation_data solutions_profile))
     = 18.5.
Proof.
  split; [now left |].
  rewrite (proj1 C7_unique_contained_key [solutions_profile] validation_data
                 (validate_profile validation_data solutions_profile)
                 "Rural Healthcare Technology"
                 (reference_record 18.5 16.8 8.7
                    ["Healthcare accessibility index in rural areas";
                     "Digital infrastructure penetration in rural communities";
                     "Healthcare spending per capita in rural vs urban areas"]
                    ["World Health Organization Rural Health Statistics";
                     "International Telecommunication Union Reports";
                     "Healthcare Access and Quality Index"])).
  - reflexivity.
  - vm_compute. now left.
  - now left.
  - now exists ""%string, " Solutions"%string.
  - intros k' r' Hin Hsub. apply PyStrFacts.str_in_spec in Hsub.
    simpl in Hin.
    repeat (destruct Hin as [Heq | Hin];
            [injection Heq as <- <-;
             first [ now split | vm_compute in Hsub; discriminate ] |]).
    destruct Hin.
Defined.

(** C7 fails as stated: "Telemedicine" is a substring of exactly one
    reference key, "Telemedicine Services", and is not validated. *)
Lemma C7_counterexample :
  map fst (filter (fun entry => PyStr.str_in "Telemedicine" (fst entry))
                  validation_data)
  = ["Telemedicine Services"]
  /\ validate_market_profiles [telemedicine_profile] validation_data
     = [mkValidated telemedicine_profile not_validated].
Proof. split; vm_compute; reflexivity. Qed.

(* ================================================================== *)
(** ** Properties of the profile enricher *)

Section EnricherFacts.

Lemma fold_filter_append {A B} (test : A -> bool) (f : A -> B)
      (l : list A) : forall acc,
  fold_left (fun acc x => if test x then acc ++ [f x] else acc) l acc
  = acc ++ map f (filter test l).
Proof.
  induction l as [|x l IH]; intros acc; simpl.
  - now rewrite app_nil_r.
  - rewrite IH. destruct (test x); simpl; [| reflexivity].
    now rewrite <- app_assoc.
Qed.

Lemma find_related_technologies_filter keywords emerging :
  find_related_technologies keywords emerging
  = map related_technology
        (filter (keyword_in_technology keywords) emerging).
Proof. unfold find_related_technologies. now rewrite fold_filter_append. Qed.

Lemma related_technology_inj t1 t2 :
  related_technology t1 = related_technology t2 -> t1 = t2.
Proof.
  destruct t1, t2. unfold related_technology. simpl.
  intro H. injection H as -> -> -> ->. reflexivity.
Qed.

Lemma keyword_in_technology_spec keywords tech :
  keyword_in_technology keywords tech = true
  <-> exists keyword,
      In keyword keywords
      /\ PyStr.substring_of keyword (PyStr.lower (technology tech)).
Proof.
  unfold keyword_in_technology. rewrite existsb_exists.
  split; intros (kw & Hin & H); exists kw; split; try assumption;
    now apply PyStrFacts.str_in_spec.
Qed.

Lemma create_profiles_In market_list data p :
  In p (create_market_opportunity_profiles market_list (Some data))
  -> exists market,
      In market (firstn 10 market_list)
      /\ name market <> ""%string
      /\ p = build_profile data market.
Proof.
  unfold create_market_opportunity_profiles.
  destruct market_list as [|m0 rest]; [intros [] |].
  generalize (firstn 10 (m0 :: rest)) as top. intro top.
  assert (Hfold : forall acc,
             In p (fold_left
                     (fun market_profiles market =>
                        if (name market =? "")%string then market_profiles
                        else market_profiles ++ [build_profile data market])
                     top acc) ->
             In p acc
             \/ exists market,
                 In market top /\ name market <> ""%string
                 /\ p = build_profile data market).
  { induction top as [|m top IH]; intros acc; simpl; [now left |].
    intro H. apply IH in H as [H | (market & Hin & Hne & Hp)].
    - destruct (String.eqb_spec (name m) "") as [_ | Hne]; [now left |].
      apply in_app_or in H as [H | [<- | []]]; [now left |].
      right. exists m. split; [now left |]. now split.
    - right. exists market. split; [now right |]. now split. }
  intro H. apply Hfold in H as [[] | H]. exact H.
Qed.

End EnricherFacts.

(** C8 (amended). Every profile is built for one of the first ten markets,
    and a technology of emerging_tech is attached to its
    related_technologies exactly when some word of the lowercased,
    whitespace-split market name occurs as a substring of the lowercased
    technology name; in particular it is attached whenever the two
    tokenized names share a whole word. *)
Theorem C8_related_technologies :
  forall (market_list : list MarketCandidate) (data : EnrichmentData)
         (p : Profile),
    In p (create_market_opportunity_profiles market_list (Some data)) ->
    (exists market,
        In market (firstn 10 market_list) /\ market_name p = name market)
    /\ forall tech,
        In tech (enrich_emerging_tech data) ->
        (In (related_technology tech) (related_technologies p)
         <-> exists keyword,
             In keyword (PyStr.split (PyStr.lower (market_name p)))
             /\ PyStr.substring_of keyword (PyStr.lower (technology tech)))
        /\ ((exists word,
                In word (PyStr.split (PyStr.lower (technology tech)))
                /\ In word (PyStr.split (PyStr.lower (market_name p))))
            -> In (related_technology tech) (related_technologies p)).
Proof.
  intros market_list data p Hin.
  apply create_profiles_In in Hin as (market & Hin & _ & ->).
  split; [now exists market |].
  intros tech Htech. simpl.
  assert (Hiff :
            In (related_technology tech)
               (find_related_technologies
                  (PyStr.split (PyStr.lower (name market)))
                  (enrich_emerging_tech data))
            <-> exists keyword,
                In keyword (PyStr.split (PyStr.lower (name market)))
                /\ PyStr.substring_of keyword
                                      (PyStr.lower (technology tech))).
  { rewrite find_related_technologies_filter, in_map_iff.
    rewrite <- keyword_in_technology_spec. split.
    - intros (t & Heq & Ht). apply related_technology_inj in Heq as ->.
      now apply filter_In in Ht.
    - intro H. exists tech. split; [reflexivity |].
      now apply filter_In. }
  split; [exact Hiff |].
  intros (word & Hw & Hm). apply Hiff. exists word.
  split; [exact Hm |]. now apply PyStrFacts.split_substring.
Qed.

Lemma C8_witness :
  In (build_profile enrichment_sample rural_candidate)
     (create_market_opportunity_profiles [rural_candidate]
                                         (Some enrichment_sample))
  /\ In rural_broadband (enrich_emerging_tech enrichment_sample)
  /\ In (related_technology rural_broadband)
        (related_technologies
           (build_profile enrichment_sample rural_candidate)).
Proof.
  assert (Hin : In (build_profile enrichment_sample rural_candidate)
                   (create_market_opportunity_profiles
                      [rural_candidate] (Some enrichment_sample)))
    by (simpl; now left).
  assert (Htech : In rural_broadband (enrich_emerging_tech enrichment_sample))
    by (simpl; tauto).
  split; [exact Hin |]. split; [exact Htech |].
  apply (proj2 (C8_related_technologies [rural_candidate] enrichment_sample
                                        _ Hin) rural_broadband Htech).
  exists "rural"%string. split; vm_compute; tauto.
Defined.

(** C8 fails as stated: for the market "Rural Healthcare Technology" the
    technology "Biotechnology" is attached, because the market word
    "technology" occurs inside "biotechnology", although the two tokenized
    names share no word. *)
Lemma C8_counterexample :
  map related_technologies
      (create_market_opportunity_profiles [rural_candidate]
                                          (Some enrichment_sample))
  = [[related_technology biotechnology; related_technology rural_broadband]]
  /\ PyStr.split (PyStr.lower (technology biotechnology))
     = ["biotechnology"]
  /\ PyStr.split (PyStr.lower (name rural_candidate))
     = ["rural"; "healthcare"; "technology"]
  /\ any_word_in (PyStr.split (PyStr.lower (technology biotechnology)))
                 (PyStr.split (PyStr.lower (name rural_candidate)))
     = false.
Proof. repeat split; vm_compute; reflexivity. Qed.

(* ================================================================== *)
(** ** Missing fields and absent input *)

Section Defaults.

Lemma section_ok_list check section key fields :
  check (JList []) = true ->
  section_ok check section key fields = true ->
  exists v,
    section_list (JDict fields) section key = Ok v /\ check v = true.
Proof.
  unfold section_ok, section_list, field_ok. simpl. intros Hdefault.
  destruct (Py.assoc section fields) as [[| | | | |sf]|];
    try discriminate; simpl.
  - destruct (Py.assoc key sf) as [v|]; intro H; eauto.
  - intros _. eauto.
Qed.

Lemma read_all_ok {B} (check : json -> bool)
      (read : json -> result (option B)) :
  (forall x, check x = true -> exists r, read x = Ok r) ->
  forall items,
    forallb check items = true ->
    exists xs, Py.read_all read items = Ok xs.
Proof.
  intros Hread items. induction items as [|x items IH]; simpl.
  - eauto.
  - intro H. apply andb_true_iff in H as [Hx Hitems].
    destruct (Hread x Hx) as [r ->]. destruct (IH Hitems) as [xs ->].
    simpl. eauto.
Qed.

Lemma list_of_read {B} (check : json -> bool)
      (read : json -> result (option B)) v :
  (forall x, check x = true -> exists r, read x = Ok r) ->
  list_of check v = true ->
  exists xs, read_list read v = Ok xs.
Proof.
  intros Hread Hv. destruct v as [| | | |items|]; try discriminate.
  unfold read_list. simpl. now apply (read_all_ok check).
Qed.

Lemma field_num fields key :
  field_ok is_num key fields = true ->
  exists q, (v <- Py.get (JDict fields) key (JNum 0) ;; Py.num v) = Ok q.
Proof.
  unfold field_ok. simpl. destruct (Py.assoc key fields) as [v|]; simpl.
  - destruct v; try discriminate; simpl; eauto.
  - eauto.
Qed.

Lemma market_ok_read market :
  market_ok market = true -> exists r, read_underserved market = Ok r.
Proof.
  destruct market as [| | | | |fields]; try discriminate. simpl.
  intro H. apply andb_true_iff in H as [Hname Hgap].
  apply field_num in Hgap as [q Hq]. simpl in Hq.
  unfold read_underserved, field_ok in *. simpl.
  destruct (Py.assoc "market" fields) as [v|]; simpl; [| eauto].
  destruct v as [| | |s| |]; try discriminate. simpl.
  destruct (s =? "")%string; simpl; [eauto |].
  destruct (Py.num _) as [q'|]; [| discriminate]. simpl. eauto.
Qed.

Lemma mention_ok_read mention :
  mention_ok mention = true -> exists r, read_mention mention = Ok r.
Proof.
  destruct mention as [| | | | |fields]; try discriminate. simpl.
  intro H. apply andb_true_iff in H as [H Hsent].
  apply andb_true_iff in H as [Hname Hcount].
  apply field_num in Hcount as [q Hq]. simpl in Hq.
  apply field_num in Hsent as [q' Hq']. simpl in Hq'.
  unfold read_mention, field_ok in *. simpl.
  destruct (Py.assoc "market" fields) as [v|]; simpl; [| eauto].
  destruct v as [| | |s| |]; try discriminate. simpl.
  destruct (s =? "")%string; simpl; [eauto |].
  destruct (Py.num (match Py.assoc "mention_count" fields with
                    | Some x => x | None => JNum 0 end));
    [| discriminate]. simpl.
  destruct (Py.num _); [| discriminate]. simpl. eauto.
Qed.

Lemma is_str_read x : is_str x = true -> exists r, read_name x = Ok r.
Proof.
  destruct x; try discriminate. unfold read_name. simpl. eauto.
Qed.

Lemma technology_ok_read tech :
  technology_ok tech = true -> exists r, read_technology tech = Ok r.
Proof.
  destruct tech as [| | | | |fields]; try discriminate.
  unfold technology_ok, field_ok, read_technology. simpl.
  destruct (Py.assoc "technology" fields) as [v|]; simpl; [| eauto].
  destruct v; try discriminate. simpl. eauto.
Qed.

Lemma well_typed_reads combined_data :
  well_typed combined_data = true ->
  exists i, read_inputs combined_data = Ok i.
Proof.
  destruct combined_data as [| | | | |fields]; try discriminate.
  unfold well_typed. intro H.
  repeat (apply andb_true_iff in H as [H ?]).
  repeat match goal with
         | Hs : section_ok _ _ _ _ = true |- _ =>
             apply section_ok_list in Hs as (? & ? & ?);
             [| reflexivity]
         end.
  repeat match goal with
         | Hl : list_of market_ok _ = true |- _ =>
             apply (list_of_read _ read_underserved) in Hl as [? ?];
             [| exact market_ok_read]
         | Hl : list_of mention_ok _ = true |- _ =>
             apply (list_of_read _ read_mention) in Hl as [? ?];
             [| exact mention_ok_read]
         | Hl : list_of technology_ok _ = true |- _ =>
             apply (list_of_read _ read_technology) in Hl as [? ?];
             [| exact technology_ok_read]
         | Hl : list_of is_str _ = true |- _ =>
             apply (list_of_read _ read_name) in Hl as [? ?];
             [| exact is_str_read]
         end.
  unfold read_inputs.
  repeat match goal with
         | Heq : _ = Ok _ |- _ => rewrite Heq; clear Heq; simpl
         end.
  eauto.
Qed.

End Defaults.

Lemma rank_markets_nil (i : Inputs) :
  rank_markets i = [] <-> names_met i = [].
Proof.
  split; intro H.
  - destruct (names_met i) as [|n rest] eqn:Hn; [reflexivity |].
    destruct (inserted_has i n) as (c & Hin & _);
      [rewrite Hn; now left |].
    apply rank_In in Hin. rewrite H in Hin. destruct Hin.
  - pose proof (inserted_names i) as Hnames. rewrite H in Hnames.
    apply map_eq_nil in Hnames. unfold rank_markets.
    now rewrite Hnames.
Qed.

Lemma charts_drawn (market_list : list MarketCandidate) :
  market_list <> [] ->
  chart_top_markets market_list = Ok tt
  /\ chart_score_components market_list = Ok tt.
Proof.
  destruct market_list as [|c rest]; [congruence |]. intros _.
  split; reflexivity.
Qed.

(** C9 (the code fails it). A falsy combined_data makes the call return
    the empty list, and on a well-typed combined_data, in which any
    section, list or record field may be missing, the scores are computed
    with the defaults.  But the chart drawn before the return raises when
    no market was scored: on a truthy well-typed combined_data the call
    raises when no record with a market name is read, and returns the
    ranked list otherwise.  It raises on the combined data written when no
    source had data, whose sections are all empty dicts. *)
Theorem C9_raises_without_markets :
  identify_top_underserved_markets_and_chart no_data_combined_data = Raise
  /\ (forall combined_data,
         Py.truthy combined_data = false ->
         identify_top_underserved_markets_and_chart combined_data = Ok [])
  /\ (forall combined_data,
         Py.truthy combined_data = true ->
         well_typed combined_data = true ->
         exists i,
           read_inputs combined_data = Ok i
           /\ (underserved_markets i = [] ->
               market_mentions i = [] ->
               identify_top_underserved_markets_and_chart combined_data
               = Raise)
           /\ (names_met i <> [] ->
               rank_markets i <> []
               /\ identify_top_underserved_markets_and_chart combined_data
                  = Ok (rank_markets i))).
Proof.
  split; [reflexivity |]. split.
  - intros combined_data H.
    unfold identify_top_underserved_markets_and_chart. now rewrite H.
  - intros combined_data Htruthy Htyped.
    destruct (well_typed_reads combined_data Htyped) as [i Hi].
    exists i. split; [exact Hi |].
    unfold identify_top_underserved_markets_and_chart.
    rewrite Htruthy, (identify_reads _ _ Hi). simpl. split.
    + intros Hus Hmm.
      assert (Hnil : rank_markets i = []).
      { apply rank_markets_nil. unfold names_met. now rewrite Hus, Hmm. }
      now rewrite Hnil.
    + intro Hmet.
      assert (Hrank : rank_markets i <> [])
        by (intro H; now apply rank_markets_nil in H).
      split; [exact Hrank |].
      destruct (charts_drawn _ Hrank) as [-> ->]. reflexivity.
Qed.

Lemma C9_witness :
  Py.truthy no_data_combined_data = true
  /\ well_typed no_data_combined_data = true
  /\ read_inputs no_data_combined_data = Ok (mkInputs [] [] [] [] [] [])
  /\ identify_top_underserved_markets_and_chart no_data_combined_data
     = Raise
  /\ well_typed sparse_combined_data = true
  /\ exists c,
      identify_top_underserved_markets_and_chart sparse_combined_data
      = Ok [c]
      /\ c = mkCandidate "Remote Work Technology" 0 0 0 0 0 0 0 (JList [])
                         (JStr "") ["economic_indicators"].
Proof.
  split; [reflexivity |]. split; [reflexivity |].
  split; [reflexivity |]. split.
  - destruct (proj2 (proj2 C9_raises_without_markets)
                    no_data_combined_data)
      as (i & Hi & Hraise & _); [reflexivity | reflexivity |].
    vm_compute in Hi. injection Hi as <-. now apply Hraise.
  - split; [vm_compute; reflexivity |].
    destruct (proj2 (proj2 C9_raises_without_markets)
                    sparse_combined_data)
      as (i & Hi & _ & Hrun); [reflexivity | vm_compute; reflexivity |].
    vm_compute in Hi. injection Hi as <-.
    destruct Hrun as [_ Hrun]; [simpl; discriminate |].
    eexists. split; [rewrite Hrun; vm_compute; reflexivity |].
    vm_compute. reflexivity.
Defined.

(** A truthy value that is not a dict has no [get]: the call raises. *)
Lemma truthy_non_dict_raises :
  identify_top_underserved_markets (JList [JNull]) = Raise.
Proof. reflexivity. Qed.

(** A present field of the wrong type makes the call raise. *)
Lemma ill_typed_gap_score_raises :
  identify_top_underserved_markets
    (JDict [("underserved_markets",
             JDict [("markets",
                     JList [JDict [("market", JStr "Remote Work Technology");
                                   ("gap_score", JStr "high")]])])])
  = Raise.
Proof. reflexivity. Qed.


(* ================================================================== *)
(** ** Further properties of the scoring engine *)

Section EngineFacts.

Lemma read_inputs_inv combined_data (i : Inputs) :
  read_inputs combined_data = Ok i ->
  exists u m,
    section_list combined_data "underserved_markets" "markets" = Ok u
    /\ read_list read_underserved u = Ok (underserved_markets i)
    /\ section_list combined_data "market_mentions" "market_mentions" = Ok m
    /\ read_list read_mention m = Ok (market_mentions i).
Proof.
  unfold read_inputs. intro H.
  apply bind_ok in H as (u & Hu & H). apply bind_ok in H as (m & Hm & H).
  apply bind_ok in H as (n & Hn & H). apply bind_ok in H as (g & Hg & H).
  apply bind_ok in H as (h & Hh & H). apply bind_ok in H as (e & He & H).
  apply bind_ok in H as (t & Ht & H).
  apply bind_ok in H as (us & Hus & H). apply bind_ok in H as (mms & Hmms & H).
  apply bind_ok in H as (gs & Hgs & H). apply bind_ok in H as (hs & Hhs & H).
  apply bind_ok in H as (es & Hes & H). apply bind_ok in H as (ts & Hts & H).
  injection H as <-. simpl. now exists u, m.
Qed.

Lemma read_all_In {A B} (read : A -> result (option B)) (items : list A) :
  forall xs x,
    Py.read_all read items = Ok xs -> In x xs ->
    exists item, In item items /\ read item = Ok (Some x).
Proof.
  induction items as [|item items IH]; intros xs x H Hin; simpl in H.
  - injection H as <-. destruct Hin.
  - apply bind_ok in H as (r & Hr & H).
    apply bind_ok in H as (tl & Htl & H). injection H as <-.
    destruct r as [b|].
    + destruct Hin as [<- | Hin].
      * exists item. split; [now left | exact Hr].
      * destruct (IH tl x Htl Hin) as (item' & Hin' & Hread).
        exists item'. split; [now right | exact Hread].
    + destruct (IH tl x Htl Hin) as (item' & Hin' & Hread).
      exists item'. split; [now right | exact Hread].
Qed.

Lemma market_key_named n s :
  Py.truthy n = true -> market_key n = Ok s -> s <> ""%string.
Proof.
  destruct n; try discriminate. simpl. intros Ht Hs. injection Hs as <-.
  intros ->. discriminate.
Qed.

Lemma read_underserved_named market u :
  read_underserved market = Ok (Some u) -> um_market u <> ""%string.
Proof.
  unfold read_underserved. intro H.
  apply bind_ok in H as (n & _ & H).
  destruct (Py.truthy n) eqn:Ht; simpl in H; [| discriminate].
  apply bind_ok in H as (s & Hs & H).
  apply bind_ok in H as (g & _ & H). apply bind_ok in H as (q & _ & H).
  apply bind_ok in H as (gp & _ & H). apply bind_ok in H as (b & _ & H).
  injection H as <-. simpl. now apply (market_key_named n).
Qed.

Lemma read_mention_named mention m :
  read_mention mention = Ok (Some m) -> mm_market m <> ""%string.
Proof.
  unfold read_mention. intro H.
  apply bind_ok in H as (n & _ & H).
  destruct (Py.truthy n) eqn:Ht; simpl in H; [| discriminate].
  apply bind_ok in H as (s & Hs & H).
  apply bind_ok in H as (g & _ & H). apply bind_ok in H as (q & _ & H).
  apply bind_ok in H as (gp & _ & H). apply bind_ok in H as (b & _ & H).
  injection H as <-. simpl. now apply (market_key_named n).
Qed.

Lemma names_met_nonempty combined_data (i : Inputs) :
  read_inputs combined_data = Ok i ->
  forall n, In n (names_met i) -> n <> ""%string.
Proof.
  intros Hread n Hin.
  apply read_inputs_inv in Hread as (u & m & _ & Hus & _ & Hmms).
  apply read_list_ok in Hus as (iu & _ & Hus).
  apply read_list_ok in Hmms as (im & _ & Hmms).
  unfold names_met in Hin. apply in_app_or in Hin as [Hin | Hin];
    apply in_map_iff in Hin as (x & <- & Hx).
  - destruct (read_all_In _ _ _ _ Hus Hx) as (item & _ & Hitem).
    now apply read_underserved_named in Hitem.
  - destruct (read_all_In _ _ _ _ Hmms Hx) as (item & _ & Hitem).
    now apply read_mention_named in Hitem.
Qed.

Lemma Qnat_le n m : (n <= m)%nat -> Qnat n <= Qnat m.
Proof. intro H. unfold Qnat. rewrite <- Zle_Qle. lia. Qed.

Lemma inserted_origin (i : Inputs) (c : MarketCandidate) :
  In c (inserted i) ->
  exists k c0,
    In (k, c0) (collect i)
    /\ name c = k
    /\ c = align (growth_sectors i) (hot_investment_areas i)
                 (emerging_tech i) (trending_sectors i) k c0.
Proof.
  unfold inserted, score_markets. rewrite map_map. intro Hin.
  apply in_map_iff in Hin as ([k c0] & <- & Hin).
  exists k, c0. split; [exact Hin |]. split; [| reflexivity].
  simpl. apply collect_entry in Hin. apply (acc_name _ _ _ _ Hin).
Qed.

Lemma count_underserved_snoc k us u :
  count_underserved k (us ++ [u])
  = (count_underserved k us
     + if (um_market u =? k)%string then 1 else 0)%nat.
Proof.
  unfold count_underserved. rewrite filter_app, length_app. simpl.
  now destruct (um_market u =? k)%string.
Qed.

Lemma mentioned_snoc k mms m :
  mentioned k (mms ++ [m])
  = mentioned k mms || (mm_market m =? k)%string.
Proof.
  unfold mentioned. rewrite existsb_app. simpl. now rewrite orb_false_r.
Qed.

Lemma web_scraping_not_indicator n :
  PyStr.mem "web_scraping" (repeat "economic_indicators"%string n) = false.
Proof. induction n as [|n IH]; simpl; [reflexivity | exact IH]. Qed.

Lemma provenance_new k : provenance [] [] k (new_candidate k).
Proof. constructor; reflexivity. Qed.

Lemma provenance_score_underserved us ms u :
  (forall k, provenance us [] k (candidate_at k ms)) ->
  forall k, provenance (us ++ [u]) [] k
                       (candidate_at k (score_underserved ms u)).
Proof.
  intros Hinv k. destruct (Hinv k) as [Hb Hs].
  unfold score_underserved. rewrite candidate_at_step.
  constructor; unfold last_barriers, expected_sources in *;
    rewrite ?count_underserved_snoc, ?last_underserved_snoc;
    destruct (um_market u =? k)%string; simpl in *;
    rewrite ?Nat.add_0_r; try assumption; try reflexivity.
  rewrite Hs, !app_nil_r, repeat_app. reflexivity.
Qed.

Lemma provenance_score_mention us mms ms m :
  (forall k, provenance us mms k (candidate_at k ms)) ->
  forall k, provenance us (mms ++ [m]) k
                       (candidate_at k (score_mention ms m)).
Proof.
  intros Hinv k. destruct (Hinv k) as [Hb Hs].
  unfold score_mention. rewrite candidate_at_step.
  constructor; unfold expected_sources in *; rewrite ?mentioned_snoc;
    destruct (mm_market m =? k)%string; simpl;
    rewrite ?orb_false_r, ?orb_true_r; try assumption.
  rewrite Hs. unfold PyStr.mem. rewrite existsb_app.
  fold (PyStr.mem "web_scraping"
                  (repeat "economic_indicators"%string
                          (count_underserved k us))).
  rewrite web_scraping_not_indicator.
  destruct (mentioned k mms); simpl; [reflexivity |].
  now rewrite app_nil_r.
Qed.

Lemma collect_provenance (i : Inputs) k :
  provenance (underserved_markets i) (market_mentions i) k
             (candidate_at k (collect i)).
Proof.
  unfold collect.
  assert (Hus : forall us' us ms,
             (forall k, provenance us [] k (candidate_at k ms)) ->
             forall k, provenance (us ++ us') [] k
                         (candidate_at k
                            (fold_left score_underserved us' ms))).
  { induction us' as [|u us' IH]; intros us ms Hinv k'; simpl.
    - rewrite app_nil_r. apply Hinv.
    - replace (us ++ u :: us') with ((us ++ [u]) ++ us')
        by (rewrite <- app_assoc; reflexivity).
      apply IH. now apply provenance_score_underserved. }
  assert (Hmm : forall us mms' mms ms,
             (forall k, provenance us mms k (candidate_at k ms)) ->
             forall k, provenance us (mms ++ mms') k
                         (candidate_at k (fold_left score_mention mms' ms))).
  { intros us. induction mms' as [|m mms' IH]; intros mms ms Hinv k'; simpl.
    - rewrite app_nil_r. apply Hinv.
    - replace (mms ++ m :: mms') with ((mms ++ [m]) ++ mms')
        by (rewrite <- app_assoc; reflexivity).
      apply IH. now apply provenance_score_mention. }
  apply (Hmm (underserved_markets i) (market_mentions i) []).
  apply (Hus (underserved_markets i) [] []).
  intro k'. apply provenance_new.
Qed.

Lemma inserted_provenance (i : Inputs) (c : MarketCandidate) :
  In c (inserted i) ->
  provenance (underserved_markets i) (market_mentions i) (name c) c.
Proof.
  intro Hin. apply inserted_origin in Hin as (k & c0 & Hin & Hk & Hc).
  apply lookup_In in Hin; [| apply collect_NoDup].
  pose proof (collect_provenance i k) as [Hb Hs].
  unfold candidate_at in Hb, Hs. rewrite Hin in Hb, Hs.
  rewrite Hk. rewrite Hc. constructor; simpl; assumption.
Qed.

Lemma last_underserved_absent k us :
  ~ In k (map um_market us) -> last_underserved k us = None.
Proof.
  unfold last_underserved. intro H.
  destruct (find _ (rev us)) as [u|] eqn:Hfind; [| reflexivity].
  apply find_some in Hfind as [Hin Heq]. apply String.eqb_eq in Heq.
  exfalso. apply H. rewrite <- Heq. apply in_map. now apply in_rev.
Qed.

Lemma last_mention_absent k mms :
  ~ In k (map mm_market mms) -> last_mention k mms = None.
Proof.
  unfold last_mention. intro H.
  destruct (find _ (rev mms)) as [m|] eqn:Hfind; [| reflexivity].
  apply find_some in Hfind as [Hin Heq]. apply String.eqb_eq in Heq.
  exfalso. apply H. rewrite <- Heq. apply in_map. now apply in_rev.
Qed.

Lemma count_underserved_absent k us :
  ~ In k (map um_market us) -> count_underserved k us = 0%nat.
Proof.
  unfold count_underserved. induction us as [|u us IH]; simpl;
    [reflexivity |].
  intro H. destruct (String.eqb_spec (um_market u) k); [tauto |].
  apply IH. tauto.
Qed.

Lemma mentioned_spec k mms :
  mentioned k mms = true <-> In k (map mm_market mms).
Proof.
  unfold mentioned. rewrite existsb_exists, in_map_iff.
  split; intros (m & H1 & H2).
  - exists m. apply String.eqb_eq in H2. now split.
  - exists m. split; [exact H2 | now apply String.eqb_eq].
Qed.

Lemma alignment_fields (i : Inputs) (c : MarketCandidate) :
  In c (inserted i) ->
  let words := PyStr.split (PyStr.lower (name c)) in
  growth_alignment c
  = Qnat (Nat.min 3 (count_aligned words (growth_sectors i)))
  /\ tech_alignment c
     = Qnat (Nat.min 3 (count_aligned words (emerging_tech i)))
  /\ sector_alignment c
     = Qnat (Nat.min 3 (count_aligned words (trending_sectors i))).
Proof.
  intro Hin. apply inserted_origin in Hin as (k & c0 & _ & Hk & Hc).
  rewrite Hk. rewrite Hc. simpl. now repeat split.
Qed.

Lemma Qnat_min3 n : 0 <= Qnat (Nat.min 3 n) <= 3.
Proof.
  split; [apply Qnat_nonneg |].
  change 3 with (Qnat 3). apply Qnat_le. lia.
Qed.

End EngineFacts.


Lemma count_aligned_filter words xs :
  count_aligned words xs = List.length (filter (aligned words) xs).
Proof.
  induction xs as [|x xs IH]; [reflexivity |].
  rewrite count_aligned_cons, IH. simpl.
  destruct (aligned words x); reflexivity.
Qed.

(** X1. Each alignment field of a returned candidate is the number of
    entries of its list (growth sectors, emerging technologies, trending
    sectors) that share a word with the market name, capped at 3; so each
    lies between 0 and 3. *)
Theorem X1_alignment_fields_capped :
  forall (combined_data : json) (i : Inputs),
    read_inputs combined_data = Ok i ->
    exists out,
      identify_top_underserved_markets combined_data = Ok out
      /\ forall c,
          In c out ->
          let shared xs :=
            List.length
              (filter (aligned (PyStr.split (PyStr.lower (name c)))) xs) in
          growth_alignment c = Qnat (Nat.min 3 (shared (growth_sectors i)))
          /\ tech_alignment c = Qnat (Nat.min 3 (shared (emerging_tech i)))
          /\ sector_alignment c
             = Qnat (Nat.min 3 (shared (trending_sectors i)))
          /\ 0 <= growth_alignment c <= 3
          /\ 0 <= tech_alignment c <= 3
          /\ 0 <= sector_alignment c <= 3.
Proof.
  intros combined_data i Hread. exists (rank_markets i).
  split; [now apply identify_reads |].
  intros c Hin. apply rank_In in Hin. cbv zeta.
  destruct (alignment_fields i c Hin) as (Hg & Ht & Hs).
  rewrite <- !count_aligned_filter, Hg, Ht, Hs.
  repeat split; apply Qnat_min3.
Qed.

Lemma X1_witness :
  read_inputs sample_combined_data = Ok sample_inputs
  /\ exists out,
      identify_top_underserved_markets sample_combined_data = Ok out
      /\ forall c,
          In c out ->
          0 <= growth_alignment c <= 3
          /\ 0 <= tech_alignment c <= 3
          /\ 0 <= sector_alignment c <= 3.
Proof.
  split; [vm_compute; reflexivity |].
  destruct (X1_alignment_fields_capped sample_combined_data sample_inputs)
    as (out & Hout & Hall); [vm_compute; reflexivity |].
  exists out. split; [exact Hout |].
  intros c Hin. destruct (Hall c Hin) as (_ & _ & _ & H).
  exact H.
Defined.

(** X2. The returned candidates have pairwise distinct, non-empty names,
    and a name is returned exactly when it is the market name of some
    underserved-market record or mention record that was read. *)
Theorem X2_one_candidate_per_name :
  forall (combined_data : json) (i : Inputs),
    read_inputs combined_data = Ok i ->
    exists out,
      identify_top_underserved_markets combined_data = Ok out
      /\ NoDup (map name out)
      /\ (forall n,
            In n (map name out)
            <-> In n (map um_market (underserved_markets i))
                \/ In n (map mm_market (market_mentions i)))
      /\ forall c, In c out -> name c <> ""%string.
Proof.
  intros combined_data i Hread. exists (rank_markets i).
  split; [now apply identify_reads |].
  assert (Hperm : Permutation (map name (inserted i))
                              (map name (rank_markets i)))
    by (apply Permutation_map, sort_desc_perm).
  assert (Hnames : forall n, In n (map name (rank_markets i))
                             <-> In n (names_met i)).
  { intro n. rewrite <- (first_seen_In (names_met i)), <- inserted_names.
    split.
    - apply Permutation_in. now symmetry.
    - now apply Permutation_in. }
  split; [| split].
  - apply (Permutation_NoDup Hperm). rewrite inserted_names.
    apply first_seen_NoDup.
  - intro n. rewrite Hnames. unfold names_met. apply in_app_iff.
  - intros c Hin. apply (names_met_nonempty combined_data i Hread).
    apply Hnames. now apply in_map.
Qed.

Lemma X2_witness :
  read_inputs duplicate_combined_data = Ok duplicate_inputs
  /\ exists out,
      identify_top_underserved_markets duplicate_combined_data = Ok out
      /\ map name out = ["Telemedicine Services"%string]
      /\ NoDup (map name out).
Proof.
  split; [vm_compute; reflexivity |].
  destruct (X2_one_candidate_per_name duplicate_combined_data
                                      duplicate_inputs)
    as (out & Hout & Hnd & _); [vm_compute; reflexivity |].
  exists out. split; [exact Hout |]. split; [| exact Hnd].
  vm_compute in Hout. injection Hout as <-. reflexivity.
Defined.

(** X3. A returned market that occurs in no underserved-market record has
    gap score 0, an empty growth potential, no barriers and the single
    source "web_scraping"; one that occurs in no mention record has
    mention and sentiment score 0 and lacks the source "web_scraping". *)
Theorem X3_market_from_one_source :
  forall (combined_data : json) (i : Inputs),
    read_inputs combined_data = Ok i ->
    exists out,
      identify_top_underserved_markets combined_data = Ok out
      /\ forall c,
          In c out ->
          (~ In (name c) (map um_market (underserved_markets i)) ->
           gap_score c = 0
           /\ growth_potential c = JStr ""
           /\ barriers c = JList []
           /\ sources c = ["web_scraping"%string])
          /\ (~ In (name c) (map mm_market (market_mentions i)) ->
              mention_score c = 0
              /\ sentiment_score c = 0
              /\ ~ In "web_scraping"%string (sources c)).
Proof.
  intros combined_data i Hread. exists (rank_markets i).
  split; [now apply identify_reads |].
  intros c Hin. apply rank_In in Hin.
  destruct (inserted_total i c Hin) as (_ & Hg & Hgp & Hm & Hs).
  destruct (inserted_provenance i c Hin) as [Hb Hsrc].
  unfold expected_sources in Hsrc. split.
  - intro Habsent.
    unfold last_gap_score in Hg. unfold last_growth_potential in Hgp.
    unfold last_barriers in Hb.
    rewrite (last_underserved_absent _ _ Habsent) in Hg, Hgp, Hb.
    rewrite (count_underserved_absent _ _ Habsent) in Hsrc.
    assert (Hmet : In (name c) (names_met i)).
    { apply first_seen_In. rewrite <- inserted_names. now apply in_map. }
    unfold names_met in Hmet. apply in_app_or in Hmet as [Hmet | Hmet];
      [contradiction |].
    apply mentioned_spec in Hmet. rewrite Hmet in Hsrc.
    now repeat split.
  - intro Habsent.
    unfold last_mention_score in Hm. unfold last_sentiment_score in Hs.
    rewrite (last_mention_absent _ _ Habsent) in Hm, Hs.
    repeat split; try assumption.
    destruct (mentioned (name c) (market_mentions i)) eqn:Hmentioned.
    + apply mentioned_spec in Hmentioned. contradiction.
    + rewrite Hsrc, app_nil_r. intro Hin'.
      apply repeat_spec in Hin'. discriminate.
Qed.

Lemma X3_witness :
  read_inputs sample_combined_data = Ok sample_inputs
  /\ exists out,
      identify_top_underserved_markets sample_combined_data = Ok out
      /\ forall c,
          In c out ->
          name c = "Telemedicine Services"%string ->
          gap_score c = 0 /\ sources c = ["web_scraping"%string].
Proof.
  split; [vm_compute; reflexivity |].
  destruct (X3_market_from_one_source sample_combined_data sample_inputs)
    as (out & Hout & Hall); [vm_compute; reflexivity |].
  exists out. split; [exact Hout |].
  intros c Hin Hname. destruct (Hall c Hin) as [Hus _].
  destruct Hus as (Hg & _ & _ & Hs).
  - rewrite Hname. simpl. intuition discriminate.
  - now split.
Defined.

(** X4. The sources of a returned candidate hold "economic_indicators"
    once for every underserved-market record of its name, followed by
    "web_scraping" once if some mention record has its name (however many
    do); its barriers are those of the last underserved-market record of
    its name. *)
Theorem X4_sources_and_barriers :
  forall (combined_data : json) (i : Inputs),
    read_inputs combined_data = Ok i ->
    exists out,
      identify_top_underserved_markets combined_data = Ok out
      /\ forall c,
          In c out ->
          sources c
          = repeat "economic_indicators"%string
                   (count_underserved (name c) (underserved_markets i))
            ++ (if mentioned (name c) (market_mentions i)
                then ["web_scraping"%string] else [])
          /\ barriers c = last_barriers (name c) (underserved_markets i).
Proof.
  intros combined_data i Hread. exists (rank_markets i).
  split; [now apply identify_reads |].
  intros c Hin. apply rank_In in Hin.
  destruct (inserted_provenance i c Hin) as [Hb Hsrc].
  now split.
Qed.

Lemma X4_witness :
  read_inputs duplicate_combined_data = Ok duplicate_inputs
  /\ exists out,
      identify_top_underserved_markets duplicate_combined_data = Ok out
      /\ forall c,
          In c out ->
          name c = "Telemedicine Services"%string ->
          sources c
          = ["economic_indicators"; "economic_indicators"]%string.
Proof.
  split; [vm_compute; reflexivity |].
  destruct (X4_sources_and_barriers duplicate_combined_data
                                    duplicate_inputs)
    as (out & Hout & Hall); [vm_compute; reflexivity |].
  exists out. split; [exact Hout |].
  intros c Hin Hname. destruct (Hall c Hin) as [Hs _].
  rewrite Hs, Hname. reflexivity.
Defined.



(* ================================================================== *)
(** ** When the scoring engine raises, and when it does not *)

Section RaiseFacts.

Lemma section_list_raise fields section key v :
  Py.assoc section fields = Some v ->
  is_dict v = false ->
  section_list (JDict fields) section key = Raise.
Proof.
  unfold section_list. simpl. intros -> Hv. destruct v; try reflexivity.
  discriminate.
Qed.

Lemma for_each_raise {S A} (body : S -> A -> result S) (x : A)
      (items : list A) :
  In x items ->
  (forall s, body s x = Raise) ->
  forall s, Py.for_each body items s = Raise.
Proof.
  intros Hin Hx. induction items as [|a items IH]; [destruct Hin |].
  intro s. simpl. destruct Hin as [-> | Hin].
  - now rewrite Hx.
  - destruct (body s a); simpl; [now apply IH | reflexivity].
Qed.

Lemma for_each_skip {S A} (body : S -> A -> result S) (x : A)
      (before after : list A) :
  (forall s, body s x = Ok s) ->
  forall s,
    Py.for_each body (before ++ x :: after) s
    = Py.for_each body (before ++ after) s.
Proof.
  intro Hx. induction before as [|a before IH]; intro s; simpl.
  - now rewrite Hx.
  - destruct (body s a); simpl; [apply IH | reflexivity].
Qed.

Lemma unreadable_underserved record :
  unreadable "gap_score" record -> read_underserved record = Raise.
Proof.
  destruct record as [| | | | |fields]; try reflexivity.
  intros (n & v & Hn & Hne & Hv & Hnum).
  unfold read_underserved. simpl. rewrite Hn. simpl.
  apply String.eqb_neq in Hne. rewrite Hne. simpl. rewrite Hv.
  destruct v; try reflexivity; discriminate.
Qed.

Lemma unreadable_mention record :
  unreadable "mention_count" record \/ unreadable "sentiment_score" record ->
  read_mention record = Raise.
Proof.
  destruct record as [| | | | |fields];
    try (intros _; reflexivity).
  intros [(n & v & Hn & Hne & Hv & Hnum) | (n & v & Hn & Hne & Hv & Hnum)];
    unfold read_mention; simpl; rewrite Hn; simpl;
    apply String.eqb_neq in Hne; rewrite Hne; simpl.
  - rewrite Hv. destruct v; try reflexivity; discriminate.
  - destruct (Py.num _); simpl; [| reflexivity].
    rewrite Hv. destruct v; try reflexivity; discriminate.
Qed.

End RaiseFacts.

Ltac next_section :=
  match goal with
  | |- bind ?r _ = Raise => destruct r; simpl; [| reflexivity]
  end.

(** X6. A truthy combined_data that is not a dict makes the call raise,
    and so does a dict in which one of the six sections the call reads
    (among them news_sentiment, which it never uses) is present but is
    not a dict. *)
Theorem X6_non_dict_raises :
  (forall v,
      Py.truthy v = true -> is_dict v = false ->
      identify_top_underserved_markets v = Raise)
  /\ (forall fields section v,
         In section sections_read ->
         Py.assoc section fields = Some v ->
         is_dict v = false ->
         identify_top_underserved_markets (JDict fields) = Raise).
Proof.
  split.
  - intros v Ht Hd. unfold identify_top_underserved_markets. rewrite Ht.
    destruct v; try reflexivity. discriminate.
  - intros fields section v Hin Hv Hd.
    unfold identify_top_underserved_markets.
    assert (Ht : Py.truthy (JDict fields) = true)
      by (destruct fields; [discriminate | reflexivity]).
    rewrite Ht. cbn [negb].
    unfold sections_read in Hin. simpl in Hin.
    destruct Hin as [<- | [<- | [<- | [<- | [<- | [<- | []]]]]]].
    + now rewrite (section_list_raise _ _ "markets" _ Hv Hd).
    + rewrite (section_list_raise _ _ "market_mentions" _ Hv Hd).
      now next_section.
    + rewrite (section_list_raise _ _ "sentiment_by_query" _ Hv Hd).
      now do 2 next_section.
    + rewrite (section_list_raise _ _ "growth_sectors" _ Hv Hd).
      now do 3 next_section.
    + rewrite (section_list_raise _ _ "technologies" _ Hv Hd).
      now do 5 next_section.
    + rewrite (section_list_raise _ _ "top_sectors" _ Hv Hd).
      now do 6 next_section.
Qed.

Lemma X6_witness :
  Py.truthy (JStr "combined") = true
  /\ identify_top_underserved_markets (JStr "combined") = Raise
  /\ In "news_sentiment"%string sections_read
  /\ identify_top_underserved_markets
       (JDict [("news_sentiment"%string, JList [])])
     = Raise.
Proof.
  split; [reflexivity |].
  split; [now apply (proj1 X6_non_dict_raises) |].
  split; [simpl; tauto |].
  apply (proj2 X6_non_dict_raises _ "news_sentiment"%string (JList [])).
  - simpl. tauto.
  - reflexivity.
  - reflexivity.
Defined.

(** X7. One unreadable record makes the whole call raise, wherever it
    stands in its list: an underserved-market record that is not a dict
    or has a name and a gap score that is not a number, or a mention
    record that is not a dict or has a name and a mention count or
    sentiment that is not a number.  No partial list is returned. *)
Theorem X7_unreadable_record_raises :
  forall (combined_data v : json) (items : list json) (record : json),
    Py.truthy combined_data = true ->
    Py.iter v = Ok items ->
    In record items ->
    (section_list combined_data "underserved_markets" "markets" = Ok v
     /\ unreadable "gap_score" record)
    \/ (section_list combined_data "market_mentions" "market_mentions"
        = Ok v
        /\ (unreadable "mention_count" record
            \/ unreadable "sentiment_score" record)) ->
    identify_top_underserved_markets combined_data = Raise.
Proof.
  intros combined_data v items record Ht Hiter Hin Hcase.
  unfold identify_top_underserved_markets. rewrite Ht. cbn [negb].
  destruct Hcase as [[Hsec Hbad] | [Hsec Hbad]].
  - rewrite Hsec. simpl. do 6 next_section. rewrite Hiter. simpl.
    rewrite (for_each_raise _ record); [reflexivity | exact Hin |].
    intro s. now rewrite (unreadable_underserved record Hbad).
  - next_section. rewrite Hsec. simpl. do 5 next_section.
    do 2 next_section. rewrite Hiter. simpl.
    rewrite (for_each_raise _ record); [reflexivity | exact Hin |].
    intro s. now rewrite (unreadable_mention record Hbad).
Qed.

Lemma X7_witness :
  unreadable "gap_score"
             (JDict [("market"%string, JStr "Remote Work Technology");
                     ("gap_score"%string, JStr "high")])
  /\ identify_top_underserved_markets
       (with_markets
          [JDict [("market"%string, JStr "Telemedicine Services")];
           JDict [("market"%string, JStr "Remote Work Technology");
                  ("gap_score"%string, JStr "high")]]
          [])
     = Raise.
Proof.
  assert (Hbad : unreadable "gap_score"
                   (JDict [("market"%string, JStr "Remote Work Technology");
                           ("gap_score"%string, JStr "high")])).
  { exists "Remote Work Technology"%string, (JStr "high").
    repeat split; try reflexivity. discriminate. }
  split; [exact Hbad |].
  apply X7_unreadable_record_raises
    with (v := JList
                 [JDict [("market"%string, JStr "Telemedicine Services")];
                  JDict [("market"%string, JStr "Remote Work Technology");
                         ("gap_score"%string, JStr "high")]])
         (items := [JDict [("market"%string, JStr "Telemedicine Services")];
                    JDict [("market"%string, JStr "Remote Work Technology");
                           ("gap_score"%string, JStr "high")]])
         (record := JDict [("market"%string, JStr "Remote Work Technology");
                           ("gap_score"%string, JStr "high")]).
  - reflexivity.
  - reflexivity.
  - right. now left.
  - left. split; [reflexivity | exact Hbad].
Defined.

(** X9. An underserved-market record whose market name is missing or
    falsy is skipped before any other field of it is read: with it or
    without it in the list the call gives the same result, whatever its
    other fields hold. *)
Theorem X9_unnamed_record_skipped :
  forall (before after : list json) (record : list (string * json))
         (other_sections : list (string * json)),
    match Py.assoc "market" record with
    | Some market_name => Py.truthy market_name
    | None => false
    end = false ->
    identify_top_underserved_markets
      (with_markets (before ++ JDict record :: after) other_sections)
    = identify_top_underserved_markets
        (with_markets (before ++ after) other_sections).
Proof.
  intros before after record other_sections Hname.
  assert (Hskip : read_underserved (JDict record) = Ok None).
  { unfold read_underserved. simpl.
    destruct (Py.assoc "market" record) as [n|]; simpl; [| reflexivity].
    now rewrite Hname. }
  unfold identify_top_underserved_markets, with_markets.
  cbn [Py.truthy negb]. unfold section_list at 1 8. simpl.
  erewrite for_each_skip; [reflexivity |].
  intro s. now rewrite Hskip.
Qed.

Lemma X9_witness :
  Py.assoc "market" unnamed_record = None
  /\ identify_top_underserved_markets
       (with_markets
          [JDict unnamed_record;
           JDict [("market"%string, JStr "Telemedicine Services")]]
          [])
     = identify_top_underserved_markets
         (with_markets
            [JDict [("market"%string, JStr "Telemedicine Services")]]
            []).
Proof.
  split; [reflexivity |].
  apply (X9_unnamed_record_skipped
           [] [JDict [("market"%string, JStr "Telemedicine Services")]]
           unnamed_record []).
  reflexivity.
Defined.


(* ================================================================== *)
(** ** Further properties of the profile enricher *)

Section EnricherMore.

Lemma create_profiles_eq market_list data :
  create_market_opportunity_profiles market_list (Some data)
  = map (build_profile data)
        (filter (fun market => negb (name market =? "")%string)
                (firstn 10 market_list)).
Proof.
  unfold create_market_opportunity_profiles.
  destruct market_list as [|m0 rest]; [reflexivity |].
  generalize (firstn 10 (m0 :: rest)) as top. intro top.
  assert (Hfold : forall acc,
             fold_left
               (fun market_profiles market =>
                  if (name market =? "")%string then market_profiles
                  else market_profiles ++ [build_profile data market])
               top acc
             = acc ++ map (build_profile data)
                          (filter (fun market =>
                                     negb (name market =? "")%string)
                                  top)).
  { induction top as [|m top IH]; intros acc; simpl.
    - now rewrite app_nil_r.
    - rewrite IH. destruct (name m =? "")%string; simpl; [reflexivity |].
      now rewrite <- app_assoc. }
  apply (Hfold []).
Qed.

Lemma filter_all {A} (f : A -> bool) (l : list A) :
  (forall x, In x l -> f x = true) -> filter f l = l.
Proof.
  induction l as [|x l IH]; intro H; simpl; [reflexivity |].
  rewrite (H x (or_introl eq_refl)), IH; [reflexivity |].
  intros y Hy. apply H. now right.
Qed.

Lemma In_firstn {A} (n : nat) (l : list A) (x : A) :
  In x (firstn n l) -> In x l.
Proof.
  revert l. induction n as [|n IH]; intros l; simpl; [tauto |].
  destruct l as [|y l]; simpl; [tauto |].
  intros [H | H]; [now left | right; now apply IH].
Qed.

Lemma StronglySorted_firstn {A} (R : A -> A -> Prop) (n : nat)
      (l : list A) :
  StronglySorted R l -> StronglySorted R (firstn n l).
Proof.
  revert l. induction n as [|n IH]; intros l H; simpl; [constructor |].
  destruct H as [|x l Hl Hx]; [constructor |].
  constructor; [now apply IH |].
  apply Forall_forall. intros y Hy. apply In_firstn in Hy.
  now apply (proj1 (Forall_forall _ _) Hx).
Qed.

Lemma StronglySorted_map {A B} (R : B -> B -> Prop) (f : A -> B)
      (l : list A) :
  StronglySorted (fun a b => R (f a) (f b)) l ->
  StronglySorted R (map f l).
Proof.
  induction 1 as [|x l Hl IH Hx]; simpl; constructor; [exact IH |].
  apply Forall_forall. intros y Hy. apply in_map_iff in Hy as (a & <- & Ha).
  now apply (proj1 (Forall_forall _ _) Hx).
Qed.

Lemma NoDup_firstn {A} (n : nat) (l : list A) :
  NoDup l -> NoDup (firstn n l).
Proof.
  revert l. induction n as [|n IH]; intros l H; simpl; [constructor |].
  destruct H as [|x l Hx Hl]; constructor; [| now apply IH].
  intro Hin. apply Hx. now apply In_firstn in Hin.
Qed.

Lemma rank_names (combined_data : json) (i : Inputs) :
  read_inputs combined_data = Ok i ->
  NoDup (map name (rank_markets i))
  /\ forall c, In c (rank_markets i) -> name c <> ""%string.
Proof.
  intro Hread.
  assert (Hperm : Permutation (map name (inserted i))
                              (map name (rank_markets i)))
    by (apply Permutation_map, sort_desc_perm).
  split.
  - apply (Permutation_NoDup Hperm). rewrite inserted_names.
    apply first_seen_NoDup.
  - intros c Hin. apply (names_met_nonempty combined_data i Hread).
    apply first_seen_In. rewrite <- inserted_names.
    apply (Permutation_in _ (Permutation_sym Hperm)). now apply in_map.
Qed.

Lemma related_trend_inj t1 t2 :
  related_trend t1 = related_trend t2 -> t1 = t2.
Proof.
  destruct t1, t2. unfold related_trend. simpl.
  intro H. injection H as -> -> -> -> ->. reflexivity.
Qed.

Lemma distinct_spec l : distinct l = true <-> NoDup l.
Proof.
  induction l as [|x l IH]; simpl.
  - split; [constructor | reflexivity].
  - rewrite andb_true_iff, negb_true_iff, IH. split.
    + intros [Hx Hl]. constructor; [| exact Hl].
      intro Hin. apply PyStrFacts.mem_spec in Hin. congruence.
    + intro H. inversion H as [|? ? Hx Hl]; subst. split; [| exact Hl].
      destruct (PyStr.mem x l) eqn:Hmem; [| reflexivity].
      apply PyStrFacts.mem_spec in Hmem. contradiction.
Qed.

Lemma demographics_distinct market_name :
  let has kw := PyStr.str_in kw (PyStr.lower market_name) in
  distinct (demographics_for market_name)
  = negb ((has "elderly" || has "senior" || has "aging")
          && (has "health" || has "wellness" || has "care"))
  /\ count_occ string_dec (demographics_for market_name)
               "Healthcare providers"
     = ((if has "elderly" || has "senior" || has "aging" then 1 else 0)
        + (if has "health" || has "wellness" || has "care" then 1 else 0))%nat
  /\ (List.length (demographics_for market_name) <= 18)%nat.
Proof.
  unfold demographics_for. cbv zeta.
  destruct (PyStr.str_in "elderly" _ || PyStr.str_in "senior" _
            || PyStr.str_in "aging" _);
    destruct (PyStr.str_in "rural" _);
    destruct (PyStr.str_in "health" _ || PyStr.str_in "wellness" _
              || PyStr.str_in "care" _);
    destruct (PyStr.str_in "education" _ || PyStr.str_in "learning" _
              || PyStr.str_in "training" _);
    destruct (PyStr.str_in "housing" _ || PyStr.str_in "home" _);
    destruct (PyStr.str_in "childcare" _);
    (split; [vm_compute; reflexivity |]);
    (split; [vm_compute; reflexivity | simpl; lia]).
Qed.

Lemma business_models_distinct market_name :
  distinct (business_models_for market_name) = true.
Proof.
  unfold business_models_for. cbv zeta.
  destruct (PyStr.str_in "technology" _ || PyStr.str_in "tech" _);
    destruct (PyStr.str_in "healthcare" _ || PyStr.str_in "health" _);
    destruct (PyStr.str_in "education" _ || PyStr.str_in "learning" _);
    destruct (PyStr.str_in "sustainable" _ || PyStr.str_in "packaging" _);
    destruct (PyStr.str_in "rural" _);
    vm_compute; reflexivity.
Qed.

Lemma or3_spec (a b c : bool) (A B C : Prop) :
  (a = true <-> A) -> (b = true <-> B) -> (c = true <-> C) ->
  (a || b || c = true <-> A \/ B \/ C).
Proof.
  intros Ha Hb Hc. rewrite !orb_true_iff, Ha, Hb, Hc. tauto.
Qed.

End EnricherMore.


(** X10. Run on the list returned by the scoring engine, the enricher
    builds one profile for each of the first ten candidates, in ranking
    order, with the candidate's name and its total_score as
    opportunity_score; the profiles are therefore sorted by descending
    opportunity_score and bear distinct names. *)
Theorem X10_profiles_of_the_ranking :
  forall (combined_data : json) (i : Inputs) (data : EnrichmentData),
    read_inputs combined_data = Ok i ->
    exists out,
      identify_top_underserved_markets combined_data = Ok out
      /\ let profiles :=
           create_market_opportunity_profiles out (Some data) in
         map market_name profiles = firstn 10 (map name out)
         /\ map opportunity_score profiles
            = firstn 10 (map total_score out)
         /\ List.length profiles = Nat.min 10 (List.length out)
         /\ StronglySorted
              (fun p q => opportunity_score q <= opportunity_score p)
              profiles
         /\ NoDup (map market_name profiles).
Proof.
  intros combined_data i data Hread. exists (rank_markets i).
  split; [now apply identify_reads |]. cbv zeta.
  destruct (rank_names combined_data i Hread) as [Hnd Hne].
  rewrite create_profiles_eq, filter_all.
  2:{ intros c Hin. apply In_firstn in Hin. apply negb_true_iff.
      apply String.eqb_neq. now apply Hne. }
  rewrite !map_map. cbn [build_profile market_name opportunity_score].
  rewrite <- !firstn_map.
  split; [reflexivity |]. split; [reflexivity |].
  split; [now rewrite length_firstn, length_map |].
  split.
  - apply StronglySorted_firstn, StronglySorted_map.
    cbn [build_profile market_name opportunity_score].
    apply rank_sorted.
  - apply NoDup_firstn. exact Hnd.
Qed.

Lemma X10_witness :
  read_inputs sample_combined_data = Ok sample_inputs
  /\ exists out,
      identify_top_underserved_markets sample_combined_data = Ok out
      /\ map market_name
             (create_market_opportunity_profiles
                out (Some enrichment_sample))
         = ["Remote Work Technology"; "Telemedicine Services";
            "Elderly-focused Technology"; "Middle-Income Housing"]%string.
Proof.
  split; [vm_compute; reflexivity |].
  destruct (X10_profiles_of_the_ranking sample_combined_data sample_inputs
                                        enrichment_sample)
    as (out & Hout & Hnames & _); [vm_compute; reflexivity |].
  exists out. split; [exact Hout |].
  rewrite Hnames. vm_compute in Hout. injection Hout as <-. reflexivity.
Defined.

(** X11. The related trends of a profile are the entries of
    website_trends, in their order, of which the lowercased title or the
    lowercased description contains some word of the lowercased,
    whitespace-split market name. *)
Theorem X11_related_trends :
  forall (market_list : list MarketCandidate) (data : EnrichmentData)
         (p : Profile),
    In p (create_market_opportunity_profiles market_list (Some data)) ->
    let keywords := PyStr.split (PyStr.lower (market_name p)) in
    related_trends p
    = map related_trend
          (filter (keyword_in_trend keywords) (enrich_website_trends data))
    /\ forall trend,
        In trend (enrich_website_trends data) ->
        (In (related_trend trend) (related_trends p)
         <-> exists keyword,
             In keyword keywords
             /\ (PyStr.substring_of keyword (PyStr.lower (title trend))
                 \/ PyStr.substring_of keyword
                                       (PyStr.lower (description trend)))).
Proof.
  intros market_list data p Hin. cbv zeta.
  apply create_profiles_In in Hin as (market & _ & _ & ->). simpl.
  assert (Heq : find_related_trends
                  (PyStr.split (PyStr.lower (name market)))
                  (enrich_website_trends data)
                = map related_trend
                      (filter (keyword_in_trend
                                 (PyStr.split (PyStr.lower (name market))))
                              (enrich_website_trends data))).
  { unfold find_related_trends. now rewrite fold_filter_append. }
  split; [exact Heq |].
  intros trend Htrend. rewrite Heq, in_map_iff.
  assert (Hspec : keyword_in_trend
                    (PyStr.split (PyStr.lower (name market))) trend = true
                  <-> exists keyword,
                      In keyword (PyStr.split (PyStr.lower (name market)))
                      /\ (PyStr.substring_of keyword
                                             (PyStr.lower (title trend))
                          \/ PyStr.substring_of
                               keyword (PyStr.lower (description trend)))).
  { unfold keyword_in_trend. rewrite existsb_exists.
    split; intros (kw & Hkw & H); exists kw; (split; [exact Hkw |]).
    - apply orb_true_iff in H.
      now rewrite <- !PyStrFacts.str_in_spec.
    - apply orb_true_iff. now rewrite !PyStrFacts.str_in_spec. }
  rewrite <- Hspec. split.
  - intros (t & Heqt & Ht). apply related_trend_inj in Heqt as ->.
    now apply filter_In in Ht.
  - intro H. exists trend. split; [reflexivity |]. now apply filter_In.
Qed.

Lemma X11_witness :
  let trend := mkTrend "Telehealth reaches RURAL clinics" "Broadband news"
                       (JStr "TechCrunch") (JList []) (JStr "positive") in
  let data := mkEnrichment [] [trend] in
  In (build_profile data rural_candidate)
     (create_market_opportunity_profiles [rural_candidate] (Some data))
  /\ related_trends (build_profile data rural_candidate)
     = [related_trend trend].
Proof.
  cbv zeta.
  assert (Hin : In (build_profile
                      (mkEnrichment
                         [] [mkTrend "Telehealth reaches RURAL clinics"
                                     "Broadband news" (JStr "TechCrunch")
                                     (JList []) (JStr "positive")])
                      rural_candidate)
                   (create_market_opportunity_profiles
                      [rural_candidate]
                      (Some (mkEnrichment
                               [] [mkTrend "Telehealth reaches RURAL clinics"
                                           "Broadband news"
                                           (JStr "TechCrunch") (JList [])
                                           (JStr "positive")]))))
    by (simpl; now left).
  split; [exact Hin |].
  rewrite (proj1 (X11_related_trends _ _ _ Hin)). vm_compute. reflexivity.
Defined.

(** X12. The business-model suggestions of a market never repeat an
    entry.  Its demographic tags repeat an entry exactly when the
    lowercased name contains one of "elderly", "senior", "aging" and also
    one of "health", "wellness", "care": then "Healthcare providers" is
    listed twice.  There are at most 18 tags. *)
Theorem X12_duplicate_demographic_tag :
  forall market_name : string,
    NoDup (business_models_for market_name)
    /\ (NoDup (demographics_for market_name)
        <-> ~ (names_seniors market_name /\ names_health market_name))
    /\ (names_seniors market_name -> names_health market_name ->
        count_occ string_dec (demographics_for market_name)
                  "Healthcare providers" = 2%nat)
    /\ (List.length (demographics_for market_name) <= 18)%nat.
Proof.
  intro market_name.
  destruct (demographics_distinct market_name) as (Hd & Hc & Hl).
  cbv zeta in Hd, Hc.
  assert (Hs : PyStr.str_in "elderly" (PyStr.lower market_name)
               || PyStr.str_in "senior" (PyStr.lower market_name)
               || PyStr.str_in "aging" (PyStr.lower market_name) = true
               <-> names_seniors market_name)
    by (apply or3_spec; apply PyStrFacts.str_in_spec).
  assert (Hh : PyStr.str_in "health" (PyStr.lower market_name)
               || PyStr.str_in "wellness" (PyStr.lower market_name)
               || PyStr.str_in "care" (PyStr.lower market_name) = true
               <-> names_health market_name)
    by (apply or3_spec; apply PyStrFacts.str_in_spec).
  split; [apply distinct_spec, business_models_distinct |].
  split; [| split; [| exact Hl]].
  - rewrite <- distinct_spec, Hd, negb_true_iff, <- Hs, <- Hh.
    rewrite andb_false_iff.
    destruct (_ || _ || _), (_ || _ || _); intuition congruence.
  - intros Hse Hhe. apply Hs in Hse. apply Hh in Hhe.
    rewrite Hc, Hse, Hhe. reflexivity.
Qed.

Lemma X12_witness :
  names_seniors "Senior Health Monitoring"
  /\ names_health "Senior Health Monitoring"
  /\ count_occ string_dec (demographics_for "Senior Health Monitoring")
               "Healthcare providers" = 2%nat.
Proof.
  assert (Hs : names_seniors "Senior Health Monitoring").
  { right. left. apply PyStrFacts.str_in_spec. reflexivity. }
  assert (Hh : names_health "Senior Health Monitoring").
  { left. apply PyStrFacts.str_in_spec. reflexivity. }
  split; [exact Hs |]. split; [exact Hh |].
  now apply (proj1 (proj2 (proj2 (X12_duplicate_demographic_tag
                                    "Senior Health Monitoring")))).
Defined.


(* ================================================================== *)
(** ** Further properties of the validator and of its consumers *)

Section ValidatorMore.

Lemma by_validation_spec x y :
  by_validation y x = true <-> validation_ge x y.
Proof.
  unfold by_validation, validation_ge.
  destruct (Qeq_bool (validation_score (validation y))
                     (validation_score (validation x))) eqn:Heq.
  - apply Qeq_bool_iff in Heq. rewrite Qle_bool_iff. split.
    + intro H. right. now split.
    + intros [Hlt | [_ H]]; [| exact H]. rewrite Heq in Hlt.
      exfalso. now apply (Qlt_irrefl _ Hlt).
  - apply Qeq_bool_neq in Heq. rewrite Qle_bool_iff, Qle_lteq. split.
    + intros [H | H]; [now left | contradiction].
    + intros [H | [H _]]; [now left | contradiction].
Qed.

Lemma by_validation_total x y :
  by_validation y x = false -> by_validation x y = true.
Proof.
  intro H. apply by_validation_spec.
  assert (Hn : ~ validation_ge x y).
  { intro Hge. apply by_validation_spec in Hge. congruence. }
  unfold validation_ge in *.
  destruct (Q_dec (validation_score (validation x))
                  (validation_score (validation y))) as [[Hlt | Hgt] | Heq].
  - now left.
  - exfalso. apply Hn. now left.
  - right. split; [exact Heq |].
    destruct (Qlt_le_dec (opportunity_score (profile y))
                         (opportunity_score (profile x))) as [Hlt | Hle].
    + exfalso. apply Hn. right. split; [now symmetry |].
      now apply Qlt_le_weak.
    + exact Hle.
Qed.

Lemma validation_ge_trans x y z :
  validation_ge x y -> validation_ge y z -> validation_ge x z.
Proof.
  unfold validation_ge.
  intros [H1 | [H1 H1']] [H2 | [H2 H2']].
  - left. now apply Qlt_trans with (validation_score (validation y)).
  - left. now rewrite H2.
  - left. now rewrite <- H1.
  - right. split; [now rewrite H2 |].
    now apply Qle_trans with (opportunity_score (profile y)).
Qed.

Lemma validate_sorted profiles table :
  StronglySorted validation_ge (validate_market_profiles profiles table).
Proof.
  rewrite validate_market_profiles_sorted_map.
  apply Sorted_StronglySorted; [exact validation_ge_trans |].
  pose proof (sort_desc_sorted by_validation by_validation_total
                (map (validate_profile table) profiles)) as H.
  induction H as [|a l Hl IH Hhd]; constructor; [exact IH |].
  destruct Hhd as [|b l Hab]; constructor.
  now apply by_validation_spec.
Qed.

Lemma StronglySorted_weaken {A} (R R' : A -> A -> Prop) (l : list A) :
  (forall a b, R a b -> R' a b) ->
  StronglySorted R l -> StronglySorted R' l.
Proof.
  intros Himpl. induction 1 as [|x l Hl IH Hx]; constructor; [exact IH |].
  eapply Forall_impl; [| exact Hx]. intros b Hb. now apply Himpl.
Qed.

Lemma StronglySorted_filter {A} (R : A -> A -> Prop) (f : A -> bool)
      (l : list A) :
  StronglySorted R l -> StronglySorted R (filter f l).
Proof.
  induction 1 as [|x l Hl IH Hx]; simpl; [constructor |].
  destruct (f x); [| exact IH]. constructor; [exact IH |].
  apply Forall_forall. intros y Hy. apply filter_In in Hy as [Hy _].
  now apply (proj1 (Forall_forall _ _) Hx).
Qed.

Lemma StronglySorted_precedes {A} (R : A -> A -> Prop) (a b : A)
      (l : list A) :
  StronglySorted R l -> precedes a b l -> R a b.
Proof.
  intros Hs (l1 & l2 & l3 & ->).
  induction l1 as [|x l1 IH]; simpl in Hs.
  - inversion Hs as [|? ? _ Hall]; subst.
    apply (proj1 (Forall_forall _ _) Hall). apply in_elt.
  - inversion Hs; subst. now apply IH.
Qed.

Lemma sort_desc_sorted_id {A} (key_le : A -> A -> bool) (l : list A) :
  Sorted (key_ge key_le) l -> sort_desc key_le l = l.
Proof.
  induction 1 as [|x l Hl IH Hhd]; simpl; [reflexivity |].
  rewrite IH. destruct Hhd as [|y l Hxy]; simpl; [reflexivity |].
  unfold key_ge in Hxy. now rewrite Hxy.
Qed.

Lemma lookup_validation_shape market_name table :
  lookup_validation market_name table = not_validated
  \/ exists r, lookup_validation market_name table = validated_with r.
Proof.
  induction table as [|[k r] rest IH]; simpl; [now left |].
  destruct (key_matches market_name k); [right; now exists r | exact IH].
Qed.

Lemma unvalidated_score profiles table vp :
  In vp (validate_market_profiles profiles table) ->
  is_validated (validation vp) = false ->
  validation vp = not_validated.
Proof.
  intros Hin Hv. apply validate_market_profiles_In in Hin as (p & _ & ->).
  simpl in *.
  destruct (lookup_validation_shape (market_name p) table) as [H | [r H]];
    [exact H |].
  rewrite H in Hv. discriminate.
Qed.

Lemma is_validated_lookup market_name table :
  is_validated (lookup_validation market_name table)
  = existsb (fun entry => key_matches market_name (fst entry)) table.
Proof.
  induction table as [|[k r] rest IH]; simpl; [reflexivity |].
  destruct (key_matches market_name k); [reflexivity | exact IH].
Qed.

Lemma list_sum_ones {A} (l : list A) :
  list_sum (map (fun _ => 1%nat) l) = List.length l.
Proof. induction l as [|x l IH]; simpl; [reflexivity | now rewrite IH]. Qed.

Lemma Permutation_filter_length {A} (f : A -> bool) (l l' : list A) :
  Permutation l l' ->
  List.length (filter f l) = List.length (filter f l').
Proof.
  induction 1 as [| x l l' _ IH | x y l | l l' l'' _ IH1 _ IH2]; simpl.
  - reflexivity.
  - destruct (f x); simpl; now rewrite IH.
  - destruct (f x), (f y); reflexivity.
  - now rewrite IH1.
Qed.

Lemma report_sections_fold l : forall i acc,
  fold_left
    (fun (state : nat * list (nat * ValidatedProfile)) p =>
       let i := fst state in
       (S i,
        if is_validated (validation p) then snd state ++ [(i, p)]
        else snd state))
    l (i, acc)
  = ((i + List.length l)%nat,
     acc ++ filter (fun ip => is_validated (validation (snd ip)))
                   (combine (seq i (List.length l)) l)).
Proof.
  induction l as [|p l IH]; intros i acc; simpl.
  - now rewrite Nat.add_0_r, app_nil_r.
  - rewrite IH. f_equal; [lia |].
    destruct (is_validated (validation p)); simpl; [| reflexivity].
    now rewrite <- app_assoc.
Qed.

Lemma report_sections_eq l :
  report_sections l
  = filter (fun ip => is_validated (validation (snd ip)))
           (combine (seq 1 (List.length l)) l).
Proof. unfold report_sections. now rewrite report_sections_fold. Qed.

Lemma numbered_prefix (A B : list ValidatedProfile) : forall i,
  Forall (fun p => is_validated (validation p) = true) A ->
  Forall (fun p => is_validated (validation p) = false) B ->
  filter (fun ip => is_validated (validation (snd ip)))
         (combine (seq i (List.length (A ++ B))) (A ++ B))
  = combine (seq i (List.length A)) A.
Proof.
  induction A as [|a A IH]; intros i HA HB; simpl.
  - revert i. induction B as [|b B IHB]; intro i; simpl; [reflexivity |].
    inversion HB as [|? ? Hb HB']; subst. rewrite Hb. now apply IHB.
  - inversion HA as [|? ? Ha HA']; subst. rewrite Ha.
    f_equal. now apply IH.
Qed.

Lemma validated_first (l : list ValidatedProfile) :
  StronglySorted
    (fun a b => validation_score (validation b)
                <= validation_score (validation a)) l ->
  (forall p, In p l -> is_validated (validation p) = true ->
             0 < validation_score (validation p)) ->
  (forall p, In p l -> is_validated (validation p) = false ->
             validation_score (validation p) == 0) ->
  exists A B,
    l = A ++ B
    /\ Forall (fun p => is_validated (validation p) = true) A
    /\ Forall (fun p => is_validated (validation p) = false) B.
Proof.
  induction 1 as [|x l Hl IH Hx]; intros Hpos Hzero.
  - exists [], []. repeat split; constructor.
  - destruct IH as (A & B & -> & HA & HB).
    { intros p Hp. apply Hpos. now right. }
    { intros p Hp. apply Hzero. now right. }
    destruct (is_validated (validation x)) eqn:Hv.
    + exists (x :: A), B. repeat split; [| exact HB]. now constructor.
    + exists [], (x :: A ++ B). repeat split; [constructor |].
      constructor; [exact Hv |].
      apply Forall_forall. intros p Hp.
      destruct (is_validated (validation p)) eqn:Hvp; [| reflexivity].
      exfalso.
      assert (H1 : 0 < validation_score (validation p))
        by (apply Hpos; [now right | exact Hvp]).
      assert (H2 : validation_score (validation x) == 0)
        by (apply Hzero; [now left | exact Hv]).
      assert (H3 : validation_score (validation p)
                   <= validation_score (validation x))
        by (apply (proj1 (Forall_forall _ _) Hx); exact Hp).
      lra.
Qed.

End ValidatorMore.


(** X13. The validated profiles come back sorted by descending validation
    score and, among equal validation scores, by descending opportunity
    score; profiles equal in both keep the order of the input. *)
Theorem X13_validated_profiles_sorted :
  forall (profiles : list Profile)
         (table : list (string * ValidationRecord)),
    StronglySorted validation_ge (validate_market_profiles profiles table)
    /\ forall vs os,
        filter (same_keys vs os) (validate_market_profiles profiles table)
        = filter (same_keys vs os) (map (validate_profile table) profiles).
Proof.
  intros profiles table. split; [apply validate_sorted |].
  intros vs os. rewrite validate_market_profiles_sorted_map.
  apply sort_desc_filter. intros x y Hx Hy.
  unfold same_keys in Hx, Hy.
  apply andb_true_iff in Hx as [Hx1 Hx2].
  apply andb_true_iff in Hy as [Hy1 Hy2].
  apply Qeq_bool_iff in Hx1, Hx2, Hy1, Hy2.
  apply by_validation_spec. right. split.
  - now rewrite Hx1, Hy1.
  - rewrite Hx2, Hy2. apply Qle_refl.
Qed.

(** X14. In the validator's output the validation score never increases
    from one profile to a later one; in particular no profile with a
    positive validation score comes after an unvalidated profile. *)
Theorem X14_unvalidated_profiles_last :
  forall (profiles : list Profile)
         (table : list (string * ValidationRecord)) (a b : ValidatedProfile),
    precedes a b (validate_market_profiles profiles table) ->
    validation_score (validation b) <= validation_score (validation a)
    /\ (is_validated (validation a) = false ->
        validation_score (validation b) <= 0).
Proof.
  intros profiles table a b Hprec.
  assert (Hle : validation_score (validation b)
                <= validation_score (validation a)).
  { pose proof (StronglySorted_precedes _ a b _
                  (validate_sorted profiles table) Hprec) as [H | [H _]].
    - now apply Qlt_le_weak.
    - rewrite H. apply Qle_refl. }
  split; [exact Hle |].
  intro Hv.
  assert (Hin : In a (validate_market_profiles profiles table)).
  { destruct Hprec as (l1 & l2 & l3 & ->). apply in_elt. }
  rewrite (unvalidated_score profiles table a Hin Hv) in Hle.
  exact Hle.
Qed.

Lemma X14_witness :
  precedes (validate_profile validation_data solutions_profile)
           (validate_profile validation_data telemedicine_profile)
           (validate_market_profiles
              [telemedicine_profile; solutions_profile] validation_data)
  /\ validation_score
       (validation (validate_profile validation_data telemedicine_profile))
     <= validation_score
          (validation (validate_profile validation_data solutions_profile)).
Proof.
  assert (Hprec : precedes
                    (validate_profile validation_data solutions_profile)
                    (validate_profile validation_data telemedicine_profile)
                    (validate_market_profiles
                       [telemedicine_profile; solutions_profile]
                       validation_data)).
  { exists [], [], []. vm_compute. reflexivity. }
  split; [exact Hprec |].
  apply (X14_unvalidated_profiles_last _ _ _ _ Hprec).
Defined.

(** X15. Applied to the validator's output, the executive summary's top
    markets are the first five validated profiles of that output, in its
    order: the summary's own sort changes nothing. *)
Theorem X15_top_markets_of_validated :
  forall (profiles : list Profile)
         (table : list (string * ValidationRecord)),
    let out := validate_market_profiles profiles table in
    top_markets out
    = map top_market_of
          (firstn 5 (filter (fun p => is_validated (validation p)) out))
    /\ List.length (top_markets out) = Nat.min 5 (validated_count out).
Proof.
  intros profiles table out.
  assert (Heq : top_markets out
                = map top_market_of
                      (firstn 5 (filter (fun p => is_validated (validation p))
                                        out))).
  { unfold top_markets. rewrite fold_filter_append. cbn [app].
    rewrite sort_desc_sorted_id; [now rewrite firstn_map |].
    apply StronglySorted_Sorted, StronglySorted_map.
    apply StronglySorted_filter.
    apply (StronglySorted_weaken validation_ge);
      [| apply validate_sorted].
    intros a b Hab. unfold key_ge, by_top_validation_score. simpl.
    apply Qle_bool_iff. destruct Hab as [H | [H _]].
    - now apply Qlt_le_weak.
    - rewrite H. apply Qle_refl. }
  split; [exact Heq |].
  rewrite Heq, length_map, length_firstn.
  unfold validated_count. now rewrite list_sum_ones.
Qed.

(** X16. The number of validated markets reported by the executive
    summary for the validator's output is the number of input profiles
    whose market name equals or contains some key of the table. *)
Theorem X16_validated_count :
  forall (profiles : list Profile)
         (table : list (string * ValidationRecord)),
    validated_count (validate_market_profiles profiles table)
    = List.length
        (filter (fun p =>
                   existsb (fun entry =>
                              key_matches (market_name p) (fst entry))
                           table)
                profiles).
Proof.
  intros profiles table. unfold validated_count.
  rewrite list_sum_ones, validate_market_profiles_sorted_map.
  rewrite <- (Permutation_filter_length _ _ _ (sort_desc_perm _ _)).
  rewrite filter_map_swap, length_map.
  f_equal. apply filter_ext. intro p. simpl.
  apply is_validated_lookup.
Qed.

Lemma In_numbered {A} (l : list A) : forall i n (x : A),
  In (n, x) (combine (seq i (List.length l)) l)
  <-> (i <= n)%nat /\ nth_error l (n - i) = Some x.
Proof.
  induction l as [|y l IH]; intros i n x; simpl.
  - split; [tauto |]. intros [_ H]. destruct (n - i)%nat; discriminate.
  - rewrite IH. split.
    + intros [Heq | [Hle Hnth]].
      * injection Heq as <- <-. rewrite Nat.sub_diag. now split.
      * split; [lia |].
        replace (n - i)%nat with (S (n - S i)) by lia. exact Hnth.
    + intros [Hle Hnth]. destruct (n - i)%nat as [|d] eqn:Hd.
      * left. injection Hnth as ->. f_equal. lia.
      * right. split; [lia |].
        replace (n - S i)%nat with d by lia. exact Hnth.
Qed.

(** X17. The validation report gives a section to each validated profile
    and to no other, and the number of a section is the position, counted
    from 1, of its profile in the whole list, unvalidated profiles
    included: after an unvalidated profile the numbers have a gap.  When
    every record of the table has a positive validation score, the
    validated profiles come first in the validator's output, so that its
    sections are numbered 1, 2, ... without a gap. *)
Theorem X17_report_sections_numbered :
  (forall validated_profiles,
      report_sections validated_profiles
      = filter (fun section => is_validated (validation (snd section)))
               (combine (seq 1 (List.length validated_profiles))
                        validated_profiles))
  /\ (forall validated_profiles n p,
         In (n, p) (report_sections validated_profiles)
         <-> (1 <= n)%nat
             /\ nth_error validated_profiles (n - 1) = Some p
             /\ is_validated (validation p) = true)
  /\ (forall validated_profiles,
         map snd (report_sections validated_profiles)
         = filter (fun p => is_validated (validation p))
                  validated_profiles)
  /\ (forall (profiles : list Profile)
             (table : list (string * ValidationRecord)),
         (forall k r,
             In (k, r) table -> 0 < get_or (vr_validation_score r) 0) ->
         let out := validate_market_profiles profiles table in
         map fst (report_sections out) = seq 1 (validated_count out)).
Proof.
  split; [exact report_sections_eq |]. split; [| split].
  - intros l n p. rewrite report_sections_eq, filter_In, In_numbered.
    simpl. tauto.
  - intro l. rewrite report_sections_eq.
    generalize 1%nat as i. induction l as [|p l IH]; intro i; simpl;
      [reflexivity |].
    destruct (is_validated (validation p)); simpl; now rewrite IH.
  - intros profiles table Hpos out.
    destruct (validated_first out) as (A & B & HAB & HA & HB).
    + apply (StronglySorted_weaken validation_ge);
        [| apply validate_sorted].
      intros a b [H | [H _]]; [now apply Qlt_le_weak |].
      rewrite H. apply Qle_refl.
    + intros vp Hin Hv.
      apply validate_market_profiles_In in Hin as (p & _ & ->).
      simpl in *.
      destruct (lookup_validation_cases (market_name p) table)
        as [(before & k & r & after & Ht & _ & _ & Hl) | [_ Hl]];
        rewrite Hl in *; [| discriminate].
      simpl. apply (Hpos k r). rewrite Ht. apply in_elt.
    + intros vp Hin Hv.
      rewrite (unvalidated_score profiles table vp Hin Hv). reflexivity.
    + rewrite report_sections_eq. unfold validated_count.
      rewrite list_sum_ones, HAB, (numbered_prefix A B 1 HA HB).
      rewrite filter_app.
      rewrite (filter_all _ A)
        by (intros p Hp; apply (proj1 (Forall_forall _ _) HA p Hp)).
      assert (HBnone : filter (fun p => is_validated (validation p)) B = []).
      { clear -HB. induction B as [|b B IH]; [reflexivity |].
        inversion HB as [|? ? Hb HB']; subst. simpl. rewrite Hb.
        now apply IH. }
      rewrite HBnone, app_nil_r.
      clear. generalize 1%nat as i.
      induction A as [|a A IH]; intro i; simpl; [reflexivity |].
      now rewrite IH.
Qed.

Lemma X17_witness :
  (forall k r,
      In (k, r) validation_data -> 0 < get_or (vr_validation_score r) 0)
  /\ map fst (report_sections
                (validate_market_profiles
                   [telemedicine_profile; solutions_profile;
                    profile_named "Remote Work Technology Platforms" 19]
                   validation_data))
     = [1; 2]%nat
  /\ map fst (report_sections
                (map (validate_profile validation_data)
                     [solutions_profile; telemedicine_profile;
                      profile_named "Remote Work Technology Platforms" 19]))
     = [1; 3]%nat
  /\ In (3%nat,
         validate_profile
           validation_data
           (profile_named "Remote Work Technology Platforms" 19))
        (report_sections
           (map (validate_profile validation_data)
                [solutions_profile; telemedicine_profile;
                 profile_named "Remote Work Technology Platforms" 19])).
Proof.
  assert (Hpos : forall k r,
             In (k, r) validation_data ->
             0 < get_or (vr_validation_score r) 0).
  { intros k r Hin. simpl in Hin.
    repeat (destruct Hin as [Heq | Hin];
            [injection Heq as <- <-; reflexivity |]).
    destruct Hin. }
  split; [exact Hpos |]. split; [| split].
  - rewrite (proj2 (proj2 (proj2 X17_report_sections_numbered)) _ _ Hpos).
    vm_compute. reflexivity.
  - rewrite (proj1 X17_report_sections_numbered). vm_compute. reflexivity.
  - apply (proj1 (proj2 X17_report_sections_numbered)).
    split; [lia |]. split; reflexivity.
Defined.


(* ================================================================== *)
(** ** The order of the input lists *)

Section OrderFacts.

Lemma count_aligned_perm words xs xs' :
  Permutation xs xs' -> count_aligned words xs = count_aligned words xs'.
Proof.
  intro H. rewrite !count_aligned_filter.
  now apply Permutation_filter_length.
Qed.

End OrderFacts.

(** X19. The enricher returns no profile for an empty market list or a
    falsy combined_data.  Otherwise it returns, in order, one profile for
    every market with a non-empty name among the first ten of the list,
    so at most ten; a market without a name among the first ten is
    skipped and its place is not given to the eleventh. *)
Theorem X19_profiles_of_first_ten :
  forall (market_list : list MarketCandidate),
    create_market_opportunity_profiles market_list None = []
    /\ create_market_opportunity_profiles [] None = []
    /\ forall data,
        create_market_opportunity_profiles [] (Some data) = []
        /\ create_market_opportunity_profiles market_list (Some data)
           = map (build_profile data)
                 (filter (fun market => negb (name market =? "")%string)
                         (firstn 10 market_list))
        /\ (List.length
              (create_market_opportunity_profiles market_list (Some data))
            <= 10)%nat.
Proof.
  intro market_list.
  split; [now destruct market_list |]. split; [reflexivity |].
  intro data. split; [reflexivity |].
  split; [apply create_profiles_eq |].
  rewrite create_profiles_eq, length_map.
  apply Nat.le_trans with (List.length (firstn 10 market_list)).
  - apply filter_length_le.
  - apply firstn_le_length.
Qed.

(* ================================================================== *)
(** ** The scoring loops in binary64 arithmetic *)

Section Binary64Facts.

Lemma b64_lookup_app k (ms ms' : Binary64.scores) :
  Binary64.lookup k (ms ++ ms')
  = match Binary64.lookup k ms with
    | Some c => Some c
    | None => Binary64.lookup k ms'
    end.
Proof.
  induction ms as [|[k0 c] rest IH]; simpl; [reflexivity |].
  destruct (k0 =? k)%string; [reflexivity | exact IH].
Qed.

Lemma b64_lookup_update k k' f (ms : Binary64.scores) :
  Binary64.lookup k' (Binary64.update k f ms)
  = if (k =? k')%string then option_map f (Binary64.lookup k' ms)
    else Binary64.lookup k' ms.
Proof.
  induction ms as [|[k0 c] rest IH]; simpl.
  - now destruct (k =? k')%string.
  - destruct (String.eqb_spec k0 k) as [-> | Hk0]; simpl.
    + destruct (String.eqb_spec k k'); reflexivity.
    + rewrite IH. destruct (String.eqb_spec k0 k') as [-> | Hk0'].
      * destruct (String.eqb_spec k k'); [congruence | reflexivity].
      * reflexivity.
Qed.

Lemma b64_candidate_at_step k k' f (ms : Binary64.scores) :
  Binary64.candidate_at k' (Binary64.update k f (Binary64.ensure k ms))
  = if (k =? k')%string then f (Binary64.candidate_at k' ms)
    else Binary64.candidate_at k' ms.
Proof.
  unfold Binary64.candidate_at, Binary64.ensure. rewrite b64_lookup_update.
  destruct (String.eqb_spec k k') as [<- | Hk].
  - destruct (Binary64.lookup k ms) as [c|] eqn:Hl.
    + now rewrite Hl.
    + rewrite b64_lookup_app, Hl. simpl. now rewrite String.eqb_refl.
  - destruct (Binary64.lookup k ms) as [c|] eqn:Hl; [reflexivity |].
    rewrite b64_lookup_app.
    destruct (Binary64.lookup k' ms); [reflexivity |].
    simpl. destruct (String.eqb_spec k k'); [contradiction | reflexivity].
Qed.

(** The entry of a name only sees the records of that name. *)
Lemma b64_candidate_at_underserved k us : forall ms,
  Binary64.candidate_at k (fold_left Binary64.score_underserved us ms)
  = fold_left (Binary64.apply_underserved k) us
              (Binary64.candidate_at k ms).
Proof.
  induction us as [|u us IH]; intros ms; simpl; [reflexivity |].
  rewrite IH. unfold Binary64.score_underserved.
  rewrite b64_candidate_at_step. reflexivity.
Qed.

Lemma b64_candidate_at_mention k mms : forall ms,
  Binary64.candidate_at k (fold_left Binary64.score_mention mms ms)
  = fold_left (Binary64.apply_mention k) mms (Binary64.candidate_at k ms).
Proof.
  induction mms as [|m mms IH]; intros ms; simpl; [reflexivity |].
  rewrite IH. unfold Binary64.score_mention.
  rewrite b64_candidate_at_step. reflexivity.
Qed.

Lemma b64_candidate_at_collect (i : Binary64.Inputs) k :
  Binary64.candidate_at k (Binary64.collect i) = Binary64.collected i k.
Proof.
  unfold Binary64.collect, Binary64.collected.
  now rewrite b64_candidate_at_mention, b64_candidate_at_underserved.
Qed.

Lemma b64_keys_update k f (ms : Binary64.scores) :
  map fst (Binary64.update k f ms) = map fst ms.
Proof.
  induction ms as [|[k0 c] rest IH]; simpl; [reflexivity |].
  destruct (k0 =? k)%string; simpl; [reflexivity | now rewrite IH].
Qed.

Lemma b64_keys_ensure k (ms : Binary64.scores) :
  map fst (Binary64.ensure k ms) = see (map fst ms) k.
Proof.
  unfold Binary64.ensure, see.
  assert (Hmem : PyStr.mem k (map fst ms)
                 = match Binary64.lookup k ms with
                   | Some _ => true
                   | None => false
                   end).
  { induction ms as [|[k0 c] rest IH]; simpl; [reflexivity |].
    rewrite (String.eqb_sym k k0).
    destruct (k0 =? k)%string; simpl; [reflexivity | exact IH]. }
  rewrite Hmem. destruct (Binary64.lookup k ms); [reflexivity |].
  now rewrite map_app.
Qed.

Lemma b64_keys_collect (i : Binary64.Inputs) :
  map fst (Binary64.collect i) = first_seen (Binary64.names_met i).
Proof.
  unfold Binary64.collect, first_seen, Binary64.names_met.
  rewrite fold_left_app.
  assert (Hus : forall us ms,
             map fst (fold_left Binary64.score_underserved us ms)
             = fold_left see (map Binary64.um_market us) (map fst ms)).
  { induction us as [|u us IH]; intros ms; simpl; [reflexivity |].
    rewrite IH. unfold Binary64.score_underserved.
    now rewrite b64_keys_update, b64_keys_ensure. }
  assert (Hmm : forall mms ms,
             map fst (fold_left Binary64.score_mention mms ms)
             = fold_left see (map Binary64.mm_market mms) (map fst ms)).
  { induction mms as [|m mms IH]; intros ms; simpl; [reflexivity |].
    rewrite IH. unfold Binary64.score_mention.
    now rewrite b64_keys_update, b64_keys_ensure. }
  rewrite Hmm, Hus. reflexivity.
Qed.

Lemma b64_lookup_In k c (ms : Binary64.scores) :
  NoDup (map fst ms) -> In (k, c) ms -> Binary64.lookup k ms = Some c.
Proof.
  induction ms as [|[k0 c0] rest IH]; simpl; [tauto |].
  intros Hnd [Heq | Hin].
  - injection Heq as -> ->. now rewrite String.eqb_refl.
  - inversion Hnd as [|? ? Hnotin Hnd']; subst.
    destruct (String.eqb_spec k0 k) as [-> | _]; [| now apply IH].
    exfalso. apply Hnotin. apply (in_map fst) in Hin. exact Hin.
Qed.

Lemma b64_collect_entry (i : Binary64.Inputs) k c :
  In (k, c) (Binary64.collect i) -> c = Binary64.collected i k.
Proof.
  intro Hin. rewrite <- b64_candidate_at_collect.
  unfold Binary64.candidate_at.
  rewrite (b64_lookup_In k c); [reflexivity | | exact Hin].
  rewrite b64_keys_collect. apply first_seen_NoDup.
Qed.

Lemma b64_name_collected (i : Binary64.Inputs) k :
  Binary64.name (Binary64.collected i k) = k.
Proof.
  unfold Binary64.collected.
  assert (Hus : forall us c,
             Binary64.name (fold_left (Binary64.apply_underserved k) us c)
             = Binary64.name c).
  { induction us as [|u us IH]; intros c; simpl; [reflexivity |].
    rewrite IH. unfold Binary64.apply_underserved.
    now destruct (Binary64.names_underserved k u). }
  assert (Hmm : forall mms c,
             Binary64.name (fold_left (Binary64.apply_mention k) mms c)
             = Binary64.name c).
  { induction mms as [|m mms IH]; intros c; simpl; [reflexivity |].
    rewrite IH. unfold Binary64.apply_mention.
    now destruct (Binary64.names_mention k m). }
  now rewrite Hmm, Hus.
Qed.

(** Every candidate of the returned list is the entry of a name met by the
    first two loops, aligned by the third; and every such name has its
    candidate. *)
Lemma b64_rank_In (i : Binary64.Inputs) (c : Binary64.MarketCandidate) :
  In c (Binary64.rank_markets i)
  <-> exists k,
      In k (Binary64.names_met i)
      /\ c = snd (Binary64.align_with i (k, Binary64.collected i k)).
Proof.
  unfold Binary64.rank_markets.
  assert (Hperm : In c (sort_desc Binary64.by_total_score
                                  (Binary64.inserted i))
                  <-> In c (Binary64.inserted i)).
  { split; apply Permutation_in;
      [symmetry |]; apply sort_desc_perm. }
  rewrite Hperm. unfold Binary64.inserted, Binary64.score_markets.
  rewrite map_map. split.
  - intro Hin. apply in_map_iff in Hin as ([k c0] & <- & Hin).
    exists k. split.
    + apply first_seen_In. rewrite <- b64_keys_collect.
      now apply (in_map fst) in Hin.
    + now rewrite (b64_collect_entry i k c0 Hin).
  - intros (k & Hk & ->). apply first_seen_In in Hk.
    rewrite <- b64_keys_collect in Hk.
    apply in_map_iff in Hk as ([k0 c0] & Hfst & Hin). simpl in Hfst.
    subst k0. apply in_map_iff. exists (k, c0). split; [| exact Hin].
    now rewrite (b64_collect_entry i k c0 Hin).
Qed.

(** What the first two loops leave in the entry of a name. *)
Lemma b64_underserved_total k us : forall c,
  Binary64.total_score (fold_left (Binary64.apply_underserved k) us c)
  = Binary64.accumulate_underserved k us (Binary64.total_score c).
Proof.
  unfold Binary64.accumulate_underserved.
  induction us as [|u us IH]; intros c; simpl; [reflexivity |].
  rewrite IH. unfold Binary64.apply_underserved.
  destruct (Binary64.names_underserved k u); reflexivity.
Qed.

Lemma b64_mention_total k mms : forall c,
  Binary64.total_score (fold_left (Binary64.apply_mention k) mms c)
  = Binary64.accumulate_mentions k mms (Binary64.total_score c).
Proof.
  unfold Binary64.accumulate_mentions.
  induction mms as [|m mms IH]; intros c; simpl; [reflexivity |].
  rewrite IH. unfold Binary64.apply_mention.
  destruct (Binary64.names_mention k m); reflexivity.
Qed.

Lemma b64_last_underserved_snoc k us u :
  Binary64.last_underserved k (us ++ [u])
  = if Binary64.names_underserved k u then Some u
    else Binary64.last_underserved k us.
Proof. unfold Binary64.last_underserved. now rewrite rev_unit. Qed.

Lemma b64_last_mention_snoc k mms m :
  Binary64.last_mention k (mms ++ [m])
  = if Binary64.names_mention k m then Some m
    else Binary64.last_mention k mms.
Proof. unfold Binary64.last_mention. now rewrite rev_unit. Qed.

Lemma b64_underserved_gap k us c :
  Binary64.gap_score (fold_left (Binary64.apply_underserved k) us c)
  = match Binary64.last_underserved k us with
    | Some u => Binary64.um_gap_score u
    | None => Binary64.gap_score c
    end.
Proof.
  induction us as [|u us IH] using rev_ind; [reflexivity |].
  rewrite fold_left_app, b64_last_underserved_snoc. simpl.
  unfold Binary64.apply_underserved at 1.
  destruct (Binary64.names_underserved k u); [reflexivity | exact IH].
Qed.

Lemma b64_mention_scores k mms c :
  let c' := fold_left (Binary64.apply_mention k) mms c in
  Binary64.mention_score c'
  = match Binary64.last_mention k mms with
    | Some m => Binary64.min 10 (Binary64.mm_mention_count m / 3)
    | None => Binary64.mention_score c
    end
  /\ Binary64.sentiment_score c'
     = match Binary64.last_mention k mms with
       | Some m => Binary64.min 5 (Binary64.mm_sentiment_score m * 5)
       | None => Binary64.sentiment_score c
       end.
Proof.
  induction mms as [|m mms IH] using rev_ind; [now split |].
  cbv zeta in *. rewrite fold_left_app, b64_last_mention_snoc. simpl.
  unfold Binary64.apply_mention at 1 3.
  destruct (Binary64.names_mention k m); [now split | exact IH].
Qed.

Lemma b64_mention_keeps_gap k mms : forall c,
  Binary64.gap_score (fold_left (Binary64.apply_mention k) mms c)
  = Binary64.gap_score c.
Proof.
  induction mms as [|m mms IH]; intros c; simpl; [reflexivity |].
  rewrite IH. unfold Binary64.apply_mention.
  now destruct (Binary64.names_mention k m).
Qed.

Lemma b64_add_investment words areas : forall t,
  Binary64.add_investment words areas t
  = Binary64.add_ones (count_aligned words areas) t.
Proof.
  unfold Binary64.add_investment, Binary64.add_ones.
  induction areas as [|area areas IH]; intros t; [reflexivity |].
  rewrite count_aligned_cons. simpl fold_left. rewrite IH.
  destruct (aligned words area); [| reflexivity].
  cbn [Nat.add]. now rewrite Nat.iter_succ_r.
Qed.

Lemma b64_align_total (i : Binary64.Inputs) k c :
  Binary64.total_score (snd (Binary64.align_with i (k, c)))
  = Binary64.add_alignments i k (Binary64.total_score c).
Proof.
  unfold Binary64.align_with, Binary64.add_alignments,
    Binary64.investment_matches. simpl.
  now rewrite b64_add_investment.
Qed.

End Binary64Facts.

Section Binary64Unique.

Lemma fold_at_most_one {A B} (p : A -> bool) (f : A -> B -> B) l :
  forall c,
    (List.length (filter p l) <= 1)%nat ->
    fold_left (fun c x => if p x then f x c else c) l c
    = match find p l with
      | Some x => f x c
      | None => c
      end.
Proof.
  induction l as [|x l IH]; intros c Hlen; simpl in *; [reflexivity |].
  destruct (p x) eqn:Hp.
  - simpl in Hlen. assert (Hnone : filter p l = [])
      by (destruct (filter p l); [reflexivity | simpl in Hlen; lia]).
    clear IH Hlen. revert Hnone. generalize (f x c) as d.
    induction l as [|y l IH]; intros d Hnone; simpl in *; [reflexivity |].
    destruct (p y); [discriminate | now apply IH].
  - now apply IH.
Qed.

Lemma b64_add_zero_r (x : float) :
  Prim2SF x <> S754_zero true -> (x + 0)%float = x.
Proof.
  intro H. apply Prim2SF_inj. rewrite add_spec.
  change (Prim2SF 0) with (S754_zero false).
  destruct (Prim2SF x) as [[|]| | |]; try reflexivity.
  now contradiction H.
Qed.

(** Adding the zero scores of an absent mention record does not change
    what the alignment loop then makes of the total. *)
Lemma b64_add_zeros (x : float) (n : nat) :
  (x + 0 + 0 + Binary64.of_nat (Nat.min 3 n))%float
  = (x + Binary64.of_nat (Nat.min 3 n))%float.
Proof.
  destruct (Prim2SF x) as [[|]| | |] eqn:Hx.
  1: { assert (Hneg : x = (-0)%float)
         by (apply Prim2SF_inj; rewrite Hx; reflexivity).
       subst x. destruct n as [|[|[|n]]]; reflexivity. }
  all: rewrite !b64_add_zero_r; try reflexivity;
    rewrite ?b64_add_zero_r; rewrite Hx; discriminate.
Qed.

Lemma b64_recompute_collected (i : Binary64.Inputs) k :
  (Binary64.count_underserved k (Binary64.underserved_markets i) <= 1)%nat ->
  (Binary64.count_mentions k (Binary64.market_mentions i) <= 1)%nat ->
  let c := snd (Binary64.align_with i (k, Binary64.collected i k)) in
  Binary64.total_score c
  = Binary64.recompute (Binary64.hot_investment_areas i) c.
Proof.
  intros Hus Hmm. cbv zeta. rewrite b64_align_total.
  unfold Binary64.collected, Binary64.apply_underserved,
    Binary64.apply_mention.
  rewrite (fold_at_most_one (Binary64.names_mention k)
                            Binary64.add_mention) by exact Hmm.
  rewrite (fold_at_most_one (Binary64.names_underserved k)
                            Binary64.add_underserved) by exact Hus.
  unfold Binary64.recompute, Binary64.add_alignments, Binary64.align_with.
  destruct (find (Binary64.names_underserved k)
                 (Binary64.underserved_markets i)) as [u|];
    destruct (find (Binary64.names_mention k)
                   (Binary64.market_mentions i)) as [m|];
    cbn -[Nat.min Binary64.of_nat Binary64.add_ones Binary64.min
          PrimFloat.add PrimFloat.div PrimFloat.mul];
    unfold Binary64.add_growth_bonus; try reflexivity.
  rewrite b64_add_zeros. reflexivity.
Qed.

Lemma filter_Permutation {A} (p : A -> bool) (l l' : list A) :
  Permutation l l' -> Permutation (filter p l) (filter p l').
Proof.
  induction 1 as [| x l l' _ IH | x y l | l l' l'' _ IH1 _ IH2]; simpl.
  - constructor.
  - destruct (p x); [now constructor | exact IH].
  - destruct (p x), (p y); try reflexivity. apply perm_swap.
  - now transitivity (filter p l').
Qed.

Lemma find_filter {A} (p : A -> bool) (l : list A) :
  find p l = hd_error (filter p l).
Proof.
  induction l as [|x l IH]; simpl; [reflexivity |].
  destruct (p x); [reflexivity | exact IH].
Qed.

(** A list with at most one element satisfying [p] yields that element
    wherever it stands. *)
Lemma find_at_most_one {A} (p : A -> bool) (l l' : list A) :
  Permutation l l' ->
  (List.length (filter p l) <= 1)%nat ->
  find p l = find p l'.
Proof.
  intros Hperm Hlen. rewrite !find_filter.
  apply (filter_Permutation p) in Hperm.
  destruct (filter p l) as [|x [|y rest]]; simpl in Hlen; [| | lia].
  - apply Permutation_nil in Hperm. now rewrite Hperm.
  - apply Permutation_length_1_inv in Hperm. now rewrite Hperm.
Qed.

Lemma b64_collected_perm (i i' : Binary64.Inputs) k :
  Permutation (Binary64.underserved_markets i)
              (Binary64.underserved_markets i') ->
  Permutation (Binary64.market_mentions i) (Binary64.market_mentions i') ->
  (Binary64.count_underserved k (Binary64.underserved_markets i) <= 1)%nat ->
  (Binary64.count_mentions k (Binary64.market_mentions i) <= 1)%nat ->
  Binary64.collected i' k = Binary64.collected i k.
Proof.
  intros Pus Pmm Hus Hmm.
  assert (Hus' : (Binary64.count_underserved
                    k (Binary64.underserved_markets i') <= 1)%nat).
  { unfold Binary64.count_underserved in *.
    now rewrite <- (Permutation_filter_length _ _ _ Pus). }
  assert (Hmm' : (Binary64.count_mentions
                    k (Binary64.market_mentions i') <= 1)%nat).
  { unfold Binary64.count_mentions in *.
    now rewrite <- (Permutation_filter_length _ _ _ Pmm). }
  unfold Binary64.collected, Binary64.apply_underserved,
    Binary64.apply_mention.
  rewrite !(fold_at_most_one (Binary64.names_mention k)
                             Binary64.add_mention) by assumption.
  rewrite !(fold_at_most_one (Binary64.names_underserved k)
                             Binary64.add_underserved) by assumption.
  rewrite <- (find_at_most_one _ _ _ Pus Hus).
  rewrite <- (find_at_most_one _ _ _ Pmm Hmm). reflexivity.
Qed.

Lemma b64_align_perm (i i' : Binary64.Inputs) k c :
  Permutation (Binary64.growth_sectors i) (Binary64.growth_sectors i') ->
  Permutation (Binary64.hot_investment_areas i)
              (Binary64.hot_investment_areas i') ->
  Permutation (Binary64.emerging_tech i) (Binary64.emerging_tech i') ->
  Permutation (Binary64.trending_sectors i) (Binary64.trending_sectors i') ->
  Binary64.align_with i' (k, c) = Binary64.align_with i (k, c).
Proof.
  intros Pgs Phs Pes Pts. unfold Binary64.align_with, Binary64.align.
  cbn [fst snd]. rewrite !b64_add_investment.
  rewrite <- (count_aligned_perm _ _ _ Pgs), <- (count_aligned_perm _ _ _ Phs),
    <- (count_aligned_perm _ _ _ Pes), <- (count_aligned_perm _ _ _ Pts).
  reflexivity.
Qed.

End Binary64Unique.

Section Binary64Bridge.

Lemma b64_for_each_align (G H E T : json) (gs hs es ts : list string) :
  read_list read_name G = Ok gs ->
  read_list read_name H = Ok hs ->
  read_list read_technology E = Ok es ->
  read_list read_name T = Ok ts ->
  forall (ms done : Binary64.scores),
    Py.for_each (Binary64.align_entry G H E T) ms done
    = Ok (done
          ++ map (fun e => (fst e,
                            Binary64.align gs hs es ts (fst e) (snd e)))
                 ms).
Proof.
  intros HG HH HE HT ms.
  induction ms as [|e rest IH]; intros done; simpl.
  - now rewrite app_nil_r.
  - unfold Binary64.align_entry at 1. rewrite HG, HH, HE, HT. simpl.
    rewrite IH, <- app_assoc. reflexivity.
Qed.

(** On input that [read_inputs] accepts, the call returns the ranking of
    the typed inputs. *)
Lemma b64_identify_reads (combined_data : json) (i : Binary64.Inputs) :
  Binary64.read_inputs combined_data = Ok i ->
  Binary64.identify_top_underserved_markets combined_data
  = Ok (Binary64.rank_markets i).
Proof.
  unfold Binary64.read_inputs, Binary64.identify_top_underserved_markets.
  intro H.
  apply bind_ok in H as (u & Hu & H). apply bind_ok in H as (m & Hm & H).
  apply bind_ok in H as (n & Hn & H). apply bind_ok in H as (g & Hg & H).
  apply bind_ok in H as (h & Hh & H). apply bind_ok in H as (e & He & H).
  apply bind_ok in H as (t & Ht & H).
  apply bind_ok in H as (us & Hus & H). apply bind_ok in H as (mms & Hmms & H).
  apply bind_ok in H as (gs & Hgs & H). apply bind_ok in H as (hs & Hhs & H).
  apply bind_ok in H as (es & Hes & H). apply bind_ok in H as (ts & Hts & H).
  injection H as <-.
  destruct (Py.truthy combined_data) eqn:Htruthy; simpl.
  - rewrite Hu, Hm, Hn, Hg, Hh, He, Ht. simpl.
    apply read_list_ok in Hus as (iu & -> & Hus).
    apply read_list_ok in Hmms as (im & -> & Hmms). simpl.
    rewrite (for_each_read _ Binary64.score_underserved _ _ _ Hus). simpl.
    rewrite (for_each_read _ Binary64.score_mention _ _ _ Hmms). simpl.
    rewrite (b64_for_each_align _ _ _ _ _ _ _ _ Hgs Hhs Hes Hts). simpl.
    reflexivity.
  - destruct combined_data as [| | | | |fields]; try discriminate.
    destruct fields; [|discriminate].
    cbv in Hu, Hm, Hg, Hh, He, Ht.
    injection Hu as <-. injection Hm as <-. injection Hg as <-.
    injection Hh as <-. injection He as <-. injection Ht as <-.
    cbv in Hus, Hmms. injection Hus as <-. injection Hmms as <-.
    reflexivity.
Qed.

End Binary64Bridge.

(** C3 (amended). For a returned candidate whose name occurs in at most
    one underserved-market record and in at most one mention record, the
    stored total_score is the binary64 sum, taken from 0 in the order in
    which the loops add, of the stored gap_score, the growth-potential
    bonus of the stored growth potential (3 for High, 1.5 for Medium,
    nothing otherwise), the stored mention_score and sentiment_score, the
    stored growth_alignment, 1 for each investment area sharing a word
    with the name, and the stored tech_alignment and sector_alignment. *)
Theorem C3_total_recomputed_in_code_order :
  forall (combined_data : json) (i : Binary64.Inputs),
    Binary64.read_inputs combined_data = Ok i ->
    exists out,
      Binary64.identify_top_underserved_markets combined_data = Ok out
      /\ forall c,
          In c out ->
          (Binary64.count_underserved
             (Binary64.name c) (Binary64.underserved_markets i) <= 1)%nat ->
          (Binary64.count_mentions
             (Binary64.name c) (Binary64.market_mentions i) <= 1)%nat ->
          Binary64.total_score c
          = Binary64.recompute (Binary64.hot_investment_areas i) c.
Proof.
  intros combined_data i Hread. exists (Binary64.rank_markets i).
  split; [now apply b64_identify_reads |].
  intros c Hin. apply b64_rank_In in Hin as (k & _ & ->).
  replace (Binary64.name
             (snd (Binary64.align_with i (k, Binary64.collected i k))))
    with k by (symmetry; apply b64_name_collected).
  apply b64_recompute_collected.
Qed.

Lemma C3_witness :
  Binary64.read_inputs rounded_combined_data = Ok rounded_inputs
  /\ exists c,
      Binary64.identify_top_underserved_markets rounded_combined_data
      = Ok [c]
      /\ Binary64.gap_score c = 8.7%float
      /\ Binary64.mention_score c = 4%float
      /\ Binary64.sentiment_score c = (0.62 * 5)%float
      /\ Binary64.total_score c = 18.8%float
      /\ Binary64.recompute [] c = 18.8%float.
Proof.
  split; [vm_compute; reflexivity |].
  destruct (C3_total_recomputed_in_code_order
              rounded_combined_data rounded_inputs)
    as (out & Hout & Hall); [vm_compute; reflexivity |].
  vm_compute in Hout. injection Hout as <-.
  eexists. split; [vm_compute; reflexivity |].
  split; [reflexivity |]. split; [reflexivity |]. split; [reflexivity |].
  split; [reflexivity |].
  match goal with
  | |- Binary64.recompute _ ?c = _ =>
      transitivity (Binary64.total_score c); [symmetry | reflexivity];
      apply (Hall c); [now left | vm_compute; lia | vm_compute; lia]
  end.
Defined.

(** C3 fails as stated.  With two records for "Telemedicine Services" (gap
    scores 5 and 2) the returned candidate has total_score 7 while its
    stored fields and the two bonuses add up to 2, in whatever order they
    are added.  And with one record per name, gap score 8.7, growth
    potential High, 12 mentions and sentiment 0.62, the stored total_score
    is the double 18.8, while the six stored fields followed by the two
    bonuses add up to 18.799999999999997. *)
Lemma C3_counterexample :
  (exists c,
      Binary64.identify_top_underserved_markets duplicate_combined_data
      = Ok [c]
      /\ Binary64.total_score c = 7%float
      /\ Binary64.fields_then_bonuses [] c = 2%float
      /\ Binary64.recompute [] c = 2%float
      /\ PrimFloat.eqb (Binary64.total_score c)
                       (Binary64.fields_then_bonuses [] c) = false)
  /\ (exists c,
        Binary64.identify_top_underserved_markets rounded_combined_data
        = Ok [c]
        /\ Binary64.total_score c = 18.8%float
        /\ Binary64.fields_then_bonuses [] c = 18.799999999999997%float
        /\ PrimFloat.eqb (Binary64.total_score c)
                         (Binary64.fields_then_bonuses [] c) = false
        /\ Binary64.total_score c <> Binary64.fields_then_bonuses [] c).
Proof.
  split.
  - eexists. split; [vm_compute; reflexivity |].
    repeat split; vm_compute; reflexivity.
  - eexists. split; [vm_compute; reflexivity |].
    split; [reflexivity |]. split; [vm_compute; reflexivity |].
    split; [vm_compute; reflexivity |].
    intro H.
    apply (f_equal (fun x => PrimFloat.eqb x 18.799999999999997)) in H.
    vm_compute in H. discriminate.
Qed.

(** C10. Every record of a market name adds its contribution to the
    total_score of the candidate of that name, one after the other in the
    order of the records: the gap score and growth-potential bonus of each
    underserved-market record, then the mention and sentiment score of
    each mention record, before the alignment loop adds its terms.  The
    fields gap_score, mention_score and sentiment_score hold the value of
    the last record of the name only.  So with a duplicated name, in
    underserved-market records or in mention records, the stored fields
    do not add up to the total. *)
Theorem C10_duplicate_names_accumulate :
  (forall (combined_data : json) (i : Binary64.Inputs),
      Binary64.read_inputs combined_data = Ok i ->
      exists out,
        Binary64.identify_top_underserved_markets combined_data = Ok out
        /\ forall c,
            In c out ->
            Binary64.total_score c
            = Binary64.add_alignments
                i (Binary64.name c)
                (Binary64.accumulate_mentions
                   (Binary64.name c) (Binary64.market_mentions i)
                   (Binary64.accumulate_underserved
                      (Binary64.name c) (Binary64.underserved_markets i)
                      0%float))
            /\ Binary64.gap_score c
               = match Binary64.last_underserved
                         (Binary64.name c)
                         (Binary64.underserved_markets i) with
                 | Some u => Binary64.um_gap_score u
                 | None => 0%float
                 end
            /\ Binary64.mention_score c
               = match Binary64.last_mention
                         (Binary64.name c) (Binary64.market_mentions i) with
                 | Some m =>
                     Binary64.min 10 (Binary64.mm_mention_count m / 3)%float
                 | None => 0%float
                 end
            /\ Binary64.sentiment_score c
               = match Binary64.last_mention
                         (Binary64.name c) (Binary64.market_mentions i) with
                 | Some m =>
                     Binary64.min 5 (Binary64.mm_sentiment_score m * 5)%float
                 | None => 0%float
                 end)
  /\
  (exists c,
      Binary64.identify_top_underserved_markets duplicate_combined_data
      = Ok [c]
      /\ Binary64.total_score c = (0 + 5 + 2)%float
      /\ Binary64.total_score c = 7%float
      /\ Binary64.gap_score c = 2%float
      /\ Binary64.recompute [] c = 2%float)
  /\
  (exists c,
      Binary64.identify_top_underserved_markets
        repeated_mention_combined_data
      = Ok [c]
      /\ Binary64.total_score c = (0 + 4 + 2.5 + 10 + 1)%float
      /\ Binary64.total_score c = 17.5%float
      /\ Binary64.mention_score c = 10%float
      /\ Binary64.sentiment_score c = 1%float
      /\ Binary64.recompute [] c = 11%float).
Proof.
  split; [| split].
  - intros combined_data i Hread. exists (Binary64.rank_markets i).
    split; [now apply b64_identify_reads |].
    intros c Hin. apply b64_rank_In in Hin as (k & _ & ->).
    replace (Binary64.name
               (snd (Binary64.align_with i (k, Binary64.collected i k))))
      with k by (symmetry; apply b64_name_collected).
    rewrite b64_align_total.
    cbn [Binary64.align_with Binary64.align snd fst Binary64.gap_score
         Binary64.mention_score Binary64.sentiment_score].
    unfold Binary64.collected.
    rewrite b64_mention_total, b64_underserved_total.
    rewrite b64_mention_keeps_gap, b64_underserved_gap.
    destruct (b64_mention_scores
                k (Binary64.market_mentions i)
                (fold_left (Binary64.apply_underserved k)
                           (Binary64.underserved_markets i)
                           (Binary64.new_candidate k))) as [Hm Hs].
    cbv zeta in Hm, Hs. rewrite Hm, Hs.
    assert (Hkeep : forall us c0,
               Binary64.mention_score
                 (fold_left (Binary64.apply_underserved k) us c0)
               = Binary64.mention_score c0
               /\ Binary64.sentiment_score
                    (fold_left (Binary64.apply_underserved k) us c0)
                  = Binary64.sentiment_score c0).
    { induction us as [|u us IH]; intros c0; simpl; [now split |].
      rewrite (proj1 (IH _)), (proj2 (IH _)).
      unfold Binary64.apply_underserved.
      now destruct (Binary64.names_underserved k u). }
    rewrite (proj1 (Hkeep _ _)), (proj2 (Hkeep _ _)).
    repeat split; reflexivity.
  - eexists. split; [vm_compute; reflexivity |].
    repeat split; vm_compute; reflexivity.
  - eexists. split; [vm_compute; reflexivity |].
    repeat split; vm_compute; reflexivity.
Qed.

Lemma C10_witness :
  Binary64.read_inputs repeated_combined_data = Ok repeated_records
  /\ exists c,
      Binary64.identify_top_underserved_markets repeated_combined_data
      = Ok [c]
      /\ Binary64.name c = "Telemedicine Services"
      /\ Binary64.total_score c
         = (0 + 0.1 + 0.2 + 0.3 + 4 + 2.5 + 10 + 1 + 0 + 0 + 0)%float
      /\ Binary64.total_score c = 18.1%float
      /\ Binary64.gap_score c = 0.3%float
      /\ Binary64.mention_score c = 10%float
      /\ Binary64.sentiment_score c = 1%float.
Proof.
  split; [vm_compute; reflexivity |].
  destruct (proj1 C10_duplicate_names_accumulate
                  repeated_combined_data repeated_records)
    as (out & Hout & Hall); [vm_compute; reflexivity |].
  vm_compute in Hout. injection Hout as <-.
  eexists. split; [vm_compute; reflexivity |].
  split; [reflexivity |].
  destruct (Hall _ (or_introl eq_refl)) as (Ht & Hg & Hm & Hs).
  split; [rewrite Ht; vm_compute; reflexivity |].
  split; [rewrite Ht; vm_compute; reflexivity |].
  split; [rewrite Hg; vm_compute; reflexivity |].
  split; [rewrite Hm; vm_compute; reflexivity |].
  rewrite Hs. vm_compute. reflexivity.
Defined.

(** X18. For a market whose name occurs in at most one underserved-market
    record and in at most one mention record, the order of the entries
    within the six input lists has no influence on its candidate: a run on
    the same records, sectors, areas and technologies in another order
    returns the very same candidate, with the same total_score.  For a
    duplicated name the order of its records matters: gap scores 0.1, 0.2
    and 0.3 add up to 0.6000000000000001, and in the opposite order to
    0.6. *)
Theorem X18_scores_independent_of_order :
  (forall (combined_data combined_data' : json)
          (i i' : Binary64.Inputs),
      Binary64.read_inputs combined_data = Ok i ->
      Binary64.read_inputs combined_data' = Ok i' ->
      Permutation (Binary64.underserved_markets i)
                  (Binary64.underserved_markets i') ->
      Permutation (Binary64.market_mentions i)
                  (Binary64.market_mentions i') ->
      Permutation (Binary64.growth_sectors i) (Binary64.growth_sectors i') ->
      Permutation (Binary64.hot_investment_areas i)
                  (Binary64.hot_investment_areas i') ->
      Permutation (Binary64.emerging_tech i) (Binary64.emerging_tech i') ->
      Permutation (Binary64.trending_sectors i)
                  (Binary64.trending_sectors i') ->
      exists out out',
        Binary64.identify_top_underserved_markets combined_data = Ok out
        /\ Binary64.identify_top_underserved_markets combined_data'
           = Ok out'
        /\ forall c,
            In c out ->
            (Binary64.count_underserved
               (Binary64.name c) (Binary64.underserved_markets i)
             <= 1)%nat ->
            (Binary64.count_mentions
               (Binary64.name c) (Binary64.market_mentions i) <= 1)%nat ->
            In c out')
  /\ (exists c c',
        Binary64.identify_top_underserved_markets ascending_gaps = Ok [c]
        /\ Binary64.identify_top_underserved_markets descending_gaps
           = Ok [c']
        /\ Binary64.total_score c = 0.6000000000000001%float
        /\ Binary64.total_score c' = 0.6%float
        /\ PrimFloat.eqb (Binary64.total_score c) (Binary64.total_score c')
           = false).
Proof.
  split.
  - intros combined_data combined_data' i i' Hread Hread'
           Pus Pmm Pgs Phs Pes Pts.
    exists (Binary64.rank_markets i), (Binary64.rank_markets i').
    split; [now apply b64_identify_reads |].
    split; [now apply b64_identify_reads |].
    intros c Hin. apply b64_rank_In in Hin as (k & Hk & ->).
    replace (Binary64.name
               (snd (Binary64.align_with i (k, Binary64.collected i k))))
      with k by (symmetry; apply b64_name_collected).
    intros Hus Hmm. apply b64_rank_In. exists k. split.
    + revert Hk. apply Permutation_in. unfold Binary64.names_met.
      apply Permutation_app; now apply Permutation_map.
    + rewrite (b64_collected_perm i i' k Pus Pmm Hus Hmm).
      now rewrite (b64_align_perm i i' k _ Pgs Phs Pes Pts).
  - eexists. eexists. split; [vm_compute; reflexivity |].
    split; [vm_compute; reflexivity |].
    repeat split; vm_compute; reflexivity.
Qed.

Lemma X18_witness :
  Binary64.read_inputs sample_combined_data = Ok sample_records
  /\ Binary64.read_inputs reordered_combined_data = Ok reordered_records
  /\ exists out out' c,
      Binary64.identify_top_underserved_markets sample_combined_data
      = Ok out
      /\ Binary64.identify_top_underserved_markets reordered_combined_data
         = Ok out'
      /\ Binary64.name c = "Remote Work Technology"
      /\ Binary64.total_score c = 19%float
      /\ In c out /\ In c out'.
Proof.
  split; [vm_compute; reflexivity |].
  split; [vm_compute; reflexivity |].
  destruct (proj1 X18_scores_independent_of_order
                  sample_combined_data reordered_combined_data
                  sample_records reordered_records)
    as (out & out' & Hout & Hout' & Hall).
  - vm_compute. reflexivity.
  - vm_compute. reflexivity.
  - simpl. apply Permutation_sym.
    apply (perm_trans (perm_swap _ _ _)).
    apply perm_skip. apply perm_swap.
  - simpl. apply perm_swap.
  - simpl. apply perm_swap.
  - simpl. apply perm_swap.
  - reflexivity.
  - reflexivity.
  - vm_compute in Hout. injection Hout as <-.
    match type of Hall with
    | forall c, In c (?first :: ?rest) -> _ =>
        exists (first :: rest), out', first
    end.
    split; [vm_compute; reflexivity |].
    split; [exact Hout' |]. split; [reflexivity |].
    split; [reflexivity |]. split; [now left |].
    apply Hall; [now left | vm_compute; lia | vm_compute; lia].
Defined.
